(** * GuidedHRTFs measurement engine: sweep synthesis, channel routing,
      deconvolution and the measurement session of [measurement.py].

    Conventions of the embedding.
    - A numpy sample is read as an exact real number ([R]); rounding, [inf]
      and [nan] of IEEE arithmetic are not represented.  Integers that the
      program uses as sizes and channel indices are [Z] or [nat].
    - A 1-D array is a [list R]; a 2-D array records its number of rows and
      the list of its columns, so that an array with zero columns still has
      a shape.
    - A Python exception is a value [Raised e]; a method of the session is a
      function from the session state to the new state and an outcome, so
      that the attributes written before an exception stay written.
    - The audio device, the random generator, the filter design routines and
      the resampler are collaborators outside the repository; they are the
      fields of a [Backend] record. *)

From Stdlib Require Import String Reals ZArith List Bool Arith Lia Lra.
Import ListNotations.


(** ** Python outcomes *)

Inductive exn : Set :=
| IndexError
| ValueError
| TypeError
| AttributeError
| PortAudioError.

Inductive outcome (A : Type) : Type :=
| Returned (a : A)
| Raised (e : exn).

Arguments Returned {A} a.
Arguments Raised {A} e.

Definition obind {A B : Type} (o : outcome A) (f : A -> outcome B) : outcome B :=
  match o with
  | Returned a => f a
  | Raised e => Raised e
  end.

Definition is_returned {A : Type} (o : outcome A) : bool :=
  match o with
  | Returned _ => true
  | Raised _ => false
  end.

Declare Scope py_scope.
Delimit Scope py_scope with py.
Notation "'let*' x ':=' c 'in' k" := (obind c (fun x => k))
  (at level 10, x name, c at level 100, k at level 200) : py_scope.
Open Scope py_scope.

(** [x[i]] on a Python list, for an index the code writes as a literal. *)
Definition py_getitem {A : Type} (l : list A) (i : nat) : outcome A :=
  match nth_error l i with
  | Some a => Returned a
  | None => Raised IndexError
  end.

(** [l[i] = v] on a Python list. *)
Fixpoint list_set {A : Type} (l : list A) (i : nat) (v : A) : list A :=
  match l, i with
  | [], _ => []
  | _ :: t, O => v :: t
  | h :: t, S j => h :: list_set t j v
  end.

Definition py_setitem {A : Type} (l : list A) (i : nat) (v : A) : outcome (list A) :=
  if Nat.ltb i (length l) then Returned (list_set l i v) else Raised IndexError.

(** The builtin [max] on a list of integers. *)
Definition py_max (l : list Z) : outcome Z :=
  match l with
  | [] => Raised ValueError
  | h :: t => Returned (fold_left Z.max t h)
  end.

(** [int(r)] truncates towards zero. *)
Definition py_int (r : R) : Z :=
  if Rle_dec 0 r then Int_part r else (- Int_part (- r))%Z.

(** [round(r)] with one argument: nearest integer, ties to even. *)
Definition py_round (r : R) : Z :=
  let f := Int_part r in
  let d := (r - IZR f)%R in
  if Rlt_dec d (1 / 2) then f
  else if Rlt_dec (1 / 2) d then (f + 1)%Z
  else if Z.even f then f else (f + 1)%Z.

(** ** numpy arrays *)

Record array2 : Type := mkArray2 {
  nrows : nat;
  columns : list (list R)
}.

Definition ncols (a : array2) : nat := length (columns a).

(** The bounds of a slice [a:b] of a sequence of length [len]. *)
Definition slice_bound (len i : Z) : Z :=
  if (i <? 0)%Z then Z.max 0 (i + len) else Z.min i len.

(** [w[start:stop] = src] on a 1-D array: the source must have the shape of
    the slice or a single element. *)
Definition slice_assign (w : list R) (start stop : Z) (src : list R)
  : outcome (list R) :=
  let len := Z.of_nat (length w) in
  let a := slice_bound len start in
  let b := slice_bound len stop in
  let m := Z.to_nat (Z.max 0 (b - a)) in
  let pre := firstn (Z.to_nat a) w in
  let post := skipn (Z.to_nat a + m) w in
  if Nat.eqb (length src) m then Returned (pre ++ src ++ post)
  else if Nat.eqb (length src) 1 then Returned (pre ++ repeat (hd 0%R src) m ++ post)
  else Raised ValueError.

(** An index into an axis of [len] entries; a negative index counts from
    the end. *)
Definition norm_index (len : nat) (i : Z) : outcome nat :=
  if (0 <=? i)%Z then
    if (i <? Z.of_nat len)%Z then Returned (Z.to_nat i) else Raised IndexError
  else
    if (0 <=? i + Z.of_nat len)%Z then Returned (Z.to_nat (i + Z.of_nat len))
    else Raised IndexError.

Fixpoint norm_indices (len : nat) (idx : list Z) : outcome (list nat) :=
  match idx with
  | [] => Returned []
  | i :: rest =>
      let* j := norm_index len i in
      let* js := norm_indices len rest in
      Returned (j :: js)
  end.

(** [np.zeros([n, c])]. *)
Definition np_zeros2 (n : nat) (c : Z) : outcome array2 :=
  if (c <? 0)%Z then Raised ValueError
  else Returned (mkArray2 n (repeat (repeat 0%R n) (Z.to_nat c))).

(** [a[:, i]]. *)
Definition get_col (a : array2) (i : Z) : outcome (list R) :=
  let* j := norm_index (ncols a) i in
  Returned (nth j (columns a) []).

(** The rows of a column of the source as they are broadcast to [n] rows. *)
Definition broadcast_rows (n : nat) (src_rows : nat) (col : list R)
  : outcome (list R) :=
  if Nat.eqb src_rows n then Returned col
  else if Nat.eqb src_rows 1 then Returned (repeat (hd 0%R col) n)
  else Raised ValueError.

(** The writes of [a[:, idx] = src], one selected column after the other;
    [k] counts the selected columns already written. *)
Fixpoint write_cols (cols : list (list R)) (js : list nat) (src : array2)
  (n k : nat) : outcome (list (list R)) :=
  match js with
  | [] => Returned cols
  | j :: rest =>
      let from := if Nat.eqb (ncols src) 1 then O else k in
      let* c := broadcast_rows n (nrows src) (nth from (columns src) []) in
      write_cols (list_set cols j c) rest src n (S k)
  end.

(** [a[:, idx] = src] with a list of column indices: the source has one
    column or as many columns as are selected. *)
Definition assign_cols (a : array2) (idx : list Z) (src : array2)
  : outcome array2 :=
  let* js := norm_indices (ncols a) idx in
  if Nat.eqb (ncols src) 1 || Nat.eqb (ncols src) (length js) then
    let* cols := write_cols (columns a) js src (nrows a) 0 in
    Returned (mkArray2 (nrows a) cols)
  else Raised ValueError.

(** [np.expand_dims(v, axis=1)]. *)
Definition expand_dims1 (v : list R) : array2 := mkArray2 (length v) [v].

(** [np.pad(v, (pre, post))] with zeros. *)
Definition np_pad (v : list R) (pre post : Z) : outcome (list R) :=
  if (pre <? 0)%Z || (post <? 0)%Z then Raised ValueError
  else Returned (repeat 0%R (Z.to_nat pre) ++ v ++ repeat 0%R (Z.to_nat post)).

(** [np.linspace(a, b, num)]. *)
Definition linspace (a b : R) (num : Z) : outcome (list R) :=
  if (num <? 0)%Z then Raised ValueError
  else
    let n := Z.to_nat num in
    let step := ((b - a) / (INR n - 1))%R in
    Returned (map (fun i => (a + INR i * step)%R) (seq 0 n)).

(** Elementwise product of two 1-D arrays with numpy broadcasting. *)
Definition bcast2 {A : Type} (f : A -> A -> A) (d : A) (u v : list A)
  : outcome (list A) :=
  if Nat.eqb (length u) (length v) then
    Returned (map (fun p => f (fst p) (snd p)) (combine u v))
  else if Nat.eqb (length u) 1 then Returned (map (f (hd d u)) v)
  else if Nat.eqb (length v) 1 then Returned (map (fun a => f a (hd d v)) u)
  else Raised ValueError.

(** ** Complex numbers and the discrete Fourier transform *)

Definition C : Type := (R * R)%type.

Definition C0 : C := (0%R, 0%R).
Definition RtoC (x : R) : C := (x, 0%R).
Definition Cadd (z w : C) : C := ((fst z + fst w)%R, (snd z + snd w)%R).
Definition Cmul (z w : C) : C :=
  ((fst z * fst w - snd z * snd w)%R, (fst z * snd w + snd z * fst w)%R).
Definition Cdiv (z w : C) : C :=
  let d := (fst w * fst w + snd w * snd w)%R in
  (((fst z * fst w + snd z * snd w) / d)%R,
   ((snd z * fst w - fst z * snd w) / d)%R).
Definition Cscale (r : R) (z : C) : C := ((r * fst z)%R, (r * snd z)%R).
Definition Cconj (z : C) : C := (fst z, (- snd z)%R).

(** [np.abs] of a complex number. *)
Definition Cabs (z : C) : R := sqrt (fst z * fst z + snd z * snd z).

(** [np.arctan2(y, x)]. *)
Definition arctan2 (y x : R) : R :=
  if Rlt_dec 0 x then atan (y / x)
  else if Rlt_dec x 0 then
    if Rle_dec 0 y then (atan (y / x) + PI)%R else (atan (y / x) - PI)%R
  else if Rlt_dec 0 y then (PI / 2)%R
  else if Rlt_dec y 0 then (- (PI / 2))%R
  else 0%R.

(** [np.angle]. *)
Definition angle (z : C) : R := arctan2 (snd z) (fst z).

(** [np.exp(1j * t)]. *)
Definition Cexp_i (t : R) : C := (cos t, sin t).

Definition csum (l : list C) : C := fold_right Cadd C0 l.

(** A sequence cropped or zero-padded to [n] entries. *)
Definition resize {A : Type} (d : A) (n : nat) (l : list A) : list A :=
  firstn n l ++ repeat d (n - length l).

(** One bin of the transform of length [N]; [sgn] is [-1] forwards and [1]
    backwards. *)
Definition dft_bin (sgn : R) (x : list C) (N k : nat) : C :=
  csum (map (fun n =>
               Cmul (nth n x C0)
                    (Cexp_i (sgn * 2 * PI * INR k * INR n / INR N)))
            (seq 0 N)).

(** [numpy.fft.fft(x)]. *)
Definition fft (x : list R) : outcome (list C) :=
  match x with
  | [] => Raised ValueError
  | _ =>
      let N := length x in
      Returned (map (dft_bin (-1) (map RtoC x) N) (seq 0 N))
  end.

(** [numpy.fft.ifft(X).real]. *)
Definition ifft_real (X : list C) : outcome (list R) :=
  match X with
  | [] => Raised ValueError
  | _ =>
      let N := length X in
      Returned (map (fun n => (fst (dft_bin 1 X N n) / INR N)%R) (seq 0 N))
  end.

(** [numpy.fft.rfft(x, n)]: the input is cropped or zero-padded to [n]
    samples and the bins [0 .. n/2] are returned. *)
Definition rfft (x : list R) (n : Z) : outcome (list C) :=
  if (n <? 1)%Z then Raised ValueError
  else
    let N := Z.to_nat n in
    Returned (map (dft_bin (-1) (map RtoC (resize 0%R N x)) N)
                  (seq 0 (N / 2 + 1))).

(** The full spectrum of length [N] that a half spectrum stands for: the
    imaginary parts of the first bin and, for even [N], of the middle bin,
    are dropped. *)
Definition hermitian_bin (H : list C) (N k : nat) : C :=
  if Nat.eqb k 0 then RtoC (fst (nth 0 H C0))
  else if Nat.even N && Nat.eqb k (N / 2) then RtoC (fst (nth k H C0))
  else if Nat.leb k (N / 2) then nth k H C0
  else Cconj (nth (N - k) H C0).

(** [numpy.fft.irfft(H, n)]. *)
Definition irfft (H : list C) (n : Z) : outcome (list R) :=
  if (n <? 1)%Z then Raised ValueError
  else
    let N := Z.to_nat n in
    let Hn := resize C0 (N / 2 + 1) H in
    let full := map (hermitian_bin Hn N) (seq 0 N) in
    Returned (map (fun m => (fst (dft_bin 1 full N m) / INR N)%R) (seq 0 N)).

(** [np.min] of a 1-D array. *)
Definition np_min (l : list R) : outcome R :=
  match l with
  | [] => Raised ValueError
  | h :: t => Returned (fold_left Rmin t h)
  end.

(** [a.max()] of a 1-D array. *)
Definition np_max (l : list R) : outcome R :=
  match l with
  | [] => Raised ValueError
  | h :: t => Returned (fold_left Rmax t h)
  end.

(** [scipy.signal.unit_impulse(n)]. *)
Definition unit_impulse (n : Z) : outcome (list R) :=
  if (n <? 0)%Z then Raised ValueError
  else match Z.to_nat n with
       | O => Raised IndexError
       | S k => Returned (1%R :: repeat 0%R k)
       end.

(** [scipy.signal.chirp(t, f0, t1, f1, method='logarithmic', phi)], from the
    library's documentation: the phase is
    [2 pi f0 t1 / ln (f1/f0) * ((f1/f0)^(t/t1) - 1)] and the signal its
    cosine shifted by [phi] degrees. *)
Definition chirp_log (t : list R) (f0 t1 f1 phi : R) : outcome (list R) :=
  if Rle_dec (f0 * f1) 0 then Raised ValueError
  else
    let phase (u : R) : R :=
      if Req_dec_T f0 f1 then (2 * PI * f0 * u)%R
      else (2 * PI * (t1 / ln (f1 / f0)) * f0 * (Rpower (f1 / f0) (u / t1) - 1))%R in
    Returned (map (fun u => cos (phase u + phi * PI / 180)) t).

(** ** Signal functions of [measurement.py] *)

(** The transform length of [deconv] and [deconvolve]:
    [int(pow(2, np.ceil(np.log2(input_length)) + 1))].  For an empty input
    [np.log2] is [-inf] and the power is [0.0]. *)
Definition fft_size (input_length : nat) : Z :=
  match input_length with
  | O => 0%Z
  | _ => (2 ^ (Z.log2_up (Z.of_nat input_length) + 1))%Z
  end.

(** The squared cosine fade shared by [deconv] and [make_excitation_sweep]:
    [[
    fade_tmp = np.cos(np.linspace(0, np.pi / 2, fade)) ** 2
    window = np.ones(size)
    window[np.size(window) - fade: np.size(window)] = fade_tmp
    ]] *)
Definition fade_window (size : nat) (fade : Z) : outcome (list R) :=
  let* ramp := linspace 0 (PI / 2) fade in
  let fade_tmp := map (fun t => (cos t ^ 2)%R) ramp in
  let window := repeat 1%R size in
  let n := Z.of_nat (length window) in
  slice_assign window (n - fade) n fade_tmp.

(** [deconv] up to the truncation: lines 12 to 23. *)
Definition deconv_unwindowed (x y : list R) : outcome (list R) :=
  let input_length := length y in
  let padded_length := fft_size input_length in
  let num_zeros_to_append := (padded_length - Z.of_nat input_length)%Z in
  let* x := np_pad x 0 num_zeros_to_append in
  let* y := np_pad y 0 num_zeros_to_append in
  let* Y := fft y in
  let* X := fft x in
  let* q := bcast2 Cdiv C0 Y X in
  let* h := ifft_real q in
  Returned (firstn input_length h).

Definition deconv (x y : list R) : outcome (list R) :=
  let* h := deconv_unwindowed x y in
  let fadeout_length := 2000%Z in
  let* window := fade_window (length h) fadeout_length in
  bcast2 Rmult 0%R h window.

(** A filter argument of [deconvolve], the list [[cutoff, order, repetitions]]. *)
Record filter_spec : Type := mkFilter {
  cutoff : R;
  order : Z;
  repetitions : Z
}.

(** The collaborators outside the repository. *)
Record Backend : Type := mkBackend {
  sos : Type;
  (** [scipy.signal.butter(order, cutoff, kind, fs=fs, output='sos')];
      the boolean is [true] for ['lowpass'] *)
  butter : Z -> R -> bool -> R -> outcome sos;
  sosfilt : sos -> list R -> list R;
  resample_poly : list R -> Z -> Z -> outcome (list R);
  (** [scipy.io.wavfile.read] of the two notification sounds *)
  wave_read : bool -> outcome (Z * list R);
  (** [sd.check_input_settings(channels=c)] at the default sample rate;
      [false] stands for the exception of the device *)
  check_input_settings : Z -> option R -> bool;
  check_output_settings : Z -> option R -> bool;
  (** [sd.playrec(excitation, channels=c)] followed by [sd.wait()] *)
  playrec : array2 -> Z -> outcome array2;
  (** [np.random.random_sample(shape)] *)
  random_sample : nat -> list R
}.

(** The dynamic limiting of the inverse spectrum:
    [[
    min_mag = np.min(np.abs(X_inv))
    mag_limit = min_mag * pow(10, np.abs(max_inv_dyn) / 20)
    ids_exceed = np.where(abs(X_inv) > mag_limit)
    X_inv[ids_exceed] = mag_limit * np.exp(1j * np.angle(X_inv[ids_exceed]))
    ]] *)
Definition mag_limit_of (max_inv_dyn min_mag : R) : R :=
  (min_mag * Rpower 10 (Rabs max_inv_dyn / 20))%R.

Definition clip_bin (mag_limit : R) (z : C) : C :=
  if Rlt_dec mag_limit (Cabs z) then Cscale mag_limit (Cexp_i (angle z)) else z.

Definition clip_inverse (max_inv_dyn : R) (X_inv : list C) : outcome (list C) :=
  let* min_mag := np_min (map Cabs X_inv) in
  let mag_limit := mag_limit_of max_inv_dyn min_mag in
  Returned (map (clip_bin mag_limit) X_inv).

Section SignalProcessing.

Variable be : Backend.

(** One of the two filters pushed through a Butterworth cascade. *)
Definition cascade (lowpass_kind : bool) (spec : option filter_spec) (fs : R)
  (impulse : list R) : outcome (list R) :=
  match spec with
  | None => Returned impulse
  | Some f =>
      let* s := butter be (order f) (cutoff f) lowpass_kind fs in
      Returned (Nat.iter (Z.to_nat (repetitions f)) (sosfilt be s) impulse)
  end.

Definition bandpass (N_fft : Z) (fs : R) (lowpass highpass : option filter_spec)
  (X_inv : list C) : outcome (list C) :=
  match lowpass, highpass with
  | None, None => Returned X_inv
  | _, _ =>
      let* impulse := unit_impulse N_fft in
      let* lp_filter := cascade true lowpass fs impulse in
      let* lp_filter := rfft lp_filter (Z.of_nat (length lp_filter)) in
      let* hp_filter := cascade false highpass fs impulse in
      let* hp_filter := rfft hp_filter (Z.of_nat (length hp_filter)) in
      let* lp_hp_filter := bcast2 Cmul C0 hp_filter lp_filter in
      bcast2 Cmul C0 X_inv lp_hp_filter
  end.

Definition deconvolve (x y : list R) (fs : R) (max_inv_dyn : option R)
  (lowpass highpass : option filter_spec) : outcome (list R) :=
  let input_length := length x in
  let N_fft := fft_size input_length in
  let* X_f := rfft x N_fft in
  let* Y_f := rfft y N_fft in
  let X_inv := map (Cdiv (RtoC 1)) X_f in
  let* X_inv := match max_inv_dyn with
                | None => Returned X_inv
                | Some D => clip_inverse D X_inv
                end in
  let* X_inv := bandpass N_fft fs lowpass highpass X_inv in
  let* H := bcast2 Cmul C0 Y_f X_inv in
  let* h := irfft H N_fft in
  Returned (firstn input_length h).

End SignalProcessing.

(** The sweep of [make_excitation_sweep] before the silence is padded:
    lines 92 to 102. *)
Definition faded_sweep (fs d_sweep_sec f_start f_end amp_db : R)
  (fade_out_samples : Z) : outcome (list R) :=
  let amplitude_lin := Rpower 10 (amp_db / 20) in
  let* t_sweep := linspace 0 d_sweep_sec (py_int (d_sweep_sec * fs)) in
  let* ch := chirp_log t_sweep f_start d_sweep_sec f_end 90 in
  let sweep := map (Rmult amplitude_lin) ch in
  let* window := fade_window (length sweep) fade_out_samples in
  bcast2 Rmult 0%R sweep window.

Definition make_excitation_sweep (fs : R) (num_channels : nat)
  (d_sweep_sec d_post_silence_sec f_start f_end amp_db : R)
  (fade_out_samples : Z) : outcome array2 :=
  let* sweep := faded_sweep fs d_sweep_sec f_start f_end amp_db fade_out_samples in
  let pre_silence := py_int (fs * (1 / 100)) in
  let post_silence := py_int (fs * d_post_silence_sec) in
  let* excitation := np_pad sweep pre_silence post_silence in
  Returned (mkArray2 (length excitation) (repeat excitation num_channels)).

(** ** The measurement session *)

Record SweepParameters : Type := mkSweepParameters {
  sweeplength_sec : R;
  post_silence_sec : R;
  f_start : R;
  f_end : R;
  amp_db : R;
  fade_out_samples : Z
}.

(** The attributes of a [Measurement] object.  An attribute that holds
    [None] in Python is [None] here.  [attr_fs] is the attribute [fs] that
    [get_irs] reads: no statement of the class assigns it, so it is present
    only when a caller has set it on the object.  [sd_default_samplerate]
    is the process-wide [sd.default.samplerate]. *)
Record Measurement : Type := mkMeasurement {
  dummy_debugging : bool;
  sweep_parameters : SweepParameters;
  sound_success_fs : Z;
  sound_success_singlechannel : list R;
  sound_failed_fs : Z;
  sound_failed_singlechannel : list R;
  channel_layout_input : list Z;
  channel_layout_output : list Z;
  num_input_channels_used : Z;
  num_output_channels_used : Z;
  feedback_loop_used : bool;
  sweep_mono : option array2;
  sweep_hpc_mono : option array2;
  excitation : option array2;
  excitation_hpc : option array2;
  sound_success : option array2;
  sound_failed : option array2;
  recorded_sweep_l : option (list R);
  recorded_sweep_r : option (list R);
  feedback_loop : option (list R);
  attr_fs : option R;
  sd_default_samplerate : option R
}.

Definition with_sweep_parameters (v : SweepParameters) (s : Measurement) :=
  mkMeasurement (dummy_debugging s) v (sound_success_fs s)
    (sound_success_singlechannel s) (sound_failed_fs s)
    (sound_failed_singlechannel s) (channel_layout_input s)
    (channel_layout_output s) (num_input_channels_used s)
    (num_output_channels_used s) (feedback_loop_used s) (sweep_mono s)
    (sweep_hpc_mono s) (excitation s) (excitation_hpc s) (sound_success s)
    (sound_failed s) (recorded_sweep_l s) (recorded_sweep_r s)
    (feedback_loop s) (attr_fs s) (sd_default_samplerate s).

Definition with_layout (i o : list Z) (s : Measurement) :=
  mkMeasurement (dummy_debugging s) (sweep_parameters s) (sound_success_fs s)
    (sound_success_singlechannel s) (sound_failed_fs s)
    (sound_failed_singlechannel s) i o (num_input_channels_used s)
    (num_output_channels_used s) (feedback_loop_used s) (sweep_mono s)
    (sweep_hpc_mono s) (excitation s) (excitation_hpc s) (sound_success s)
    (sound_failed s) (recorded_sweep_l s) (recorded_sweep_r s)
    (feedback_loop s) (attr_fs s) (sd_default_samplerate s).

Definition with_num_output_channels_used (v : Z) (s : Measurement) :=
  mkMeasurement (dummy_debugging s) (sweep_parameters s) (sound_success_fs s)
    (sound_success_singlechannel s) (sound_failed_fs s)
    (sound_failed_singlechannel s) (channel_layout_input s)
    (channel_layout_output s) (num_input_channels_used s) v
    (feedback_loop_used s) (sweep_mono s) (sweep_hpc_mono s) (excitation s)
    (excitation_hpc s) (sound_success s) (sound_failed s)
    (recorded_sweep_l s) (recorded_sweep_r s) (feedback_loop s) (attr_fs s)
    (sd_default_samplerate s).

Definition with_num_input_channels_used (v : Z) (s : Measurement) :=
  mkMeasurement (dummy_debugging s) (sweep_parameters s) (sound_success_fs s)
    (sound_success_singlechannel s) (sound_failed_fs s)
    (sound_failed_singlechannel s) (channel_layout_input s)
    (channel_layout_output s) v (num_output_channels_used s)
    (feedback_loop_used s) (sweep_mono s) (sweep_hpc_mono s) (excitation s)
    (excitation_hpc s) (sound_success s) (sound_failed s)
    (recorded_sweep_l s) (recorded_sweep_r s) (feedback_loop s) (attr_fs s)
    (sd_default_samplerate s).

Definition with_feedback_loop_used (v : bool) (s : Measurement) :=
  mkMeasurement (dummy_debugging s) (sweep_parameters s) (sound_success_fs s)
    (sound_success_singlechannel s) (sound_failed_fs s)
    (sound_failed_singlechannel s) (channel_layout_input s)
    (channel_layout_output s) (num_input_channels_used s)
    (num_output_channels_used s) v (sweep_mono s) (sweep_hpc_mono s)
    (excitation s) (excitation_hpc s) (sound_success s) (sound_failed s)
    (recorded_sweep_l s) (recorded_sweep_r s) (feedback_loop s) (attr_fs s)
    (sd_default_samplerate s).

Definition with_sweep_mono (v : option array2) (s : Measurement) :=
  mkMeasurement (dummy_debugging s) (sweep_parameters s) (sound_success_fs s)
    (sound_success_singlechannel s) (sound_failed_fs s)
    (sound_failed_singlechannel s) (channel_layout_input s)
    (channel_layout_output s) (num_input_channels_used s)
    (num_output_channels_used s) (feedback_loop_used s) v (sweep_hpc_mono s)
    (excitation s) (excitation_hpc s) (sound_success s) (sound_failed s)
    (recorded_sweep_l s) (recorded_sweep_r s) (feedback_loop s) (attr_fs s)
    (sd_default_samplerate s).

Definition with_sweep_hpc_mono (v : option array2) (s : Measurement) :=
  mkMeasurement (dummy_debugging s) (sweep_parameters s) (sound_success_fs s)
    (sound_success_singlechannel s) (sound_failed_fs s)
    (sound_failed_singlechannel s) (channel_layout_input s)
    (channel_layout_output s) (num_input_channels_used s)
    (num_output_channels_used s) (feedback_loop_used s) (sweep_mono s) v
    (excitation s) (excitation_hpc s) (sound_success s) (sound_failed s)
    (recorded_sweep_l s) (recorded_sweep_r s) (feedback_loop s) (attr_fs s)
    (sd_default_samplerate s).

Definition with_excitation (v : option array2) (s : Measurement) :=
  mkMeasurement (dummy_debugging s) (sweep_parameters s) (sound_success_fs s)
    (sound_success_singlechannel s) (sound_failed_fs s)
    (sound_failed_singlechannel s) (channel_layout_input s)
    (channel_layout_output s) (num_input_channels_used s)
    (num_output_channels_used s) (feedback_loop_used s) (sweep_mono s)
    (sweep_hpc_mono s) v (excitation_hpc s) (sound_success s)
    (sound_failed s) (recorded_sweep_l s) (recorded_sweep_r s)
    (feedback_loop s) (attr_fs s) (sd_default_samplerate s).

Definition with_excitation_hpc (v : option array2) (s : Measurement) :=
  mkMeasurement (dummy_debugging s) (sweep_parameters s) (sound_success_fs s)
    (sound_success_singlechannel s) (sound_failed_fs s)
    (sound_failed_singlechannel s) (channel_layout_input s)
    (channel_layout_output s) (num_input_channels_used s)
    (num_output_channels_used s) (feedback_loop_used s) (sweep_mono s)
    (sweep_hpc_mono s) (excitation s) v (sound_success s) (sound_failed s)
    (recorded_sweep_l s) (recorded_sweep_r s) (feedback_loop s) (attr_fs s)
    (sd_default_samplerate s).

Definition with_sound_success (v : option array2) (s : Measurement) :=
  mkMeasurement (dummy_debugging s) (sweep_parameters s) (sound_success_fs s)
    (sound_success_singlechannel s) (sound_failed_fs s)
    (sound_failed_singlechannel s) (channel_layout_input s)
    (channel_layout_output s) (num_input_channels_used s)
    (num_output_channels_used s) (feedback_loop_used s) (sweep_mono s)
    (sweep_hpc_mono s) (excitation s) (excitation_hpc s) v (sound_failed s)
    (recorded_sweep_l s) (recorded_sweep_r s) (feedback_loop s) (attr_fs s)
    (sd_default_samplerate s).

Definition with_sound_failed (v : option array2) (s : Measurement) :=
  mkMeasurement (dummy_debugging s) (sweep_parameters s) (sound_success_fs s)
    (sound_success_singlechannel s) (sound_failed_fs s)
    (sound_failed_singlechannel s) (channel_layout_input s)
    (channel_layout_output s) (num_input_channels_used s)
    (num_output_channels_used s) (feedback_loop_used s) (sweep_mono s)
    (sweep_hpc_mono s) (excitation s) (excitation_hpc s) (sound_success s) v
    (recorded_sweep_l s) (recorded_sweep_r s) (feedback_loop s) (attr_fs s)
    (sd_default_samplerate s).

Definition with_recorded_sweep_l (v : option (list R)) (s : Measurement) :=
  mkMeasurement (dummy_debugging s) (sweep_parameters s) (sound_success_fs s)
    (sound_success_singlechannel s) (sound_failed_fs s)
    (sound_failed_singlechannel s) (channel_layout_input s)
    (channel_layout_output s) (num_input_channels_used s)
    (num_output_channels_used s) (feedback_loop_used s) (sweep_mono s)
    (sweep_hpc_mono s) (excitation s) (excitation_hpc s) (sound_success s)
    (sound_failed s) v (recorded_sweep_r s) (feedback_loop s) (attr_fs s)
    (sd_default_samplerate s).

Definition with_recorded_sweep_r (v : option (list R)) (s : Measurement) :=
  mkMeasurement (dummy_debugging s) (sweep_parameters s) (sound_success_fs s)
    (sound_success_singlechannel s) (sound_failed_fs s)
    (sound_failed_singlechannel s) (channel_layout_input s)
    (channel_layout_output s) (num_input_channels_used s)
    (num_output_channels_used s) (feedback_loop_used s) (sweep_mono s)
    (sweep_hpc_mono s) (excitation s) (excitation_hpc s) (sound_success s)
    (sound_failed s) (recorded_sweep_l s) v (feedback_loop s) (attr_fs s)
    (sd_default_samplerate s).

Definition with_feedback_loop (v : option (list R)) (s : Measurement) :=
  mkMeasurement (dummy_debugging s) (sweep_parameters s) (sound_success_fs s)
    (sound_success_singlechannel s) (sound_failed_fs s)
    (sound_failed_singlechannel s) (channel_layout_input s)
    (channel_layout_output s) (num_input_channels_used s)
    (num_output_channels_used s) (feedback_loop_used s) (sweep_mono s)
    (sweep_hpc_mono s) (excitation s) (excitation_hpc s) (sound_success s)
    (sound_failed s) (recorded_sweep_l s) (recorded_sweep_r s) v (attr_fs s)
    (sd_default_samplerate s).

Definition with_sd_default_samplerate (v : option R) (s : Measurement) :=
  mkMeasurement (dummy_debugging s) (sweep_parameters s) (sound_success_fs s)
    (sound_success_singlechannel s) (sound_failed_fs s)
    (sound_failed_singlechannel s) (channel_layout_input s)
    (channel_layout_output s) (num_input_channels_used s)
    (num_output_channels_used s) (feedback_loop_used s) (sweep_mono s)
    (sweep_hpc_mono s) (excitation s) (excitation_hpc s) (sound_success s)
    (sound_failed s) (recorded_sweep_l s) (recorded_sweep_r s)
    (feedback_loop s) (attr_fs s) v.

(** A method body: the session before, the session after, and what the
    body returned or raised. *)
Definition M (A : Type) : Type := Measurement -> Measurement * outcome A.

Definition mret {A : Type} (a : A) : M A := fun s => (s, Returned a).

Definition mbind {A B : Type} (c : M A) (k : A -> M B) : M B :=
  fun s =>
    match c s with
    | (s', Returned a) => k a s'
    | (s', Raised e) => (s', Raised e)
    end.

Definition lift {A : Type} (o : outcome A) : M A := fun s => (s, o).
Definition gets {A : Type} (f : Measurement -> A) : M A :=
  fun s => (s, Returned (f s)).
Definition modify (f : Measurement -> Measurement) : M unit :=
  fun s => (f s, Returned tt).

(** Reading an attribute that must hold an array. *)
Definition deref {A : Type} (f : Measurement -> option A) : M A :=
  fun s => match f s with
           | Some a => (s, Returned a)
           | None => (s, Raised TypeError)
           end.

Notation "x <- c ;; k" := (mbind c (fun x => k))
  (at level 61, c at next level, right associativity) : py_scope.
Notation "c ;;; k" := (mbind c (fun _ => k))
  (at level 61, right associativity) : py_scope.

Section Session.

Variable be : Backend.

(** The pair of statements
    [[
    self.buf = np.zeros([np.size(src, 0), self.num_output_channels_used])
    self.buf[:, idx] = src
    ]]
    for the attribute written by [store]. *)
Definition route (src : array2) (idx : list Z)
  (store : option array2 -> Measurement -> Measurement) : M unit :=
  num <- gets num_output_channels_used ;;
  z <- lift (np_zeros2 (nrows src) num) ;;
  modify (store (Some z)) ;;;
  a <- lift (assign_cols z idx src) ;;
  modify (store (Some a)).

Definition prepare_audio : M unit :=
  fs <- deref sd_default_samplerate ;;
  p <- gets sweep_parameters ;;
  sw <- lift (make_excitation_sweep fs 1 (sweeplength_sec p)
                (post_silence_sec p) (f_start p) (f_end p) (amp_db p)
                (fade_out_samples p)) ;;
  modify (with_sweep_mono (Some sw)) ;;;
  dbg <- gets dummy_debugging ;;
  (if dbg then
     sw <- lift (make_excitation_sweep fs 1 (1 / 100) (1 / 100) 100 20000
                   (-20) 0) ;;
     modify (with_sweep_mono (Some sw))
   else mret tt) ;;;
  hpc <- lift (make_excitation_sweep fs 1 2 1 20 20000 (-20) 0) ;;
  modify (with_sweep_hpc_mono (Some hpc)) ;;;
  ok_data <- gets sound_success_singlechannel ;;
  ok_fs <- gets sound_success_fs ;;
  sound_success_src <- lift (resample_poly be ok_data (py_round fs) ok_fs) ;;
  ko_data <- gets sound_failed_singlechannel ;;
  ko_fs <- gets sound_failed_fs ;;
  sound_failed_src <- lift (resample_poly be ko_data (py_round fs) ko_fs) ;;
  layout <- gets channel_layout_output ;;
  used <- gets feedback_loop_used ;;
  let out_channels := if used then layout else firstn 2 layout in
  mono <- deref sweep_mono ;;
  route mono out_channels with_excitation ;;;
  hpc_mono <- deref sweep_hpc_mono ;;
  route hpc_mono out_channels with_excitation_hpc ;;;
  route (expand_dims1 sound_success_src) (firstn 2 out_channels)
        with_sound_success ;;;
  route (expand_dims1 sound_failed_src) (firstn 2 out_channels)
        with_sound_failed.

Definition default_sweep_parameters : SweepParameters :=
  mkSweepParameters 3 (3 / 2) 100 22000 (-20) 200.

(** The attributes as [__init__] has assigned them when it calls
    [prepare_audio]; [ok] and [ko] are what [wave.read] returned. *)
Definition fresh_session (samplerate : option R) (ok ko : Z * list R)
  : Measurement :=
  let level (v : R) : R := (v * (5 / 100) / 32768)%R in
  mkMeasurement false default_sweep_parameters
    (fst ok) (map level (snd ok)) (fst ko) (map level (snd ko))
    [0; 1; -1]%Z [0; 1; -1]%Z 2 2 false
    None None None None None None None None None
    None
    (match samplerate with
     | None => Some 48000%R
     | Some v => Some v
     end).

(** [Measurement()], for the value that [sd.default.samplerate] has when
    the object is built. *)
Definition init (samplerate : option R) : outcome Measurement :=
  let* ok := wave_read be true in
  let* ko := wave_read be false in
  match prepare_audio (fresh_session samplerate ok ko) with
  | (s', Returned _) => Returned s'
  | (_, Raised e) => Raised e
  end.

Definition set_sweep_parameters (d_sweep_sec d_post_silence_sec f_start f_end
  amp_db : R) (fade_out_samples : Z) : M unit :=
  modify (with_sweep_parameters
            (mkSweepParameters d_sweep_sec d_post_silence_sec f_start f_end
               amp_db fade_out_samples)) ;;;
  prepare_audio.

Definition get_sweep_parameters (s : Measurement) : SweepParameters :=
  sweep_parameters s.

Definition get_samplerate (s : Measurement) : option R :=
  sd_default_samplerate s.

Definition set_channel_layout (in_channels out_channels : list Z) : M unit :=
  o2 <- lift (py_getitem out_channels 2) ;;
  disabled <- (if (o2 <? 0)%Z then mret true
               else i2 <- lift (py_getitem in_channels 2) ;;
                    mret (i2 <? 0)%Z) ;;
  layouts <- (if disabled : bool then
                modify (with_feedback_loop_used false) ;;;
                i <- lift (py_setitem in_channels 2 (-1)%Z) ;;
                o <- lift (py_setitem out_channels 2 (-1)%Z) ;;
                mret (i, o)
              else
                modify (with_feedback_loop_used true) ;;;
                mret (in_channels, out_channels)) ;;
  modify (with_layout (fst layouts) (snd layouts)) ;;;
  mo <- lift (py_max (snd layouts)) ;;
  modify (with_num_output_channels_used (mo + 1)) ;;;
  mi <- lift (py_max (fst layouts)) ;;
  modify (with_num_input_channels_used (mi + 1)) ;;;
  prepare_audio.

Definition set_samplerate (fs : option R) : M unit :=
  match fs with
  | None =>
      cur <- gets sd_default_samplerate ;;
      match cur with
      | None => modify (with_sd_default_samplerate (Some 48000%R))
      | Some _ => mret tt
      end
  | Some v => modify (with_sd_default_samplerate (Some v))
  end ;;;
  prepare_audio.

(** [type is 'hpc'], for an argument that is [None] or a string literal. *)
Definition is_hpc (type : option string) : bool :=
  match type with
  | Some t => String.eqb t "hpc"
  | None => false
  end.

(** The two statements that take one ear's signal out of the recording. *)
Definition extract_ear (recorded : array2) (position : nat)
  (store : option (list R) -> Measurement -> Measurement) : M unit :=
  layout <- gets channel_layout_input ;;
  i <- lift (py_getitem layout position) ;;
  if (0 <=? i)%Z then
    c <- lift (get_col recorded i) ;;
    modify (store (Some c))
  else modify (store (Some (repeat 0%R (nrows recorded)))).

(** The statements that store the reference signal: lines 342 to 351. *)
Definition store_feedback (recorded : array2) (type : option string) : M unit :=
  used <- gets feedback_loop_used ;;
  if used : bool then
    layout <- gets channel_layout_input ;;
    i <- lift (py_getitem layout 2) ;;
    fb <- lift (get_col recorded i) ;;
    modify (with_feedback_loop (Some fb)) ;;;
    peak <- lift (np_max fb) ;;
    if Rlt_dec (Rabs peak) (1 / 10000) then
      modify (with_feedback_loop
                (Some (map (fun v => (v * (1 / 1000000))%R)
                           (random_sample be (length fb)))))
    else mret tt
  else
    mono <- deref (if is_hpc type then sweep_hpc_mono else sweep_mono) ;;
    c <- lift (get_col mono 0) ;;
    modify (with_feedback_loop (Some c)).

Definition single_measurement (type : option string) : M unit :=
  modify (with_recorded_sweep_l (Some [])) ;;;
  modify (with_recorded_sweep_r (Some [])) ;;;
  modify (with_feedback_loop (Some [])) ;;;
  excitation <- gets (if is_hpc type then excitation_hpc else excitation) ;;
  num_in <- gets num_input_channels_used ;;
  num_out <- gets num_output_channels_used ;;
  rate <- gets sd_default_samplerate ;;
  if check_input_settings be num_in rate && check_output_settings be num_out rate
  then
    excitation <- lift (match excitation with
                        | Some e => Returned e
                        | None => Raised TypeError
                        end) ;;
    recorded <- lift (playrec be excitation num_in) ;;
    extract_ear recorded 0 with_recorded_sweep_l ;;;
    extract_ear recorded 1 with_recorded_sweep_r ;;;
    store_feedback recorded type
  else mret tt.

Definition get_recordings (s : Measurement)
  : option (list R) * option (list R) * option (list R) :=
  (recorded_sweep_l s, recorded_sweep_r s, feedback_loop s).

Definition or_else {A : Type} (arg dflt : option A) : option A :=
  match arg with
  | None => dflt
  | Some _ => arg
  end.

Definition array_arg (a : option (list R)) : outcome (list R) :=
  match a with
  | Some v => Returned v
  | None => Raised TypeError
  end.

(** The body of the [try] of [get_irs]. *)
Definition get_irs_try (s : Measurement) (rec_l rec_r fb_loop : option (list R))
  (deconv_fc_hp deconv_fc_lp : option R) : outcome (list R * list R) :=
  let rec_l := or_else rec_l (recorded_sweep_l s) in
  let rec_r := or_else rec_r (recorded_sweep_r s) in
  let fb_loop := or_else fb_loop (feedback_loop s) in
  let deconv_fc_hp := match deconv_fc_hp with
                      | None => (f_start (sweep_parameters s) * 2)%R
                      | Some v => v
                      end in
  let deconv_fc_lp := match deconv_fc_lp with
                      | None => 20000%R
                      | Some v => v
                      end in
  let lowpass := Some (mkFilter deconv_fc_lp 4 2) in
  let highpass := Some (mkFilter deconv_fc_hp 4 2) in
  let* fs := match attr_fs s with
             | Some v => Returned v
             | None => Raised AttributeError
             end in
  let* x := array_arg fb_loop in
  let* y := array_arg rec_l in
  let* ir_l := deconvolve be x y fs None lowpass highpass in
  let* fs := match attr_fs s with
             | Some v => Returned v
             | None => Raised AttributeError
             end in
  let* y := array_arg rec_r in
  let* ir_r := deconvolve be x y fs None lowpass highpass in
  Returned (ir_l, ir_r).

(** [get_irs]: the bare [except] turns every exception into a return
    without a value. *)
Definition get_irs (s : Measurement) (rec_l rec_r fb_loop : option (list R))
  (deconv_fc_hp deconv_fc_lp : option R) : option (list R * list R) :=
  match get_irs_try s rec_l rec_r fb_loop deconv_fc_hp deconv_fc_lp with
  | Returned irs => Some irs
  | Raised _ => None
  end.

(** The calls that change a session. *)
Inductive call : Type :=
| Call_set_sweep_parameters (d_sweep_sec d_post_silence_sec f_start f_end
                             amp_db : R) (fade_out_samples : Z)
| Call_set_channel_layout (in_channels out_channels : list Z)
| Call_set_samplerate (fs : option R)
| Call_prepare_audio
| Call_single_measurement (type : option string).

Definition run_call (c : call) : M unit :=
  match c with
  | Call_set_sweep_parameters d p f0 f1 a n =>
      set_sweep_parameters d p f0 f1 a n
  | Call_set_channel_layout i o => set_channel_layout i o
  | Call_set_samplerate fs => set_samplerate fs
  | Call_prepare_audio => prepare_audio
  | Call_single_measurement t => single_measurement t
  end.

(** The sessions that the constructor and the methods can produce; a call
    that raised leaves the session as it was when the exception left it. *)
Inductive reachable : Measurement -> Prop :=
| reachable_init : forall samplerate s,
    init samplerate = Returned s -> reachable s
| reachable_call : forall s c,
    reachable s -> reachable (fst (run_call c s)).

End Session.

(** ** What the specification says, in its own words *)

(** The role indices of a layout that are enabled. *)
Definition enabled_roles (layout : list Z) : list Z :=
  filter (fun r => (0 <=? r)%Z) layout.

(** "The number of active channels on a side = 1 + max(non-negative role
    indices on that side)"; a side with no enabled role has no active
    channel. *)
Definition spec_active_channels (layout : list Z) : Z :=
  match enabled_roles layout with
  | [] => 0%Z
  | h :: t => (1 + fold_left Z.max t h)%Z
  end.

(** "Peak magnitude": the maximum absolute sample value of a signal. *)
Definition spec_peak_magnitude (signal : list R) : outcome R :=
  np_max (map Rabs signal).

(** A layout as the data model has it: every role is a channel index or
    [-1]. *)
Definition roles_valid (layout : list Z) : Prop :=
  Forall (fun r => (-1 <= r)%Z) layout.

(** A computation keeps the attribute read by [f]. *)
Definition keeps {X A : Type} (f : Measurement -> X) (c : M A) : Prop :=
  forall s, f (fst (c s)) = f s.

(** An attribute that none of the six derived buffers of [prepare_audio]
    is. *)
Definition derived_free {X : Type} (f : Measurement -> X) : Prop :=
  (forall v s, f (with_sweep_mono v s) = f s) /\
  (forall v s, f (with_sweep_hpc_mono v s) = f s) /\
  (forall v s, f (with_excitation v s) = f s) /\
  (forall v s, f (with_excitation_hpc v s) = f s) /\
  (forall v s, f (with_sound_success v s) = f s) /\
  (forall v s, f (with_sound_failed v s) = f s).


(** The samples of the squared cosine ramp of [n] points. *)
Definition ramp_sample (n k : nat) : R :=
  (cos (0 + INR k * ((PI / 2 - 0) / (INR n - 1))) ^ 2)%R.

(** The conditions on the sample rate and on the sweep parameters under
    which the three sweeps of [prepare_audio] are generated. *)
Definition sweeps_ok (s : Measurement) (fs : R) : Prop :=
  let p := sweep_parameters s in
  sd_default_samplerate s = Some fs /\
  (0 <= fs)%R /\
  (0 <= sweeplength_sec p * fs)%R /\
  (0 < f_start p * f_end p)%R /\
  (0 <= fade_out_samples p <= py_int (sweeplength_sec p * fs))%Z /\
  (0 <= fs * post_silence_sec p)%R.

(** The resampler returns for both notification sounds. *)
Definition sounds_ok (be : Backend) (s : Measurement) (fs : R) : Prop :=
  is_returned (resample_poly be (sound_success_singlechannel s) (py_round fs)
                 (sound_success_fs s)) = true /\
  is_returned (resample_poly be (sound_failed_singlechannel s) (py_round fs)
                 (sound_failed_fs s)) = true.

(** The stored channel counts agree with a stored output layout that has
    an enabled role. *)
Definition routing_ok (s : Measurement) : Prop :=
  exists h t,
    channel_layout_output s = h :: t /\
    roles_valid (h :: t) /\
    num_output_channels_used s = (fold_left Z.max t h + 1)%Z /\
    (1 <= num_output_channels_used s)%Z.

(** ** Collaborators and sessions for the examples *)

(** A device that accepts every setting and records silence, a filter
    that leaves the signal as it is. *)
Definition quiet_backend : Backend :=
  mkBackend unit
    (fun _ _ _ _ => Returned tt)
    (fun _ l => l)
    (fun l _ _ => Returned l)
    (fun _ => Returned (1%Z, [0%R]))
    (fun _ _ => true)
    (fun _ _ => true)
    (fun e c => np_zeros2 (nrows e) c)
    (fun n => repeat (1 / 2)%R n).

(** A device that rejects every setting. *)
Definition refusing_backend : Backend :=
  mkBackend unit
    (fun _ _ _ _ => Returned tt)
    (fun _ l => l)
    (fun l _ _ => Returned l)
    (fun _ => Returned (1%Z, [0%R]))
    (fun _ _ => false)
    (fun _ _ => false)
    (fun e c => np_zeros2 (nrows e) c)
    (fun n => repeat (1 / 2)%R n).

(** The session that [__init__] hands to [prepare_audio] at the default
    sample rate. *)
Definition startup_session : Measurement :=
  fresh_session None (1%Z, [0%R]) (1%Z, [0%R]).

(** A session that holds the recordings of an earlier measurement. *)
Definition recorded_session : Measurement :=
  with_feedback_loop (Some [1%R; 0%R])
    (with_recorded_sweep_r (Some [0%R; 1%R])
       (with_recorded_sweep_l (Some [1%R; 1%R]) startup_session)).

(** A device whose loop-back channel delivers a signal with a large
    negative excursion and a tiny positive one. *)
Definition negative_peak_capture : list R := [(- (1 / 2))%R; (1 / 100000)%R].

Definition negative_peak_backend : Backend :=
  mkBackend unit
    (fun _ _ _ _ => Returned tt)
    (fun _ l => l)
    (fun l _ _ => Returned l)
    (fun _ => Returned (1%Z, [0%R]))
    (fun _ _ => true)
    (fun _ _ => true)
    (fun e c => Returned (mkArray2 2 [[0%R; 0%R]; [0%R; 0%R];
                                      negative_peak_capture]))
    (fun n => repeat (1 / 2)%R n).

(** A session with the feedback loop on channel 2 of both sides. *)
Definition feedback_session : Measurement :=
  with_excitation (Some (mkArray2 2 [[0%R; 0%R]; [0%R; 0%R]; [0%R; 0%R]]))
    (with_feedback_loop_used true
       (with_num_input_channels_used 3
          (with_num_output_channels_used 3
             (with_layout [0; 1; 2]%Z [0; 1; 2]%Z startup_session)))).
(** ** Arrays *)

Lemma obind_returned {A B : Type} (o : outcome A) (f : A -> outcome B) (b : B) :
  obind o f = Returned b <-> exists a, o = Returned a /\ f a = Returned b.
Proof.
  split.
  - destruct o as [a | e]; simpl; [ eauto | discriminate ].
  - intros (a & -> & H). exact H.
Qed.

Lemma list_set_length {A : Type} (l : list A) (i : nat) (v : A) :
  length (list_set l i v) = length l.
Proof.
  revert i. induction l as [| h t IH]; intros [| i]; simpl; auto.
Qed.

Lemma list_set_nth {A : Type} (l : list A) (i j : nat) (v d : A) :
  (i < length l)%nat ->
  nth j (list_set l i v) d = if Nat.eqb j i then v else nth j l d.
Proof.
  revert i j. induction l as [| h t IH]; intros i j Hi; simpl in Hi; [ lia | ].
  destruct i as [| i], j as [| j]; simpl; auto.
  apply IH. lia.
Qed.

Lemma norm_index_bound (len : nat) (i : Z) (j : nat) :
  norm_index len i = Returned j -> (j < len)%nat.
Proof.
  unfold norm_index.
  destruct (0 <=? i)%Z eqn:E0.
  - destruct (i <? Z.of_nat len)%Z eqn:E1; [ | discriminate ].
    intros H; injection H as <-. apply Z.leb_le in E0. apply Z.ltb_lt in E1. lia.
  - destruct (0 <=? i + Z.of_nat len)%Z eqn:E1; [ | discriminate ].
    intros H; injection H as <-. apply Z.leb_gt in E0. apply Z.leb_le in E1. lia.
Qed.

Lemma norm_indices_spec (len : nat) (idx : list Z) (js : list nat) :
  norm_indices len idx = Returned js ->
  length js = length idx /\
  forall j, In j js <-> exists i, In i idx /\ norm_index len i = Returned j.
Proof.
  revert js. induction idx as [| i rest IH]; intros js H; simpl in H.
  - injection H as <-. split; [ reflexivity | ].
    intros j; split; [ intros [] | intros (i & [] & _) ].
  - apply obind_returned in H. destruct H as (j0 & Hj0 & H).
    apply obind_returned in H. destruct H as (js0 & Hjs0 & H).
    injection H as <-. destruct (IH _ Hjs0) as (Hlen & Hin).
    split; [ simpl; congruence | ].
    intros j; split.
    + intros [<- | Hj].
      * exists i. split; [ now left | assumption ].
      * apply Hin in Hj. destruct Hj as (i' & Hi' & Hn).
        exists i'. split; [ now right | assumption ].
    + intros (i' & [<- | Hi'] & Hn).
      * left. congruence.
      * right. apply Hin. eauto.
Qed.

Lemma norm_indices_returns (len : nat) (idx : list Z) :
  Forall (fun i => is_returned (norm_index len i) = true) idx ->
  exists js, norm_indices len idx = Returned js.
Proof.
  induction 1 as [| i rest Hi _ IH]; simpl.
  - eauto.
  - destruct (norm_index len i) as [j | e]; [ | discriminate ].
    destruct IH as (js & ->). simpl. eauto.
Qed.

(** Writing a one-column source into selected columns: every selected
    column becomes the source column, the others are untouched. *)
Lemma write_cols_single (sig : list R) (n : nat) (js : list nat) :
  forall (cols : list (list R)) (k : nat),
    Forall (fun j => (j < length cols)%nat) js ->
    exists cols',
      write_cols cols js (mkArray2 n [sig]) n k = Returned cols' /\
      length cols' = length cols /\
      forall j, nth j cols' [] = if existsb (Nat.eqb j) js then sig
                                 else nth j cols [].
Proof.
  induction js as [| j0 rest IH]; intros cols k Hjs.
  - exists cols. simpl. auto.
  - inversion Hjs as [| ? ? Hj0 Hrest]; subst.
    cbn [write_cols ncols columns length Nat.eqb nth nrows].
    unfold broadcast_rows. rewrite Nat.eqb_refl. cbn [obind].
    destruct (IH (list_set cols j0 sig) (S k)) as (cols' & Hw & Hlen & Hnth).
    { rewrite list_set_length. exact Hrest. }
    exists cols'. split; [ exact Hw | ]. split.
    { rewrite Hlen. apply list_set_length. }
    intros j. rewrite Hnth. cbn [existsb].
    destruct (existsb (Nat.eqb j) rest).
    + rewrite orb_true_r. reflexivity.
    + rewrite orb_false_r. apply list_set_nth. exact Hj0.
Qed.

Lemma existsb_eqb_in (j : nat) (js : list nat) :
  existsb (Nat.eqb j) js = true <-> In j js.
Proof.
  rewrite existsb_exists. split.
  - intros (x & Hx & E). apply Nat.eqb_eq in E. subst. exact Hx.
  - intros H. exists j. split; [ exact H | apply Nat.eqb_refl ].
Qed.

(** [buf = np.zeros([n, c]); buf[:, idx] = src] for a source of one column
    and [n] rows: when the indices are in range the assignment returns, a
    column that an index selects holds the source and every other column
    is zero. *)
Lemma route_columns (n : nat) (c : Z) (sig : list R) (idx : list Z) (z : array2) :
  np_zeros2 n c = Returned z ->
  (forall e, assign_cols z idx (mkArray2 n [sig]) = Returned e ->
     nrows e = n /\ ncols e = Z.to_nat c /\
     forall j,
       ((exists i, In i idx /\ norm_index (Z.to_nat c) i = Returned j) ->
        nth j (columns e) [] = sig) /\
       ((j < Z.to_nat c)%nat ->
        ~ (exists i, In i idx /\ norm_index (Z.to_nat c) i = Returned j) ->
        nth j (columns e) [] = repeat 0%R n)) /\
  (Forall (fun i => is_returned (norm_index (Z.to_nat c) i) = true) idx ->
   exists e, assign_cols z idx (mkArray2 n [sig]) = Returned e).
Proof.
  unfold np_zeros2. destruct (c <? 0)%Z; [ discriminate | ].
  intros Hz; injection Hz as <-.
  assert (Hc : ncols (mkArray2 n (repeat (repeat 0%R n) (Z.to_nat c))) = Z.to_nat c).
  { unfold ncols; simpl. apply repeat_length. }
  unfold assign_cols. rewrite Hc. split.
  - intros e He.
    apply obind_returned in He. destruct He as (js & Hjs & He).
    cbn [ncols columns length Nat.eqb orb nrows] in He.
    destruct (norm_indices_spec _ _ _ Hjs) as (_ & Hin).
    destruct (write_cols_single sig n js (repeat (repeat 0%R n) (Z.to_nat c)) 0)
      as (cols' & Hw & Hlen & Hnth).
    { apply Forall_forall. intros j Hj. rewrite repeat_length.
      apply Hin in Hj. destruct Hj as (i & _ & Hn).
      eapply norm_index_bound; eassumption. }
    rewrite Hw in He. cbn [obind] in He. injection He as <-.
    cbn [nrows columns]. unfold ncols; cbn [columns].
    split; [ reflexivity | ]. split; [ rewrite Hlen; apply repeat_length | ].
    intros j. rewrite Hnth. split.
    + intros Hex. apply Hin in Hex. apply existsb_eqb_in in Hex.
      rewrite Hex. reflexivity.
    + intros Hj Hno.
      destruct (existsb (Nat.eqb j) js) eqn:E.
      * exfalso. apply Hno. apply Hin. apply existsb_eqb_in. exact E.
      * apply nth_repeat_lt. exact Hj.
  - intros Hidx. destruct (norm_indices_returns _ _ Hidx) as (js & Hjs).
    rewrite Hjs. cbn [obind ncols columns length Nat.eqb orb nrows].
    destruct (norm_indices_spec _ _ _ Hjs) as (_ & Hin).
    destruct (write_cols_single sig n js (repeat (repeat 0%R n) (Z.to_nat c)) 0)
      as (cols' & Hw & _).
    { apply Forall_forall. intros j Hj. rewrite repeat_length.
      apply Hin in Hj. destruct Hj as (i & _ & Hn).
      eapply norm_index_bound; eassumption. }
    rewrite Hw. cbn [obind]. eauto.
Qed.

(** ** Transform length *)

Lemma log2_up_covers (L : nat) :
  (1 <= L)%nat -> (Z.of_nat L <= 2 ^ Z.log2_up (Z.of_nat L))%Z.
Proof.
  intros HL.
  destruct (Z.eq_dec (Z.of_nat L) 1) as [E | E].
  - rewrite E. simpl. lia.
  - apply (Z.log2_up_spec (Z.of_nat L)). lia.
Qed.

Lemma log2_up_least (L : nat) (k : Z) :
  (1 <= L)%nat -> (0 <= k)%Z -> (Z.of_nat L <= 2 ^ k)%Z ->
  (2 ^ Z.log2_up (Z.of_nat L) <= 2 ^ k)%Z.
Proof.
  intros HL Hk Hle.
  apply Z.pow_le_mono_r; [ lia | ].
  destruct (Z.eq_dec (Z.of_nat L) 1) as [E | E].
  - rewrite E. simpl. exact Hk.
  - apply Z.log2_up_le_pow2; lia.
Qed.

Lemma fft_size_double (L : nat) :
  (1 <= L)%nat -> fft_size L = (2 * 2 ^ Z.log2_up (Z.of_nat L))%Z.
Proof.
  intros HL. unfold fft_size. destruct L as [| L']; [ lia | ].
  rewrite Z.pow_add_r; [ | apply Z.log2_up_nonneg | lia ].
  change (2 ^ 1)%Z with 2%Z. lia.
Qed.

Lemma fft_size_bound (L : nat) :
  (1 <= L)%nat -> (2 * Z.of_nat L <= fft_size L)%Z.
Proof.
  intros HL. rewrite fft_size_double by exact HL.
  pose proof (log2_up_covers L HL). lia.
Qed.

(** ** The fade window *)

Lemma firstn_repeat_le {A : Type} (a : A) (k n : nat) :
  (k <= n)%nat -> firstn k (repeat a n) = repeat a k.
Proof.
  revert n. induction k as [| k IH]; intros n H; [ reflexivity | ].
  destruct n as [| n]; [ lia | ]. simpl. rewrite IH by lia. reflexivity.
Qed.

Lemma linspace_returns (a b : R) (num : Z) :
  (0 <= num)%Z ->
  linspace a b num =
  Returned (map (fun i => (a + INR i * ((b - a) / (INR (Z.to_nat num) - 1)))%R)
                (seq 0 (Z.to_nat num))).
Proof.
  intros H. unfold linspace.
  destruct (num <? 0)%Z eqn:E; [ apply Z.ltb_lt in E; lia | reflexivity ].
Qed.

Lemma linspace_length (a b : R) (num : Z) (l : list R) :
  linspace a b num = Returned l -> length l = Z.to_nat num /\ (0 <= num)%Z.
Proof.
  unfold linspace. destruct (num <? 0)%Z eqn:E; [ discriminate | ].
  intros H; injection H as <-. rewrite length_map, length_seq.
  apply Z.ltb_ge in E. auto.
Qed.

Lemma slice_assign_tail (w src : list R) (start : Z) :
  (0 <= start <= Z.of_nat (length w))%Z ->
  length src = (length w - Z.to_nat start)%nat ->
  slice_assign w start (Z.of_nat (length w)) src =
  Returned (firstn (Z.to_nat start) w ++ src).
Proof.
  intros Hs Hlen. unfold slice_assign, slice_bound.
  destruct (start <? 0)%Z eqn:E1; [ apply Z.ltb_lt in E1; lia | ].
  destruct (Z.of_nat (length w) <? 0)%Z eqn:E2; [ apply Z.ltb_lt in E2; lia | ].
  rewrite Z.min_id, (Z.min_l start) by lia.
  replace (Z.to_nat (Z.max 0 (Z.of_nat (length w) - start)))
    with (length w - Z.to_nat start)%nat by lia.
  rewrite Hlen, Nat.eqb_refl.
  rewrite skipn_all2 by lia. rewrite app_nil_r. reflexivity.
Qed.

Lemma slice_assign_mismatch (w src : list R) (start : Z) :
  (start < 0)%Z ->
  (2 <= length src)%nat ->
  (length w < length src)%nat ->
  slice_assign w start (Z.of_nat (length w)) src = Raised ValueError.
Proof.
  intros Hs H2 Hlt. unfold slice_assign, slice_bound.
  destruct (start <? 0)%Z eqn:E1; [ | apply Z.ltb_ge in E1; lia ].
  destruct (Z.of_nat (length w) <? 0)%Z eqn:E2; [ apply Z.ltb_lt in E2; lia | ].
  rewrite Z.min_id.
  destruct (Nat.eqb_spec (length src)
              (Z.to_nat (Z.max 0 (Z.of_nat (length w)
                                  - Z.max 0 (start + Z.of_nat (length w))))))
    as [E | _]; [ lia | ].
  destruct (Nat.eqb_spec (length src) 1) as [E | _]; [ lia | reflexivity ].
Qed.

(** For a fade that fits, the window is ones followed by the ramp. *)
Lemma fade_window_fits (size : nat) (fade : Z) :
  (0 <= fade <= Z.of_nat size)%Z ->
  fade_window size fade =
  Returned (repeat 1%R (size - Z.to_nat fade)
            ++ map (ramp_sample (Z.to_nat fade)) (seq 0 (Z.to_nat fade))).
Proof.
  intros H. unfold fade_window.
  rewrite linspace_returns by lia. cbn [obind].
  rewrite map_map.
  rewrite slice_assign_tail.
  - rewrite repeat_length.
    replace (Z.to_nat (Z.of_nat size - fade)) with (size - Z.to_nat fade)%nat by lia.
    apply f_equal. rewrite firstn_repeat_le by lia. reflexivity.
  - rewrite repeat_length. lia.
  - rewrite length_map, length_seq, repeat_length. lia.
Qed.

(** A fade of two samples or more that is longer than the signal cannot
    be assigned. *)
Lemma fade_window_too_long (size : nat) (fade : Z) :
  (2 <= fade)%Z -> (Z.of_nat size < fade)%Z ->
  fade_window size fade = Raised ValueError.
Proof.
  intros H2 Hlt. unfold fade_window.
  rewrite linspace_returns by lia. cbn [obind].
  apply slice_assign_mismatch.
  - rewrite repeat_length. lia.
  - rewrite length_map, length_map, length_seq. lia.
  - rewrite repeat_length, length_map, length_map, length_seq. lia.
Qed.

Lemma fade_window_negative (size : nat) (fade : Z) :
  (fade < 0)%Z -> fade_window size fade = Raised ValueError.
Proof.
  intros H. unfold fade_window, linspace.
  destruct (fade <? 0)%Z eqn:E; [ reflexivity | apply Z.ltb_ge in E; lia ].
Qed.

(** ** Lengths through the transforms *)

Lemma np_pad_returned (v r : list R) (pre post : Z) :
  np_pad v pre post = Returned r ->
  (0 <= pre)%Z /\ (0 <= post)%Z /\
  r = repeat 0%R (Z.to_nat pre) ++ v ++ repeat 0%R (Z.to_nat post).
Proof.
  unfold np_pad.
  destruct (pre <? 0)%Z eqn:E1; [ discriminate | ].
  destruct (post <? 0)%Z eqn:E2; [ discriminate | ].
  cbn [orb]. intros H; injection H as <-.
  apply Z.ltb_ge in E1, E2. auto.
Qed.

Lemma np_pad_returns (v : list R) (pre post : Z) :
  (0 <= pre)%Z -> (0 <= post)%Z ->
  np_pad v pre post =
  Returned (repeat 0%R (Z.to_nat pre) ++ v ++ repeat 0%R (Z.to_nat post)).
Proof.
  intros H1 H2. unfold np_pad.
  destruct (pre <? 0)%Z eqn:E1; [ apply Z.ltb_lt in E1; lia | ].
  destruct (post <? 0)%Z eqn:E2; [ apply Z.ltb_lt in E2; lia | ].
  reflexivity.
Qed.

Lemma fft_returned (x : list R) (X : list C) :
  fft x = Returned X -> length X = length x /\ (1 <= length x)%nat.
Proof.
  destruct x as [| a x]; [ discriminate | ].
  unfold fft. intros H; injection H as <-.
  cbn [length]. rewrite length_map, length_seq. lia.
Qed.

Lemma fft_returns (x : list R) :
  (1 <= length x)%nat -> exists X, fft x = Returned X.
Proof.
  destruct x as [| a x]; simpl; [ lia | ]. intros _. unfold fft. eauto.
Qed.

Lemma ifft_real_returned (X : list C) (h : list R) :
  ifft_real X = Returned h -> length h = length X.
Proof.
  destruct X as [| a X]; [ discriminate | ].
  unfold ifft_real. intros H; injection H as <-.
  cbn [length]. rewrite length_map, length_seq. reflexivity.
Qed.

Lemma ifft_real_returns (X : list C) :
  (1 <= length X)%nat -> exists h, ifft_real X = Returned h.
Proof.
  destruct X as [| a X]; simpl; [ lia | ]. intros _. unfold ifft_real. eauto.
Qed.

Lemma bcast2_returned {A : Type} (f : A -> A -> A) (d : A) (u v r : list A) :
  bcast2 f d u v = Returned r ->
  (length u = length v /\ length r = length u) \/
  (length u = 1%nat /\ length r = length v) \/
  (length v = 1%nat /\ length r = length u).
Proof.
  unfold bcast2.
  destruct (Nat.eqb_spec (length u) (length v)) as [E | _].
  - intros H; injection H as <-. left. split; [ exact E | ].
    rewrite length_map, length_combine. lia.
  - destruct (Nat.eqb_spec (length u) 1) as [E | _].
    + intros H; injection H as <-. right. left.
      rewrite length_map. auto.
    + destruct (Nat.eqb_spec (length v) 1) as [E | _]; [ | discriminate ].
      intros H; injection H as <-. right. right.
      rewrite length_map. auto.
Qed.

Lemma bcast2_same_length {A : Type} (f : A -> A -> A) (d : A) (u v : list A) :
  length u = length v ->
  bcast2 f d u v = Returned (map (fun p => f (fst p) (snd p)) (combine u v)).
Proof.
  intros E. unfold bcast2. rewrite E, Nat.eqb_refl. reflexivity.
Qed.

Lemma bcast2_raised {A : Type} (f : A -> A -> A) (d : A) (u v : list A) (e : exn) :
  bcast2 f d u v = Raised e -> e = ValueError.
Proof.
  unfold bcast2.
  destruct (Nat.eqb (length u) (length v)); [ discriminate | ].
  destruct (Nat.eqb (length u) 1); [ discriminate | ].
  destruct (Nat.eqb (length v) 1); [ discriminate | ].
  congruence.
Qed.

Lemma rfft_returns (x : list R) (n : Z) :
  (1 <= n)%Z ->
  exists X, rfft x n = Returned X /\ length X = (Z.to_nat n / 2 + 1)%nat.
Proof.
  intros H. unfold rfft.
  destruct (n <? 1)%Z eqn:E; [ apply Z.ltb_lt in E; lia | ].
  eexists. split; [ reflexivity | ].
  rewrite length_map, length_seq. reflexivity.
Qed.

Lemma irfft_returns (H : list C) (n : Z) :
  (1 <= n)%Z -> exists h, irfft H n = Returned h /\ length h = Z.to_nat n.
Proof.
  intros Hn. unfold irfft.
  destruct (n <? 1)%Z eqn:E; [ apply Z.ltb_lt in E; lia | ].
  eexists. split; [ reflexivity | ].
  rewrite length_map, length_seq. reflexivity.
Qed.

(** *** The unregularised variant [deconv] *)

Lemma deconv_unwindowed_raised (x y : list R) (e : exn) :
  deconv_unwindowed x y = Raised e -> e = ValueError.
Proof.
  unfold deconv_unwindowed.
  set (nz := (fft_size (length y) - Z.of_nat (length y))%Z).
  destruct (np_pad x 0 nz) as [x' | e1] eqn:E1; cbn [obind].
  2:{ unfold np_pad in E1.
      destruct ((0 <? 0)%Z || (nz <? 0)%Z); [ congruence | discriminate ]. }
  destruct (np_pad y 0 nz) as [y' | e2] eqn:E2; cbn [obind].
  2:{ unfold np_pad in E2.
      destruct ((0 <? 0)%Z || (nz <? 0)%Z); [ congruence | discriminate ]. }
  destruct (fft y') as [Y | e3] eqn:E3; cbn [obind].
  2:{ destruct y'; [ simpl in E3; congruence | discriminate ]. }
  destruct (fft x') as [X | e4] eqn:E4; cbn [obind].
  2:{ destruct x'; [ simpl in E4; congruence | discriminate ]. }
  destruct (bcast2 Cdiv C0 Y X) as [q | e5] eqn:E5; cbn [obind].
  2:{ apply bcast2_raised in E5. congruence. }
  destruct (ifft_real q) as [h | e6] eqn:E6; cbn [obind]; [ discriminate | ].
  destruct q; [ simpl in E6; congruence | discriminate ].
Qed.

Lemma deconv_unwindowed_empty (x : list R) :
  deconv_unwindowed x [] = Raised ValueError.
Proof.
  unfold deconv_unwindowed. cbn [length fft_size].
  change (0 - Z.of_nat 0)%Z with 0%Z.
  rewrite (np_pad_returns x 0 0) by lia. cbn [obind].
  rewrite (np_pad_returns [] 0 0) by lia. reflexivity.
Qed.

Lemma deconv_unwindowed_length (x y h : list R) :
  (1 <= length y)%nat ->
  deconv_unwindowed x y = Returned h -> length h = length y.
Proof.
  intros HL. unfold deconv_unwindowed.
  pose proof (fft_size_bound (length y) HL) as HN.
  set (nz := (fft_size (length y) - Z.of_nat (length y))%Z) in *.
  intros H.
  apply obind_returned in H. destruct H as (x' & Hx & H).
  apply obind_returned in H. destruct H as (y' & Hy & H).
  apply obind_returned in H. destruct H as (Y & HY & H).
  apply obind_returned in H. destruct H as (X & HX & H).
  apply obind_returned in H. destruct H as (q & Hq & H).
  apply obind_returned in H. destruct H as (h0 & Hh & H).
  injection H as <-.
  apply np_pad_returned in Hx, Hy.
  destruct Hx as (_ & _ & ->). destruct Hy as (_ & _ & ->).
  apply fft_returned in HY, HX.
  destruct HY as (HY & _). destruct HX as (HX & _).
  rewrite !length_app, !repeat_length in HY, HX. cbn [Z.to_nat Nat.add] in HY, HX.
  apply ifft_real_returned in Hh.
  apply bcast2_returned in Hq.
  rewrite length_firstn, Hh.
  destruct Hq as [(_ & Hq) | [(E & _) | (_ & Hq)]]; lia.
Qed.

Lemma deconv_unwindowed_returns (x y : list R) :
  (1 <= length y)%nat -> length x = length y ->
  exists h, deconv_unwindowed x y = Returned h.
Proof.
  intros HL Hxy. unfold deconv_unwindowed.
  pose proof (fft_size_bound (length y) HL) as HN.
  set (nz := (fft_size (length y) - Z.of_nat (length y))%Z) in *.
  rewrite (np_pad_returns x 0 nz), (np_pad_returns y 0 nz) by lia.
  cbn [obind Z.to_nat repeat app].
  destruct (fft_returns (y ++ repeat 0%R (Z.to_nat nz))) as (Y & HY).
  { rewrite length_app. lia. }
  destruct (fft_returns (x ++ repeat 0%R (Z.to_nat nz))) as (X & HX).
  { rewrite length_app. lia. }
  rewrite HY, HX. cbn [obind].
  apply fft_returned in HY, HX.
  rewrite length_app, repeat_length in HY, HX.
  rewrite bcast2_same_length by lia. cbn [obind].
  match goal with
  | |- context [ifft_real ?q] => destruct (ifft_real_returns q) as (h & Hh)
  end.
  { rewrite length_map, length_combine. lia. }
  rewrite Hh. cbn [obind]. eauto.
Qed.

(** C10 (deconv, lines 25-30).  For every input pair whose recorded signal
    has fewer than 2000 samples, [deconv] raises instead of returning an
    impulse response; when the two signals are non-empty and equally long,
    the stages before the window return and it is the assignment of the
    2000-sample fade into the shorter window that raises. *)
Theorem deconv_short_recording_fails (x y : list R) :
  (length y < 2000)%nat ->
  deconv x y = Raised ValueError /\
  ((1 <= length y)%nat -> length x = length y ->
   exists h, deconv_unwindowed x y = Returned h /\
             length h = length y /\
             fade_window (length h) 2000 = Raised ValueError).
Proof.
  intros Hshort.
  assert (Hw : forall h : list R, length h = length y ->
                 fade_window (length h) 2000 = Raised ValueError).
  { intros h Hh. apply fade_window_too_long; lia. }
  split.
  - unfold deconv.
    destruct (deconv_unwindowed x y) as [h | e] eqn:E; cbn [obind].
    + destruct y as [| a y'].
      * rewrite deconv_unwindowed_empty in E. discriminate.
      * rewrite Hw; [ reflexivity | ].
        eapply deconv_unwindowed_length; [ | exact E ]. simpl. lia.
    + apply deconv_unwindowed_raised in E. congruence.
  - intros HL Hxy.
    destruct (deconv_unwindowed_returns x y HL Hxy) as (h & Hh).
    exists h. split; [ exact Hh | ].
    pose proof (deconv_unwindowed_length x y h HL Hh) as Hlen.
    split; [ exact Hlen | apply Hw; exact Hlen ].
Qed.

(** *** The regularised [deconvolve] *)

Lemma clip_inverse_returns (D : R) (X : list C) :
  (1 <= length X)%nat ->
  exists r, clip_inverse D X = Returned r /\ length r = length X.
Proof.
  intros H. unfold clip_inverse.
  destruct X as [| z X]; [ simpl in H; lia | ].
  cbn [map np_min obind]. eexists. split; [ reflexivity | ].
  cbn [length]. rewrite length_map. reflexivity.
Qed.

Lemma unit_impulse_returns (n : Z) :
  (1 <= n)%Z ->
  exists imp, unit_impulse n = Returned imp /\ length imp = Z.to_nat n.
Proof.
  intros H. unfold unit_impulse.
  destruct (n <? 0)%Z eqn:E; [ apply Z.ltb_lt in E; lia | ].
  destruct (Z.to_nat n) as [| k] eqn:Ek; [ lia | ].
  eexists. split; [ reflexivity | ].
  cbn [length]. rewrite repeat_length. reflexivity.
Qed.

Section DeconvolveFacts.

Variable be : Backend.
Hypothesis sosfilt_length : forall s l, length (sosfilt be s l) = length l.

Lemma iter_sosfilt_length (s : sos be) (k : nat) (l : list R) :
  length (Nat.iter k (sosfilt be s) l) = length l.
Proof.
  induction k as [| k IH]; simpl; [ reflexivity | ].
  rewrite sosfilt_length. exact IH.
Qed.

Lemma cascade_returns (kind : bool) (spec : option filter_spec) (fs : R)
  (imp : list R) :
  (forall f, spec = Some f ->
             is_returned (butter be (order f) (cutoff f) kind fs) = true) ->
  exists r, cascade be kind spec fs imp = Returned r /\ length r = length imp.
Proof.
  intros Hb. unfold cascade. destruct spec as [f | ].
  - specialize (Hb f eq_refl).
    destruct (butter be (order f) (cutoff f) kind fs) as [s | e];
      [ | discriminate ].
    cbn [obind]. eexists. split; [ reflexivity | ].
    apply iter_sosfilt_length.
  - eauto.
Qed.

Lemma bandpass_returns (N : Z) (fs : R) (lp hp : option filter_spec)
  (X_inv : list C) :
  (1 <= N)%Z ->
  length X_inv = (Z.to_nat N / 2 + 1)%nat ->
  (forall f, lp = Some f ->
             is_returned (butter be (order f) (cutoff f) true fs) = true) ->
  (forall f, hp = Some f ->
             is_returned (butter be (order f) (cutoff f) false fs) = true) ->
  exists r, bandpass be N fs lp hp X_inv = Returned r /\
            length r = length X_inv.
Proof.
  intros HN HX Hlp Hhp.
  assert (G : exists r,
             (let* impulse := unit_impulse N in
              let* lp_filter := cascade be true lp fs impulse in
              let* lp_filter := rfft lp_filter (Z.of_nat (length lp_filter)) in
              let* hp_filter := cascade be false hp fs impulse in
              let* hp_filter := rfft hp_filter (Z.of_nat (length hp_filter)) in
              let* lp_hp_filter := bcast2 Cmul C0 hp_filter lp_filter in
              bcast2 Cmul C0 X_inv lp_hp_filter) = Returned r /\
             length r = length X_inv).
  { destruct (unit_impulse_returns N HN) as (imp & Himp & Hlen).
    rewrite Himp. cbn [obind].
    destruct (cascade_returns true lp fs imp Hlp) as (l1 & Hl1 & Hlen1).
    rewrite Hl1. cbn [obind].
    destruct (rfft_returns l1 (Z.of_nat (length l1))) as (L1 & HL1 & HlenL1);
      [ lia | ].
    rewrite HL1. cbn [obind].
    destruct (cascade_returns false hp fs imp Hhp) as (l2 & Hl2 & Hlen2).
    rewrite Hl2. cbn [obind].
    destruct (rfft_returns l2 (Z.of_nat (length l2))) as (L2 & HL2 & HlenL2);
      [ lia | ].
    rewrite HL2. cbn [obind].
    rewrite Nat2Z.id in HlenL1, HlenL2.
    rewrite Hlen1, Hlen in HlenL1. rewrite Hlen2, Hlen in HlenL2.
    rewrite <- HX in HlenL1, HlenL2.
    rewrite bcast2_same_length by congruence. cbn [obind].
    rewrite bcast2_same_length.
    - eexists. split; [ reflexivity | ].
      rewrite length_map, length_combine, length_map, length_combine. lia.
    - rewrite length_map, length_combine. lia. }
  unfold bandpass. destruct lp, hp; try exact G. eauto.
Qed.

(** C8 (deconvolve, lines 36-42 and 83-88).  For a reference of length
    [L >= 1], write [N = 2^(ceil(log2 L) + 1)], twice the least power of two
    that is at least [L].  What [deconvolve] returns is built at that
    length: the spectra of the reference and of the recording are the
    transforms of length [N] of the two signals, [N/2 + 1] bins each; the
    inverse of the reference spectrum goes through the limiter and the
    filters; the product with the recording spectrum is transformed back
    at length [N]; and the result of [deconvolve] is the first [L] samples
    of those [N], exactly [L] samples.  The filter design routine is
    assumed to return and the filter to keep the length of its input. *)
Theorem deconvolve_length (x y : list R) (fs : R) (max_inv_dyn : option R)
  (lowpass highpass : option filter_spec) :
  (1 <= length x)%nat ->
  (forall f, lowpass = Some f ->
             is_returned (butter be (order f) (cutoff f) true fs) = true) ->
  (forall f, highpass = Some f ->
             is_returned (butter be (order f) (cutoff f) false fs) = true) ->
  let L := length x in
  let N := (2 ^ (Z.log2_up (Z.of_nat L) + 1))%Z in
  (Z.of_nat L <= 2 ^ Z.log2_up (Z.of_nat L))%Z /\
  (forall k, (0 <= k)%Z -> (Z.of_nat L <= 2 ^ k)%Z ->
             (2 ^ Z.log2_up (Z.of_nat L) <= 2 ^ k)%Z) /\
  N = (2 * 2 ^ Z.log2_up (Z.of_nat L))%Z /\
  exists X_f Y_f X_lim X_inv H h_N,
    rfft x N = Returned X_f /\ rfft y N = Returned Y_f /\
    length X_f = (Z.to_nat N / 2 + 1)%nat /\
    length Y_f = (Z.to_nat N / 2 + 1)%nat /\
    match max_inv_dyn with
    | None => Returned (map (Cdiv (RtoC 1)) X_f)
    | Some D => clip_inverse D (map (Cdiv (RtoC 1)) X_f)
    end = Returned X_lim /\
    bandpass be N fs lowpass highpass X_lim = Returned X_inv /\
    bcast2 Cmul C0 Y_f X_inv = Returned H /\
    irfft H N = Returned h_N /\
    length h_N = Z.to_nat N /\
    deconvolve be x y fs max_inv_dyn lowpass highpass
    = Returned (firstn L h_N) /\
    length (firstn L h_N) = L.
Proof.
  intros HL Hlp Hhp L N.
  assert (EN : fft_size L = N).
  { subst N L. revert HL. unfold fft_size.
    destruct (length x); intros HL; [ lia | reflexivity ]. }
  pose proof (fft_size_bound L HL) as HN. rewrite EN in HN.
  destruct (rfft_returns x N) as (X_f & HX & HlenX); [ lia | ].
  destruct (rfft_returns y N) as (Y_f & HY & HlenY); [ lia | ].
  split; [ apply log2_up_covers; exact HL | ].
  split; [ intros k; apply log2_up_least; exact HL | ].
  split; [ rewrite <- EN; apply fft_size_double; exact HL | ].
  assert (Hclip : exists Xc,
             match max_inv_dyn with
             | None => Returned (map (Cdiv (RtoC 1)) X_f)
             | Some D => clip_inverse D (map (Cdiv (RtoC 1)) X_f)
             end = Returned Xc /\ length Xc = (Z.to_nat N / 2 + 1)%nat).
  { destruct max_inv_dyn as [D | ].
    - destruct (clip_inverse_returns D (map (Cdiv (RtoC 1)) X_f)) as (r & Hr & Hl);
        [ rewrite length_map; lia | ].
      exists r. split; [ exact Hr | ]. rewrite Hl, length_map. exact HlenX.
    - eexists. split; [ reflexivity | ]. rewrite length_map. exact HlenX. }
  destruct Hclip as (Xc & HXc & HlenXc).
  destruct (bandpass_returns N fs lowpass highpass Xc) as (Xb & HXb & HlenXb);
    [ lia | exact HlenXc | exact Hlp | exact Hhp | ].
  assert (HH : bcast2 Cmul C0 Y_f Xb
               = Returned (map (fun p => Cmul (fst p) (snd p)) (combine Y_f Xb)))
    by (apply bcast2_same_length; congruence).
  destruct (irfft_returns (map (fun p => Cmul (fst p) (snd p)) (combine Y_f Xb)) N)
    as (h & Hh & Hlenh); [ lia | ].
  exists X_f, Y_f, Xc, Xb, (map (fun p => Cmul (fst p) (snd p)) (combine Y_f Xb)), h.
  split; [ exact HX | ]. split; [ exact HY | ].
  split; [ exact HlenX | ]. split; [ exact HlenY | ].
  split; [ exact HXc | ]. split; [ exact HXb | ].
  split; [ exact HH | ]. split; [ exact Hh | ]. split; [ exact Hlenh | ].
  split.
  - unfold deconvolve. fold L. rewrite EN, HX, HY. cbn [obind].
    rewrite HXc. cbn [obind]. rewrite HXb. cbn [obind].
    rewrite HH. cbn [obind]. rewrite Hh. reflexivity.
  - rewrite length_firstn. lia.
Qed.

End DeconvolveFacts.

(** ** The sweep is generated *)

Lemma Int_part_lower (r : R) (z : Z) : (IZR z <= r)%R -> (z <= Int_part r)%Z.
Proof.
  intros H. destruct (base_Int_part r) as (_ & Hup).
  assert (IZR z < IZR (Int_part r + 1))%R by (rewrite plus_IZR; lra).
  apply lt_IZR in H0. lia.
Qed.

Lemma py_int_lower (r : R) (z : Z) :
  (0 <= r)%R -> (IZR z <= r)%R -> (z <= py_int r)%Z.
Proof.
  intros H0 H. unfold py_int.
  destruct (Rle_dec 0 r) as [_ | N]; [ | contradiction ].
  apply Int_part_lower. exact H.
Qed.

Lemma py_int_nonneg (r : R) : (0 <= r)%R -> (0 <= py_int r)%Z.
Proof. intros H. apply py_int_lower; simpl; assumption. Qed.

Lemma chirp_log_returns (t : list R) (f0 t1 f1 phi : R) :
  (0 < f0 * f1)%R ->
  exists ch, chirp_log t f0 t1 f1 phi = Returned ch /\ length ch = length t.
Proof.
  intros H. unfold chirp_log.
  destruct (Rle_dec (f0 * f1) 0) as [N | _]; [ lra | ].
  eexists. split; [ reflexivity | ]. apply length_map.
Qed.

Lemma faded_sweep_returns (fs d f0 f1 a : R) (fade : Z) :
  (0 <= d * fs)%R -> (0 < f0 * f1)%R ->
  (0 <= fade <= py_int (d * fs))%Z ->
  exists sw, faded_sweep fs d f0 f1 a fade = Returned sw /\
             length sw = Z.to_nat (py_int (d * fs)).
Proof.
  intros Hd Hf Hfade. unfold faded_sweep.
  pose proof (py_int_nonneg _ Hd) as Hn.
  rewrite linspace_returns by exact Hn. cbn [obind].
  match goal with
  | |- context [chirp_log ?t f0 d f1 90] =>
      destruct (chirp_log_returns t f0 d f1 90 Hf) as (ch & Hch & Hlen)
  end.
  rewrite Hch. cbn [obind].
  rewrite length_map, length_seq in Hlen.
  rewrite fade_window_fits by (rewrite length_map; lia). cbn [obind].
  rewrite bcast2_same_length.
  - eexists. split; [ reflexivity | ].
    rewrite length_map, length_combine, length_map, length_app, repeat_length,
      length_map, length_seq. lia.
  - rewrite length_app, repeat_length, !length_map, length_seq. lia.
Qed.

Lemma make_excitation_sweep_returns (fs : R) (k : nat) (d p f0 f1 a : R)
  (fade : Z) :
  (0 <= fs)%R -> (0 <= d * fs)%R -> (0 < f0 * f1)%R ->
  (0 <= fade <= py_int (d * fs))%Z -> (0 <= fs * p)%R ->
  exists arr, make_excitation_sweep fs k d p f0 f1 a fade = Returned arr.
Proof.
  intros Hfs Hd Hf Hfade Hp. unfold make_excitation_sweep.
  destruct (faded_sweep_returns fs d f0 f1 a fade Hd Hf Hfade) as (sw & Hsw & _).
  rewrite Hsw. cbn [obind].
  rewrite np_pad_returns.
  - cbn [obind]. eauto.
  - apply py_int_nonneg. lra.
  - apply py_int_nonneg. exact Hp.
Qed.

Lemma np_zeros2_returns (n : nat) (c : Z) :
  (0 <= c)%Z ->
  np_zeros2 n c = Returned (mkArray2 n (repeat (repeat 0%R n) (Z.to_nat c))).
Proof.
  intros H. unfold np_zeros2.
  destruct (c <? 0)%Z eqn:E; [ apply Z.ltb_lt in E; lia | reflexivity ].
Qed.

(** ** Frame properties of the session monad *)

Lemma keeps_mret {X A : Type} (f : Measurement -> X) (a : A) :
  keeps f (mret a).
Proof. intro s; reflexivity. Qed.

Lemma keeps_lift {X A : Type} (f : Measurement -> X) (o : outcome A) :
  keeps f (lift o).
Proof. intro s; reflexivity. Qed.

Lemma keeps_gets {X A : Type} (f : Measurement -> X) (g : Measurement -> A) :
  keeps f (gets g).
Proof. intro s; reflexivity. Qed.

Lemma keeps_deref {X A : Type} (f : Measurement -> X)
  (g : Measurement -> option A) : keeps f (deref g).
Proof. intro s; unfold deref; destruct (g s); reflexivity. Qed.

Lemma keeps_modify {X : Type} (f : Measurement -> X)
  (u : Measurement -> Measurement) :
  (forall s, f (u s) = f s) -> keeps f (modify u).
Proof. intros H s; simpl; apply H. Qed.

Lemma keeps_mbind {X A B : Type} (f : Measurement -> X) (c : M A)
  (k : A -> M B) :
  keeps f c -> (forall a, keeps f (k a)) -> keeps f (mbind c k).
Proof.
  intros Hc Hk s. unfold mbind.
  specialize (Hc s).
  destruct (c s) as [s' [a | e]]; simpl in *.
  - rewrite (Hk a s'). exact Hc.
  - exact Hc.
Qed.

Lemma mbind_returned {A B : Type} (c : M A) (k : A -> M B)
  (s s' : Measurement) (b : B) :
  mbind c k s = (s', Returned b) ->
  exists s1 a, c s = (s1, Returned a) /\ k a s1 = (s', Returned b).
Proof.
  unfold mbind. destruct (c s) as [s1 [a | e]]; intros H.
  - exists s1, a. auto.
  - discriminate.
Qed.

Lemma mbind_lift_returned {A B : Type} (o : outcome A) (k : A -> M B)
  (s s' : Measurement) (b : B) :
  mbind (lift o) k s = (s', Returned b) ->
  exists a, o = Returned a /\ k a s = (s', Returned b).
Proof.
  unfold mbind, lift. destruct o as [a | e]; intros H.
  - exists a. auto.
  - discriminate.
Qed.

Lemma mbind_modify {B : Type} (u : Measurement -> Measurement)
  (k : unit -> M B) (s : Measurement) :
  mbind (modify u) k s = k tt (u s).
Proof. reflexivity. Qed.

Lemma mbind_gets {A B : Type} (f : Measurement -> A) (k : A -> M B)
  (s : Measurement) :
  mbind (gets f) k s = k (f s) s.
Proof. reflexivity. Qed.

Ltac keeps_step :=
  match goal with
  | |- keeps _ (mbind _ _) => apply keeps_mbind; [ | intros ? ]
  | |- keeps _ (mret _) => apply keeps_mret
  | |- keeps _ (lift _) => apply keeps_lift
  | |- keeps _ (gets _) => apply keeps_gets
  | |- keeps _ (deref _) => apply keeps_deref
  | |- keeps _ (modify _) => apply keeps_modify; intros ?; reflexivity
  | |- keeps _ (if ?b then _ else _) => destruct b
  | |- keeps _ (match ?o with Some _ => _ | None => _ end) => destruct o
  end.

Ltac keeps_auto := repeat keeps_step.

Ltac session_fields_in H :=
  cbn [dummy_debugging sweep_parameters sound_success_fs
       sound_success_singlechannel sound_failed_fs sound_failed_singlechannel
       channel_layout_input channel_layout_output num_input_channels_used
       num_output_channels_used feedback_loop_used sweep_mono sweep_hpc_mono
       excitation excitation_hpc sound_success sound_failed recorded_sweep_l
       recorded_sweep_r feedback_loop attr_fs sd_default_samplerate
       with_sweep_parameters with_layout with_num_output_channels_used
       with_num_input_channels_used with_feedback_loop_used with_sweep_mono
       with_sweep_hpc_mono with_excitation with_excitation_hpc
       with_sound_success with_sound_failed with_recorded_sweep_l
       with_recorded_sweep_r with_feedback_loop with_sd_default_samplerate
       nrows columns expand_dims1] in H.

Ltac session_fields_in_all :=
  repeat match goal with
         | H : _ |- _ => progress session_fields_in H
         end.

Ltac session_fields :=
  cbn [dummy_debugging sweep_parameters sound_success_fs
       sound_success_singlechannel sound_failed_fs sound_failed_singlechannel
       channel_layout_input channel_layout_output num_input_channels_used
       num_output_channels_used feedback_loop_used sweep_mono sweep_hpc_mono
       excitation excitation_hpc sound_success sound_failed recorded_sweep_l
       recorded_sweep_r feedback_loop attr_fs sd_default_samplerate
       with_sweep_parameters with_layout with_num_output_channels_used
       with_num_input_channels_used with_feedback_loop_used with_sweep_mono
       with_sweep_hpc_mono with_excitation with_excitation_hpc
       with_sound_success with_sound_failed with_recorded_sweep_l
       with_recorded_sweep_r with_feedback_loop with_sd_default_samplerate
       nrows columns expand_dims1].

Ltac split_outcomes H :=
  repeat match type of H with
         | context [match ?x with _ => _ end] =>
             lazymatch x with
             | context [match _ with _ => _ end] => fail
             | _ => let E := fresh "E" in
                    destruct x eqn:E; cbn beta iota in H; try discriminate H
             end
         end.

Section SessionFacts.

Variable be : Backend.

Lemma keeps_route {X : Type} (f : Measurement -> X) src idx store :
  (forall v s, f (store v s) = f s) -> keeps f (route src idx store).
Proof.
  intros H. unfold route.
  repeat (apply keeps_mbind; [ | intros ? ]);
    try apply keeps_gets; try apply keeps_lift;
    apply keeps_modify; intros; apply H.
Qed.

Lemma keeps_prepare_audio {X : Type} (f : Measurement -> X) :
  derived_free f -> keeps f (prepare_audio be).
Proof.
  intros (H1 & H2 & H3 & H4 & H5 & H6). unfold prepare_audio.
  repeat first
    [ apply keeps_route; assumption
    | apply keeps_modify; intros; solve [ apply H1 | apply H2 ]
    | keeps_step ].
Qed.


(** *** The layout stored by [set_channel_layout] *)

Lemma fold_max_ge_init (t : list Z) (h : Z) : (h <= fold_left Z.max t h)%Z.
Proof.
  revert h. induction t as [| a t IH]; intros h; simpl; [ lia | ].
  specialize (IH (Z.max h a)). lia.
Qed.

Lemma fold_max_upper (t : list Z) (h x : Z) :
  In x (h :: t) -> (x <= fold_left Z.max t h)%Z.
Proof.
  revert h. induction t as [| a t IH]; intros h [Hx | Hx]; simpl in *.
  - lia.
  - contradiction.
  - subst. pose proof (fold_max_ge_init t (Z.max x a)). lia.
  - destruct Hx as [Hx | Hx].
    + subst. pose proof (fold_max_ge_init t (Z.max h x)). lia.
    + apply IH. right. exact Hx.
Qed.

Lemma fold_max_in (t : list Z) (h : Z) : In (fold_left Z.max t h) (h :: t).
Proof.
  revert h. induction t as [| a t IH]; intros h; simpl; [ now left | ].
  destruct (IH (Z.max h a)) as [E | E].
  - rewrite <- E. destruct (Z.max_spec h a) as [[_ Hm] | [_ Hm]]; rewrite Hm; auto.
  - right. right. exact E.
Qed.

Lemma enabled_roles_in (l : list Z) (r : Z) :
  In r (enabled_roles l) <-> In r l /\ (0 <= r)%Z.
Proof.
  unfold enabled_roles. rewrite filter_In. rewrite Z.leb_le. tauto.
Qed.

(** The builtin [max] plus one counts the active channels as the
    specification does, as soon as the layout holds a [-1] or an enabled
    role. *)
Lemma max_plus_one_active (h : Z) (t : list Z) :
  In (-1)%Z (h :: t) \/ (exists r, In r (h :: t) /\ (0 <= r)%Z) ->
  (fold_left Z.max t h + 1)%Z = spec_active_channels (h :: t).
Proof.
  intros Hl. unfold spec_active_channels.
  pose proof (fold_max_in t h) as Hin.
  pose proof (fold_max_upper t h) as Hup.
  set (m := fold_left Z.max t h) in *.
  destruct (enabled_roles (h :: t)) as [| e es] eqn:E.
  - assert (Hneg : forall r, In r (h :: t) -> (r < 0)%Z).
    { intros r Hr. destruct (Z_lt_ge_dec r 0) as [| Hge]; [ assumption | ].
      assert (In r (enabled_roles (h :: t))) by (apply enabled_roles_in; split; [ assumption | lia ]).
      rewrite E in H. contradiction. }
    destruct Hl as [Hm1 | (r & Hr & Hr0)].
    + specialize (Hup _ Hm1). specialize (Hneg _ Hin). lia.
    + specialize (Hneg _ Hr). lia.
  - pose proof (fold_max_in es e) as Hin'.
    pose proof (fold_max_upper es e) as Hup'.
    set (m' := fold_left Z.max es e) in *.
    rewrite <- E in Hin', Hup'.
    apply enabled_roles_in in Hin'. destruct Hin' as [Hm'l Hm'0].
    assert (m' <= m)%Z by (apply Hup; assumption).
    assert (m <= m')%Z.
    { apply Hup'. apply enabled_roles_in. split; [ assumption | lia ]. }
    lia.
Qed.

Lemma fst_mbind_modify {A : Type} (u : Measurement -> Measurement) (k : M A)
  (s : Measurement) :
  fst (mbind (modify u) (fun _ => k) s) = fst (k (u s)).
Proof. reflexivity. Qed.

(** The attributes that [set_channel_layout] has written when it is left,
    for layouts of three roles or more. *)
Lemma set_channel_layout_stores (s : Measurement) (i0 i1 i2 o0 o1 o2 : Z)
  (ri ro : list Z) :
  let disabled := ((o2 <? 0) || (i2 <? 0))%Z in
  let i' := if disabled then i0 :: i1 :: (-1)%Z :: ri else i0 :: i1 :: i2 :: ri in
  let o' := if disabled then o0 :: o1 :: (-1)%Z :: ro else o0 :: o1 :: o2 :: ro in
  let s' := fst (set_channel_layout be (i0 :: i1 :: i2 :: ri)
                   (o0 :: o1 :: o2 :: ro) s) in
  channel_layout_input s' = i' /\
  channel_layout_output s' = o' /\
  feedback_loop_used s' = negb disabled /\
  num_input_channels_used s' = (fold_left Z.max (tl i') (hd 0%Z i') + 1)%Z /\
  num_output_channels_used s' = (fold_left Z.max (tl o') (hd 0%Z o') + 1)%Z.
Proof.
  intros disabled i' o' s'.
  assert (K : forall (X : Type) (f : Measurement -> X) s1,
             derived_free f -> f (fst (prepare_audio be s1)) = f s1).
  { intros X f s1 Hf. apply (keeps_prepare_audio f Hf). }
  assert (D1 : derived_free channel_layout_input) by (repeat split).
  assert (D2 : derived_free channel_layout_output) by (repeat split).
  assert (D3 : derived_free feedback_loop_used) by (repeat split).
  assert (D4 : derived_free num_input_channels_used) by (repeat split).
  assert (D5 : derived_free num_output_channels_used) by (repeat split).
  subst s' i' o' disabled.
  unfold set_channel_layout.
  destruct (o2 <? 0)%Z eqn:Eo; [ | destruct (i2 <? 0)%Z eqn:Ei ];
    repeat (cbn [mbind lift py_getitem nth_error mret modify py_setitem length
                 Nat.ltb Nat.leb list_set py_max fst snd orb negb tl hd];
            rewrite ?Eo, ?Ei);
    rewrite (K _ _ _ D1), (K _ _ _ D2), (K _ _ _ D3), (K _ _ _ D4), (K _ _ _ D5);
    repeat split; reflexivity.
Qed.

(** C9 (set_channel_layout, lines 198-208).  After every call with layouts
    of three roles, a negative feedback entry on either side leaves both
    stored layouts with [-1] at index 2 and the feedback flag false, and
    the stored channel count of each side is 1 + the largest non-negative
    role of that side's stored layout (0 when no role is enabled). *)
Theorem set_channel_layout_invariant (s : Measurement) (i o : list Z) :
  (3 <= length i)%nat -> (3 <= length o)%nat ->
  let s' := fst (set_channel_layout be i o s) in
  ((nth 2 i 0 < 0 \/ nth 2 o 0 < 0)%Z ->
     nth 2 (channel_layout_input s') 0%Z = (-1)%Z /\
     nth 2 (channel_layout_output s') 0%Z = (-1)%Z /\
     feedback_loop_used s' = false) /\
  num_input_channels_used s' = spec_active_channels (channel_layout_input s') /\
  num_output_channels_used s' = spec_active_channels (channel_layout_output s').
Proof.
  intros Hi Ho.
  destruct i as [| i0 [| i1 [| i2 ri]]]; simpl in Hi; try lia.
  destruct o as [| o0 [| o1 [| o2 ro]]]; simpl in Ho; try lia.
  pose proof (set_channel_layout_stores s i0 i1 i2 o0 o1 o2 ri ro) as H.
  cbv zeta in H. destruct H as (Hin & Hout & Hfb & Hni & Hno).
  intros s'. subst s'.
  rewrite Hin, Hout, Hfb, Hni, Hno. clear Hin Hout Hfb Hni Hno.
  cbn [nth].
  destruct (o2 <? 0)%Z eqn:Eo; [ | destruct (i2 <? 0)%Z eqn:Ei ];
    cbn [orb negb nth hd tl].
  - split; [ auto | ].
    split; apply max_plus_one_active; left; simpl; auto.
  - split; [ auto | ].
    split; apply max_plus_one_active; left; simpl; auto.
  - apply Z.ltb_ge in Eo, Ei.
    split; [ intros [Hn | Hn]; lia | ].
    split; apply max_plus_one_active; right;
      [ exists i2 | exists o2 ]; simpl; auto.
Qed.

(** *** What [prepare_audio] leaves behind when it returns *)

Lemma prepare_audio_returned (s s' : Measurement) :
  prepare_audio be s = (s', Returned tt) ->
  exists fs main mono hpc ok ko z e zh eh zs es zf ef,
    let p := sweep_parameters s in
    let out_channels := if feedback_loop_used s then channel_layout_output s
                        else firstn 2 (channel_layout_output s) in
    sd_default_samplerate s = Some fs /\
    make_excitation_sweep fs 1 (sweeplength_sec p) (post_silence_sec p)
      (f_start p) (f_end p) (amp_db p) (fade_out_samples p) = Returned main /\
    (if dummy_debugging s
     then make_excitation_sweep fs 1 (1 / 100) (1 / 100) 100 20000 (-20) 0
     else Returned main) = Returned mono /\
    make_excitation_sweep fs 1 2 1 20 20000 (-20) 0 = Returned hpc /\
    resample_poly be (sound_success_singlechannel s) (py_round fs)
      (sound_success_fs s) = Returned ok /\
    resample_poly be (sound_failed_singlechannel s) (py_round fs)
      (sound_failed_fs s) = Returned ko /\
    np_zeros2 (nrows mono) (num_output_channels_used s) = Returned z /\
    assign_cols z out_channels mono = Returned e /\
    np_zeros2 (nrows hpc) (num_output_channels_used s) = Returned zh /\
    assign_cols zh out_channels hpc = Returned eh /\
    np_zeros2 (length ok) (num_output_channels_used s) = Returned zs /\
    assign_cols zs (firstn 2 out_channels) (expand_dims1 ok) = Returned es /\
    np_zeros2 (length ko) (num_output_channels_used s) = Returned zf /\
    assign_cols zf (firstn 2 out_channels) (expand_dims1 ko) = Returned ef /\
    s' = with_sound_failed (Some ef)
           (with_sound_success (Some es)
              (with_excitation_hpc (Some eh)
                 (with_excitation (Some e)
                    (with_sweep_hpc_mono (Some hpc)
                       (with_sweep_mono (Some mono) s))))).
Proof.
  intros H.
  unfold prepare_audio, route, mbind, lift, gets, modify, deref, mret in H.
  cbn beta iota in H.
  split_outcomes H.
  all: session_fields_in_all.
  all: repeat match goal with
              | Hs : Some _ = Some _ |- _ => injection Hs as Hs; subst
              end.
  all: injection H as H; subst s'.
  all: do 14 eexists; cbv zeta.
  all: repeat match goal with
              | Hb : dummy_debugging _ = _ |- _ => rewrite Hb; clear Hb
              | Hb : feedback_loop_used _ = _ |- _ => rewrite Hb; clear Hb
              end.
  all: repeat (split; [ first [ eassumption | reflexivity ] | ]).
  all: reflexivity.
Qed.
Lemma make_excitation_sweep_shape (fs : R) (k : nat) (d p f0 f1 a : R)
  (fade : Z) (arr : array2) :
  make_excitation_sweep fs k d p f0 f1 a fade = Returned arr ->
  exists sig, arr = mkArray2 (length sig) (repeat sig k).
Proof.
  unfold make_excitation_sweep. intros H.
  apply obind_returned in H. destruct H as (sweep & _ & H).
  apply obind_returned in H. destruct H as (exc & _ & H).
  injection H as <-. eauto.
Qed.

Lemma set_channel_layout_returned (s s' : Measurement) (i o : list Z) :
  set_channel_layout be i o s = (s', Returned tt) ->
  exists i0 i1 i2 ri o0 o1 o2 ro,
    i = i0 :: i1 :: i2 :: ri /\ o = o0 :: o1 :: o2 :: ro /\
    let disabled := ((o2 <? 0) || (i2 <? 0))%Z in
    let i' := if disabled then i0 :: i1 :: (-1)%Z :: ri else i in
    let o' := if disabled then o0 :: o1 :: (-1)%Z :: ro else o in
    prepare_audio be
      (with_num_input_channels_used (fold_left Z.max (tl i') (hd 0%Z i') + 1)
         (with_num_output_channels_used
            (fold_left Z.max (tl o') (hd 0%Z o') + 1)
            (with_layout i' o'
               (with_feedback_loop_used (negb disabled) s))))
    = (s', Returned tt).
Proof.
  intros H.
  destruct o as [| o0 [| o1 [| o2 ro]]];
    try (unfold set_channel_layout in H; cbn in H; discriminate H).
  assert (Hi : exists i0 i1 i2 ri, i = i0 :: i1 :: i2 :: ri).
  { destruct i as [| i0 [| i1 [| i2 ri]]]; [ | | | eauto 6 ];
      exfalso; unfold set_channel_layout in H;
      cbn [mbind lift py_getitem nth_error] in H;
      destruct (o2 <? 0)%Z;
      cbn [mbind lift py_getitem nth_error mret modify py_setitem length
           Nat.ltb Nat.leb] in H; discriminate H. }
  destruct Hi as (i0 & i1 & i2 & ri & ->).
  exists i0, i1, i2, ri, o0, o1, o2, ro.
  split; [ reflexivity | ]. split; [ reflexivity | ].
  cbv zeta. unfold set_channel_layout in H.
  destruct (o2 <? 0)%Z eqn:Eo; [ | destruct (i2 <? 0)%Z eqn:Ei ];
    repeat (cbn [mbind lift py_getitem nth_error mret modify py_setitem length
                 Nat.ltb Nat.leb list_set py_max fst snd orb negb tl hd] in H;
            rewrite ?Eo, ?Ei in H);
    cbn [orb negb tl hd]; exact H.
Qed.

Lemma firstn_incl {A : Type} (k : nat) (l : list A) : incl (firstn k l) l.
Proof.
  intros a Ha. rewrite <- (firstn_skipn k l). apply in_or_app. now left.
Qed.

(** An index of the routing that is in range of the buffer lands on a
    column that an enabled role of the layout designates: a role [r >= 0]
    on column [r], the role [-1] on the last column, which is the column of
    the largest role. *)
Lemma norm_index_designated (h : Z) (t : list Z) (r : Z) (j : nat) :
  roles_valid (h :: t) ->
  In r (h :: t) ->
  norm_index (Z.to_nat (fold_left Z.max t h + 1)) r = Returned j ->
  In (Z.of_nat j) (enabled_roles (h :: t)).
Proof.
  intros Hv Hr Hn.
  pose proof (proj1 (Forall_forall _ _) Hv r Hr) as Hr1. cbv beta in Hr1.
  pose proof (fold_max_in t h) as Hm.
  pose proof (fold_max_upper t h r Hr) as Hle.
  set (m := fold_left Z.max t h) in *.
  unfold norm_index in Hn.
  destruct (0 <=? r)%Z eqn:E0.
  - destruct (r <? Z.of_nat (Z.to_nat (m + 1)))%Z; [ | discriminate ].
    injection Hn as <-. apply Z.leb_le in E0.
    rewrite Z2Nat.id by lia. apply enabled_roles_in. auto.
  - apply Z.leb_gt in E0. assert (r = -1)%Z by lia. subst r.
    destruct (0 <=? -1 + Z.of_nat (Z.to_nat (m + 1)))%Z eqn:E1; [ | discriminate ].
    assert (Hj : Z.of_nat j = m).
    { assert (Hj : Z.to_nat (-1 + Z.of_nat (Z.to_nat (m + 1))) = j) by congruence.
      apply Z.leb_le in E1. lia. }
    rewrite Hj. apply enabled_roles_in. split; [ exact Hm | lia ].
Qed.

(** A buffer that [route] has filled from a one-column sweep for a valid
    layout: its shape, and silence outside the designated columns. *)
Lemma routed_silence (h : Z) (t idx : list Z) (sig : list R) (z e : array2) :
  roles_valid (h :: t) ->
  incl idx (h :: t) ->
  np_zeros2 (length sig) (fold_left Z.max t h + 1) = Returned z ->
  assign_cols z idx (mkArray2 (length sig) [sig]) = Returned e ->
  nrows e = length sig /\
  ncols e = Z.to_nat (fold_left Z.max t h + 1) /\
  (forall j, (j < ncols e)%nat ->
     ~ In (Z.of_nat j) (enabled_roles (h :: t)) ->
     nth j (columns e) [] = repeat 0%R (nrows e)) /\
  (forall j, (j < ncols e)%nat ->
     nth j (columns e) [] = sig \/ nth j (columns e) [] = repeat 0%R (nrows e)).
Proof.
  intros Hv Hincl Hz He.
  destruct (route_columns (length sig) _ sig idx z Hz) as (Hspec & _).
  destruct (Hspec e He) as (Hrows & Hcols & Hj).
  split; [ exact Hrows | ]. split; [ exact Hcols | ].
  rewrite Hrows, Hcols. split.
  - intros j Hlt Hno. apply (proj2 (Hj j) Hlt).
    intros (r & Hr & Hn). apply Hno.
    eapply norm_index_designated; eauto.
  - intros j Hlt.
    destruct (existsb (fun r => match norm_index (Z.to_nat (fold_left Z.max t h + 1)) r with
                                | Returned j' => Nat.eqb j' j
                                | Raised _ => false
                                end) idx) eqn:E.
    + left. apply (proj1 (Hj j)).
      apply existsb_exists in E. destruct E as (r & Hr & E).
      exists r. split; [ exact Hr | ].
      destruct (norm_index (Z.to_nat (fold_left Z.max t h + 1)) r) as [j' | ];
        [ | discriminate ].
      apply Nat.eqb_eq in E. congruence.
    + right. apply (proj2 (Hj j) Hlt).
      intros (r & Hr & Hn).
      assert (F : existsb (fun r => match norm_index (Z.to_nat (fold_left Z.max t h + 1)) r with
                                | Returned j' => Nat.eqb j' j
                                | Raised _ => false
                                end) idx = true).
      { apply existsb_exists. exists r. split; [ exact Hr | ].
        rewrite Hn. apply Nat.eqb_refl. }
      congruence.
Qed.

(** C3, as the code has it (prepare_audio, lines 257-269, reached from
    set_channel_layout).  For every layout whose output roles are channel
    indices or [-1] and for which [set_channel_layout] returns, both
    excitation buffers have one column per active output channel, every
    column that no enabled output role designates is exactly zero, and
    every column is either zero or the mono sweep.  A role below [-1] is
    not rejected by the code and is outside this statement. *)
Theorem excitation_silence (s s' : Measurement) (i o : list Z) :
  roles_valid o ->
  set_channel_layout be i o s = (s', Returned tt) ->
  exists e eh mono hpc,
    excitation s' = Some e /\ excitation_hpc s' = Some eh /\
    sweep_mono s' = Some mono /\ sweep_hpc_mono s' = Some hpc /\
    (nrows e = nrows mono /\
     ncols e = Z.to_nat (num_output_channels_used s') /\
     (forall j, (j < ncols e)%nat ->
        ~ In (Z.of_nat j) (enabled_roles (channel_layout_output s')) ->
        nth j (columns e) [] = repeat 0%R (nrows e)) /\
     (forall j, (j < ncols e)%nat ->
        nth j (columns e) [] = nth 0 (columns mono) [] \/
        nth j (columns e) [] = repeat 0%R (nrows e))) /\
    (nrows eh = nrows hpc /\
     ncols eh = Z.to_nat (num_output_channels_used s') /\
     (forall j, (j < ncols eh)%nat ->
        ~ In (Z.of_nat j) (enabled_roles (channel_layout_output s')) ->
        nth j (columns eh) [] = repeat 0%R (nrows eh)) /\
     (forall j, (j < ncols eh)%nat ->
        nth j (columns eh) [] = nth 0 (columns hpc) [] \/
        nth j (columns eh) [] = repeat 0%R (nrows eh))).
Proof.
  intros Hv H.
  apply set_channel_layout_returned in H.
  destruct H as (i0 & i1 & i2 & ri & o0 & o1 & o2 & ro & -> & -> & H).
  cbv zeta in H.
  set (disabled := ((o2 <? 0) || (i2 <? 0))%Z) in *.
  set (o' := if disabled then o0 :: o1 :: (-1)%Z :: ro
             else o0 :: o1 :: o2 :: ro) in *.
  assert (Hv' : roles_valid o').
  { unfold roles_valid in *. subst o'. destruct disabled; [ | exact Hv ].
    inversion Hv as [| ? ? H0 Hv1]; subst.
    inversion Hv1 as [| ? ? H1 Hv2]; subst.
    inversion Hv2 as [| ? ? H2 Hv3]; subst.
    repeat constructor; auto; lia. }
  assert (Ho' : exists h t, o' = h :: t /\
                  (fold_left Z.max (tl o') (hd 0%Z o') = fold_left Z.max t h)).
  { subst o'. destruct disabled; eexists; eexists; split; reflexivity. }
  destruct Ho' as (h & t & Eo' & Emax).
  apply prepare_audio_returned in H.
  destruct H as (fs & main & mono & hpc & ok & ko & z & e & zh & eh & zs & es
                 & zf & ef & H).
  cbv zeta in H. session_fields_in H.
  destruct H as (_ & Hmain & Hmono & Hhpc & _ & _ & Hz & He & Hzh & Heh
                 & _ & _ & _ & _ & ->).
  session_fields.
  assert (Smono : exists sig, mono = mkArray2 (length sig) [sig]).
  { destruct (dummy_debugging s).
    - apply make_excitation_sweep_shape in Hmono. exact Hmono.
    - injection Hmono as <-.
      apply make_excitation_sweep_shape in Hmain. exact Hmain. }
  assert (Shpc : exists sig, hpc = mkArray2 (length sig) [sig]).
  { apply make_excitation_sweep_shape in Hhpc. exact Hhpc. }
  destruct Smono as (sm & ->). destruct Shpc as (sh & ->).
  cbn [nrows columns nth] in *.
  rewrite Emax in *. rewrite Eo' in *.
  assert (Hincl : incl (if negb disabled then h :: t else firstn 2 (h :: t))
                       (h :: t)).
  { destruct (negb disabled); [ apply incl_refl | apply firstn_incl ]. }
  exists e, eh, (mkArray2 (length sm) [sm]), (mkArray2 (length sh) [sh]).
  repeat (split; [ reflexivity | ]).
  cbn [nrows columns nth].
  destruct (routed_silence h t _ sm z e Hv' Hincl Hz He) as (A1 & A2 & A3 & A4).
  destruct (routed_silence h t _ sh zh eh Hv' Hincl Hzh Heh) as (B1 & B2 & B3 & B4).
  rewrite A1, B1 in *.
  repeat split; assumption.
Qed.

(** A role of a valid layout is an index in range of a buffer with one
    column per active channel. *)
Lemma norm_index_valid (h : Z) (t : list Z) (r : Z) :
  roles_valid (h :: t) -> In r (h :: t) ->
  (1 <= fold_left Z.max t h + 1)%Z ->
  is_returned (norm_index (Z.to_nat (fold_left Z.max t h + 1)) r) = true.
Proof.
  intros Hv Hr Hc.
  pose proof (proj1 (Forall_forall _ _) Hv r Hr) as Hr1. cbv beta in Hr1.
  pose proof (fold_max_upper t h r Hr) as Hle.
  unfold norm_index.
  destruct (0 <=? r)%Z eqn:E0.
  - destruct (r <? Z.of_nat (Z.to_nat (fold_left Z.max t h + 1)))%Z eqn:E1;
      [ reflexivity | ].
    apply Z.ltb_ge in E1. apply Z.leb_le in E0. lia.
  - destruct (0 <=? r + Z.of_nat (Z.to_nat (fold_left Z.max t h + 1)))%Z eqn:E1;
      [ reflexivity | ].
    apply Z.leb_gt in E0, E1. lia.
Qed.


(** *** [prepare_audio] returns *)

Lemma route_returns (s : Measurement) (sig : list R) (idx : list Z)
  (store : option array2 -> Measurement -> Measurement) (h : Z) (t : list Z) :
  roles_valid (h :: t) -> incl idx (h :: t) ->
  num_output_channels_used s = (fold_left Z.max t h + 1)%Z ->
  (1 <= num_output_channels_used s)%Z ->
  exists z e,
    np_zeros2 (length sig) (num_output_channels_used s) = Returned z /\
    assign_cols z idx (mkArray2 (length sig) [sig]) = Returned e.
Proof.
  intros Hv Hincl Hnum H1.
  assert (H0 : (0 <= num_output_channels_used s)%Z) by lia.
  pose proof (np_zeros2_returns (length sig) _ H0) as Hz.
  destruct (route_columns _ _ sig idx _ Hz) as (_ & Hret).
  destruct Hret as (e & He).
  - apply Forall_forall. intros r Hr. rewrite Hnum.
    apply norm_index_valid; [ exact Hv | apply Hincl; exact Hr | lia ].
  - eexists. exists e. split; [ exact Hz | exact He ].
Qed.

Lemma is_returned_true {A : Type} (o : outcome A) :
  is_returned o = true -> exists a, o = Returned a.
Proof. destruct o; [ eauto | discriminate ]. Qed.

Lemma prepare_audio_returns (s : Measurement) (fs : R) :
  sweeps_ok s fs -> sounds_ok be s fs -> routing_ok s ->
  exists s', prepare_audio be s = (s', Returned tt).
Proof.
  intros (Hsd & Hfs & Hd & Hf & Hfade & Hp) (Hok & Hko)
         (h & t & Hlay & Hv & Hnum & H1).
  destruct (make_excitation_sweep_returns fs 1 _ _ _ _ (amp_db (sweep_parameters s))
              _ Hfs Hd Hf Hfade Hp) as (main & Hmain).
  destruct (make_excitation_sweep_returns fs 1 (1 / 100) (1 / 100) 100 20000 (-20) 0)
    as (dbg & Hdbg); try lra.
  { split; [ lia | apply py_int_nonneg; lra ]. }
  destruct (make_excitation_sweep_returns fs 1 2 1 20 20000 (-20) 0)
    as (hpc & Hhpc); try lra.
  { split; [ lia | apply py_int_nonneg; lra ]. }
  apply is_returned_true in Hok, Hko.
  destruct Hok as (ok & Hok). destruct Hko as (ko & Hko).
  destruct (make_excitation_sweep_shape _ _ _ _ _ _ _ _ _ Hmain) as (sm & Em).
  destruct (make_excitation_sweep_shape _ _ _ _ _ _ _ _ _ Hdbg) as (sd & Ed).
  destruct (make_excitation_sweep_shape _ _ _ _ _ _ _ _ _ Hhpc) as (sh & Eh).
  cbn [repeat] in Em, Ed, Eh.
  set (out_channels := if feedback_loop_used s then channel_layout_output s
                       else firstn 2 (channel_layout_output s)).
  assert (Hincl : incl out_channels (h :: t)).
  { subst out_channels. rewrite Hlay.
    destruct (feedback_loop_used s); [ apply incl_refl | apply firstn_incl ]. }
  assert (Hincl2 : incl (firstn 2 out_channels) (h :: t)).
  { eapply incl_tran; [ apply firstn_incl | exact Hincl ]. }
  destruct (route_returns s sm out_channels with_excitation h t Hv Hincl Hnum H1)
    as (zm & em & Hzm & Hem).
  destruct (route_returns s sd out_channels with_excitation h t Hv Hincl Hnum H1)
    as (zd & ed & Hzd & Hed).
  destruct (route_returns s sh out_channels with_excitation_hpc h t Hv Hincl Hnum H1)
    as (zh & eh & Hzh & Heh).
  destruct (route_returns s ok (firstn 2 out_channels) with_sound_success h t
              Hv Hincl2 Hnum H1) as (zs & es & Hzs & Hes).
  destruct (route_returns s ko (firstn 2 out_channels) with_sound_failed h t
              Hv Hincl2 Hnum H1) as (zf & ef & Hzf & Hef).
  rewrite <- Em in Hem. rewrite <- Ed in Hed. rewrite <- Eh in Heh.
  replace (length sm) with (nrows main) in Hzm by (rewrite Em; reflexivity).
  replace (length sd) with (nrows dbg) in Hzd by (rewrite Ed; reflexivity).
  replace (length sh) with (nrows hpc) in Hzh by (rewrite Eh; reflexivity).
  clear Em Ed Eh.
  change (mkArray2 (length ok) [ok]) with (expand_dims1 ok) in Hes.
  change (mkArray2 (length ko) [ko]) with (expand_dims1 ko) in Hef.
  unfold prepare_audio, route, mbind, lift, gets, modify, deref, mret.
  cbn beta iota. session_fields. rewrite Hsd. cbn beta iota.
  rewrite Hmain. cbn beta iota. session_fields.
  fold out_channels.
  destruct (dummy_debugging s); cbn beta iota; session_fields;
    rewrite ?Hdbg; cbn beta iota; session_fields;
    rewrite Hhpc; cbn beta iota; session_fields;
    rewrite Hok; cbn beta iota; session_fields;
    rewrite Hko; cbn beta iota; session_fields;
    fold out_channels;
    rewrite ?Hzm, ?Hzd; cbn beta iota; session_fields;
    rewrite ?Hem, ?Hed; cbn beta iota; session_fields;
    rewrite Hzh; cbn beta iota; session_fields;
    rewrite Heh; cbn beta iota; session_fields;
    rewrite Hzs; cbn beta iota; session_fields;
    rewrite Hes; cbn beta iota; session_fields;
    rewrite Hzf; cbn beta iota; session_fields;
    rewrite Hef; cbn beta iota; session_fields;
    eexists; reflexivity.
Qed.

Lemma set_channel_layout_returns (s : Measurement) (fs : R)
  (i0 i1 i2 o0 o1 o2 : Z) (ri ro : list Z) :
  let disabled := ((o2 <? 0) || (i2 <? 0))%Z in
  let o' := if disabled then o0 :: o1 :: (-1)%Z :: ro
            else o0 :: o1 :: o2 :: ro in
  sweeps_ok s fs -> sounds_ok be s fs -> roles_valid o' ->
  (0 <= fold_left Z.max (tl o') (hd 0%Z o'))%Z ->
  exists s', set_channel_layout be (i0 :: i1 :: i2 :: ri)
               (o0 :: o1 :: o2 :: ro) s = (s', Returned tt).
Proof.
  intros disabled o' Hsw Hso Hv Hmax.
  set (i' := if disabled then i0 :: i1 :: (-1)%Z :: ri
             else i0 :: i1 :: i2 :: ri).
  assert (E : set_channel_layout be (i0 :: i1 :: i2 :: ri)
                (o0 :: o1 :: o2 :: ro) s =
              prepare_audio be
                (with_num_input_channels_used
                   (fold_left Z.max (tl i') (hd 0%Z i') + 1)
                   (with_num_output_channels_used
                      (fold_left Z.max (tl o') (hd 0%Z o') + 1)
                      (with_layout i' o'
                         (with_feedback_loop_used (negb disabled) s))))).
  { subst i' o' disabled. unfold set_channel_layout.
    destruct (o2 <? 0)%Z eqn:Eo; [ | destruct (i2 <? 0)%Z eqn:Ei ];
      repeat (cbn [mbind lift py_getitem nth_error mret modify py_setitem
                   length Nat.ltb Nat.leb list_set py_max fst snd orb negb
                   tl hd];
              rewrite ?Eo, ?Ei);
      reflexivity. }
  rewrite E. apply (prepare_audio_returns _ fs).
  - exact Hsw.
  - exact Hso.
  - assert (Ho' : exists h t, o' = h :: t) by
      (subst o'; destruct disabled; eauto).
    destruct Ho' as (h & t & Eo'). exists h, t.
    session_fields. rewrite Eo' in *. cbn [hd tl] in *.
    repeat split; [ exact Hv | lia ].
Qed.

End SessionFacts.

(** ** The example session is well formed *)

Lemma startup_sweeps_ok : sweeps_ok startup_session 48000.
Proof.
  unfold sweeps_ok, startup_session, fresh_session. session_fields.
  cbn [sweeplength_sec post_silence_sec f_start f_end amp_db fade_out_samples
       default_sweep_parameters].
  repeat split; try lra.
  - lia.
  - apply py_int_lower; [ lra | ].
    replace (3 * 48000)%R with (IZR 144000) by (simpl; lra).
    apply IZR_le. lia.
Qed.

Lemma startup_sounds_ok : sounds_ok quiet_backend startup_session 48000.
Proof. split; reflexivity. Qed.

Lemma startup_routing_ok : routing_ok startup_session.
Proof.
  exists 0%Z, [1; -1]%Z. unfold startup_session, fresh_session. session_fields.
  repeat split.
  - repeat constructor; lia.
  - lia.
Qed.

Lemma startup_init_returns :
  exists s, init quiet_backend None = Returned s.
Proof.
  unfold init. cbn [wave_read quiet_backend obind].
  destruct (prepare_audio_returns quiet_backend startup_session 48000
              startup_sweeps_ok startup_sounds_ok startup_routing_ok)
    as (s' & H).
  exists s'. unfold startup_session in H. rewrite H. reflexivity.
Qed.

(** ** The measurement transaction *)

Section MeasurementFacts.

Variable be : Backend.

Lemma keeps_extract_ear {X : Type} (f : Measurement -> X) recorded position store :
  (forall v s, f (store v s) = f s) -> keeps f (extract_ear recorded position store).
Proof.
  intros H. unfold extract_ear.
  repeat first [ apply keeps_modify; intros; apply H | keeps_step ].
Qed.

(** No method assigns the attribute [fs]. *)
Lemma keeps_attr_fs_call (c : call) : keeps attr_fs (run_call be c).
Proof.
  assert (P : keeps attr_fs (prepare_audio be))
    by (apply keeps_prepare_audio; repeat split).
  destruct c; cbn [run_call].
  - unfold set_sweep_parameters. keeps_auto. exact P.
  - unfold set_channel_layout.
    repeat first [ exact P | keeps_step ].
  - unfold set_samplerate.
    apply keeps_mbind; [ | intros; exact P ].
    destruct fs; keeps_auto.
  - exact P.
  - unfold single_measurement, store_feedback.
    repeat first [ apply keeps_extract_ear; intros; reflexivity | keeps_step ].
Qed.

Lemma reachable_attr_fs (s : Measurement) :
  reachable be s -> attr_fs s = None.
Proof.
  induction 1 as [samplerate s Hinit | s c _ IH].
  - unfold init in Hinit.
    apply obind_returned in Hinit. destruct Hinit as (ok & _ & Hinit).
    apply obind_returned in Hinit. destruct Hinit as (ko & _ & Hinit).
    pose proof (keeps_prepare_audio be attr_fs ltac:(repeat split)
                  (fresh_session samplerate ok ko)) as K.
    destruct (prepare_audio be (fresh_session samplerate ok ko)) as [s' [u | e]];
      [ | discriminate ].
    injection Hinit as <-. exact K.
  - rewrite (keeps_attr_fs_call c s). exact IH.
Qed.

(** C2 (get_irs, lines 359-376).  On every session that the constructor
    and the methods can produce, [get_irs] returns no value, whatever its
    arguments: the third argument of [deconvolve] is read from the
    attribute [fs], which the class never assigns, and the bare [except]
    swallows the error. *)
Theorem get_irs_returns_nothing (s : Measurement)
  (rec_l rec_r fb_loop : option (list R)) (deconv_fc_hp deconv_fc_lp : option R) :
  reachable be s ->
  get_irs be s rec_l rec_r fb_loop deconv_fc_hp deconv_fc_lp = None.
Proof.
  intros H. apply reachable_attr_fs in H.
  unfold get_irs, get_irs_try. rewrite H. reflexivity.
Qed.

(** What [get_irs] computes once a caller has set [fs] on the object: the
    two deconvolutions against the stored feedback signal, with the
    cutoffs [2 * f_start] and 20000 Hz. *)
Lemma get_irs_defaults (s : Measurement) (fs : R) (l r f : list R) :
  attr_fs s = Some fs ->
  recorded_sweep_l s = Some l -> recorded_sweep_r s = Some r ->
  feedback_loop s = Some f ->
  let lowpass := Some (mkFilter 20000 4 2) in
  let highpass := Some (mkFilter (f_start (sweep_parameters s) * 2) 4 2) in
  get_irs_try be s None None None None None =
  (let* ir_l := deconvolve be f l fs None lowpass highpass in
   let* ir_r := deconvolve be f r fs None lowpass highpass in
   Returned (ir_l, ir_r)).
Proof.
  intros Hfs Hl Hr Hf. unfold get_irs_try. cbn [or_else].
  rewrite Hfs, Hl, Hr, Hf. reflexivity.
Qed.

(** C1, as the code has it (single_measurement, lines 308-325).  When the
    device rejects the channel counts or the sample rate, the method
    returns without playing anything; the three stored recordings are
    empty lists by then, and every other attribute is as it was. *)
Theorem failed_validation_clears_recordings (s : Measurement)
  (type : option string) :
  check_input_settings be (num_input_channels_used s) (sd_default_samplerate s)
  && check_output_settings be (num_output_channels_used s)
       (sd_default_samplerate s) = false ->
  single_measurement be type s =
  (with_feedback_loop (Some [])
     (with_recorded_sweep_r (Some [])
        (with_recorded_sweep_l (Some []) s)), Returned tt).
Proof.
  intros H. unfold single_measurement.
  cbn [mbind modify gets]. session_fields. rewrite H. reflexivity.
Qed.

Lemma get_col_single (sig : list R) (n : nat) :
  get_col (mkArray2 n [sig]) 0 = Returned sig.
Proof. reflexivity. Qed.


(** What lines 342-345 store with the feedback loop enabled: the captured
    column, or scaled noise when the absolute value of its largest sample
    is below the threshold. *)
Lemma store_feedback_enabled (s : Measurement) (recorded : array2)
  (type : option string) (i : Z) (fb : list R) (peak : R) :
  feedback_loop_used s = true ->
  py_getitem (channel_layout_input s) 2 = Returned i ->
  get_col recorded i = Returned fb ->
  np_max fb = Returned peak ->
  store_feedback be recorded type s =
  (with_feedback_loop
     (Some (if Rlt_dec (Rabs peak) (1 / 10000)
            then map (fun v => (v * (1 / 1000000))%R)
                     (random_sample be (length fb))
            else fb)) s, Returned tt).
Proof.
  intros Hu Hi Hc Hp.
  unfold store_feedback, mbind, lift, gets, modify, deref, mret.
  rewrite Hu. cbn beta iota. rewrite Hi. cbn beta iota.
  rewrite Hc. cbn beta iota. rewrite Hp. cbn beta iota.
  destruct (Rlt_dec (Rabs peak) (1 / 10000)); reflexivity.
Qed.

(** With the feedback loop disabled, a measurement returns as soon as the
    device accepts the settings, delivers a recording, and the two ear
    channels are columns of that recording. *)
Lemma single_measurement_returns (s : Measurement) (type : option string)
  (e recorded : array2) (n : nat) (sig : list R) (i0 i1 : Z) (rest : list Z) :
  check_input_settings be (num_input_channels_used s) (sd_default_samplerate s)
  && check_output_settings be (num_output_channels_used s)
       (sd_default_samplerate s) = true ->
  feedback_loop_used s = false ->
  (if is_hpc type then excitation_hpc s else excitation s) = Some e ->
  playrec be e (num_input_channels_used s) = Returned recorded ->
  channel_layout_input s = i0 :: i1 :: rest ->
  is_returned (get_col recorded i0) = true ->
  is_returned (get_col recorded i1) = true ->
  (if is_hpc type then sweep_hpc_mono s else sweep_mono s)
  = Some (mkArray2 n [sig]) ->
  exists s', single_measurement be type s = (s', Returned tt).
Proof.
  intros Hcheck Hfb He Hplay Hlay H0 H1 Hmono.
  apply is_returned_true in H0, H1.
  destruct H0 as (c0 & H0). destruct H1 as (c1 & H1).
  unfold single_measurement, extract_ear, store_feedback.
  unfold mbind, lift, gets, modify, deref, mret.
  cbn beta iota. session_fields. rewrite Hcheck.
  destruct (is_hpc type); cbn beta iota in He, Hmono |- *; session_fields;
    rewrite He; cbn beta iota; session_fields;
    rewrite Hplay; cbn beta iota; session_fields;
    rewrite Hlay; cbn [py_getitem nth_error]; cbn beta iota; session_fields;
    destruct (0 <=? i0)%Z; cbn beta iota; session_fields;
    try (rewrite H0; cbn beta iota; session_fields);
    rewrite ?Hlay; cbn [py_getitem nth_error]; cbn beta iota; session_fields;
    destruct (0 <=? i1)%Z; cbn beta iota; session_fields;
    try (rewrite H1; cbn beta iota; session_fields);
    rewrite Hfb; cbn beta iota; session_fields;
    rewrite Hmono; cbn beta iota; session_fields;
    rewrite get_col_single; cbn beta iota; session_fields;
    eexists; reflexivity.
Qed.

End MeasurementFacts.

(** ** The claims on examples *)

Lemma negative_peak_max : np_max negative_peak_capture = Returned (1 / 100000)%R.
Proof.
  unfold negative_peak_capture, np_max. cbn [fold_left].
  rewrite Rmax_right by lra. reflexivity.
Qed.

Lemma negative_peak_magnitude :
  spec_peak_magnitude negative_peak_capture = Returned (1 / 2)%R.
Proof.
  unfold spec_peak_magnitude, negative_peak_capture, np_max. cbn [map fold_left].
  rewrite Rabs_Ropp, !Rabs_pos_eq by lra.
  rewrite Rmax_left by lra. reflexivity.
Qed.

(** C4 at a failing input (single_measurement, lines 342-345).  The
    captured feedback signal [-0.5, 0.00001] has peak magnitude 0.5, far
    above the threshold 0.0001, and yet the measurement stores scaled noise
    in its place: the code tests the absolute value of the largest sample,
    not the largest absolute value. *)
Theorem loud_negative_feedback_replaced :
  spec_peak_magnitude negative_peak_capture = Returned (1 / 2)%R /\
  ~ (1 / 2 < 1 / 10000)%R /\
  single_measurement negative_peak_backend None feedback_session =
  (with_feedback_loop
     (Some (map (fun v => (v * (1 / 1000000))%R) (repeat (1 / 2)%R 2)))
     (with_recorded_sweep_r (Some [0%R; 0%R])
        (with_recorded_sweep_l (Some [0%R; 0%R]) feedback_session)),
   Returned tt) /\
  Some (map (fun v => (v * (1 / 1000000))%R) (repeat (1 / 2)%R 2))
  <> Some negative_peak_capture.
Proof.
  split; [ exact negative_peak_magnitude | ].
  split; [ lra | ].
  split.
  - unfold single_measurement.
    unfold mbind at 1 2 3 4 5 6 7. cbn [modify gets].
    cbn [check_input_settings check_output_settings negative_peak_backend andb].
    unfold mbind at 1. cbn [lift].
    unfold feedback_session at 1. session_fields. cbn [is_hpc].
    unfold mbind at 1. cbn [lift playrec negative_peak_backend].
    unfold mbind at 1.
    unfold extract_ear at 1. unfold mbind at 1 2. cbn [gets lift].
    unfold feedback_session at 1. session_fields.
    cbn [py_getitem nth_error Z.leb Z.compare].
    unfold mbind at 1. cbn [lift get_col ncols columns length norm_index
                            Z.leb Z.ltb Z.compare Z.of_nat Pos.of_succ_nat
                            Pos.succ Pos.compare Pos.compare_cont obind Z.to_nat
                            nth modify].
    unfold mbind at 1.
    unfold extract_ear at 1. unfold mbind at 1 2. cbn [gets lift].
    unfold feedback_session at 1. session_fields.
    cbn [py_getitem nth_error Z.leb Z.compare].
    unfold mbind at 1. cbn [lift get_col ncols columns length norm_index
                            Z.leb Z.ltb Z.compare Z.of_nat Pos.of_succ_nat
                            Pos.succ Pos.compare Pos.compare_cont obind Z.to_nat
                            Pos.to_nat Pos.iter_op Nat.add nth modify].
    rewrite (store_feedback_enabled negative_peak_backend _ _ None 2
               negative_peak_capture (1 / 100000)%R);
      [ | reflexivity | reflexivity | reflexivity | exact negative_peak_max ].
    destruct (Rlt_dec (Rabs (1 / 100000)) (1 / 10000)) as [_ | N].
    + reflexivity.
    + exfalso. apply N. rewrite Rabs_pos_eq by lra. lra.
  - unfold negative_peak_capture. cbn [map repeat].
    intros E. injection E as E1 E2. lra.
Qed.

Lemma startup_measurement :
  exists s s',
    prepare_audio quiet_backend startup_session = (s, Returned tt) /\
    single_measurement quiet_backend None s = (s', Returned tt).
Proof.
  destruct (prepare_audio_returns quiet_backend startup_session 48000
              startup_sweeps_ok startup_sounds_ok startup_routing_ok)
    as (s & Hs).
  exists s.
  pose proof (prepare_audio_returned quiet_backend _ _ Hs) as Hr.
  destruct Hr as (fs & main & mono & hpc & ok & ko & z & e & zh & eh & zs & es
                  & zf & ef & Hr).
  cbv zeta in Hr.
  destruct Hr as (_ & Hmain & Hmono & _ & _ & _ & _ & _ & _ & _ & _ & _ & _ & _
                  & E).
  cbn [dummy_debugging startup_session fresh_session] in Hmono.
  injection Hmono as <-.
  destruct (make_excitation_sweep_shape _ _ _ _ _ _ _ _ _ Hmain) as (sig & Em).
  cbn [repeat] in Em.
  destruct (single_measurement_returns quiet_backend s None e
              (mkArray2 (nrows e) (repeat (repeat 0%R (nrows e)) 2))
              (length sig) sig 0 1 [(-1)%Z]) as (s' & Hs').
  - rewrite E. reflexivity.
  - rewrite E. reflexivity.
  - rewrite E. reflexivity.
  - rewrite E. reflexivity.
  - rewrite E. reflexivity.
  - reflexivity.
  - reflexivity.
  - rewrite E. cbn [is_hpc]. session_fields. rewrite Em. reflexivity.
  - exists s'. split; [ exact Hs | exact Hs' ].
Qed.

(** *** C9, on the start-up session *)
Lemma set_channel_layout_invariant_witness :
  ((3 <= length [0; 1; -1]%Z)%nat /\ (3 <= length [0; 1; 2]%Z)%nat) /\
  let s' := fst (set_channel_layout quiet_backend [0; 1; -1]%Z [0; 1; 2]%Z
                   startup_session) in
  ((nth 2 [0; 1; -1] 0 < 0 \/ nth 2 [0; 1; 2] 0 < 0)%Z ->
     nth 2 (channel_layout_input s') 0%Z = (-1)%Z /\
     nth 2 (channel_layout_output s') 0%Z = (-1)%Z /\
     feedback_loop_used s' = false) /\
  num_input_channels_used s' = spec_active_channels (channel_layout_input s') /\
  num_output_channels_used s' = spec_active_channels (channel_layout_output s').
Proof.
  split; [ split; simpl; lia | ].
  apply (set_channel_layout_invariant quiet_backend startup_session
           [0; 1; -1]%Z [0; 1; 2]%Z); simpl; lia.
Defined.

(** *** C3, for a layout whose left output is disabled: the buffers have
    two columns, the role 1 designates column 1 and column 0 is silent *)
Lemma excitation_silence_witness :
  exists s',
    (roles_valid [-1; 1; -1]%Z /\
     set_channel_layout quiet_backend [0; 1; -1]%Z [-1; 1; -1]%Z
       startup_session = (s', Returned tt)) /\
    exists e eh mono hpc,
      excitation s' = Some e /\ excitation_hpc s' = Some eh /\
      sweep_mono s' = Some mono /\ sweep_hpc_mono s' = Some hpc /\
      (nrows e = nrows mono /\
       ncols e = Z.to_nat (num_output_channels_used s') /\
       (forall j, (j < ncols e)%nat ->
          ~ In (Z.of_nat j) (enabled_roles (channel_layout_output s')) ->
          nth j (columns e) [] = repeat 0%R (nrows e)) /\
       (forall j, (j < ncols e)%nat ->
          nth j (columns e) [] = nth 0 (columns mono) [] \/
          nth j (columns e) [] = repeat 0%R (nrows e))) /\
      (nrows eh = nrows hpc /\
       ncols eh = Z.to_nat (num_output_channels_used s') /\
       (forall j, (j < ncols eh)%nat ->
          ~ In (Z.of_nat j) (enabled_roles (channel_layout_output s')) ->
          nth j (columns eh) [] = repeat 0%R (nrows eh)) /\
       (forall j, (j < ncols eh)%nat ->
          nth j (columns eh) [] = nth 0 (columns hpc) [] \/
          nth j (columns eh) [] = repeat 0%R (nrows eh))).
Proof.
  assert (Hv : roles_valid [-1; 1; -1]%Z) by (repeat constructor; lia).
  destruct (set_channel_layout_returns quiet_backend startup_session 48000
              0 1 (-1) (-1) 1 (-1) [] [] startup_sweeps_ok startup_sounds_ok)
    as (s' & Hs').
  - exact Hv.
  - simpl. lia.
  - exists s'. split; [ split; [ exact Hv | exact Hs' ] | ].
    exact (excitation_silence quiet_backend startup_session s'
             [0; 1; -1]%Z [-1; 1; -1]%Z Hv Hs').
Defined.


(** *** C2, on the session that the constructor returns *)
Lemma get_irs_returns_nothing_witness :
  exists s,
    init quiet_backend None = Returned s /\
    get_irs quiet_backend s None None None None None = None.
Proof.
  destruct startup_init_returns as (s & Hs).
  exists s. split; [ exact Hs | ].
  apply (get_irs_returns_nothing quiet_backend s None None None None None).
  exact (reachable_init quiet_backend None s Hs).
Defined.

(** *** C1: a rejected measurement on a session that holds recordings *)
Lemma failed_validation_clears_recordings_witness :
  single_measurement refusing_backend None recorded_session =
  (with_feedback_loop (Some [])
     (with_recorded_sweep_r (Some [])
        (with_recorded_sweep_l (Some []) recorded_session)), Returned tt).
Proof.
  apply (failed_validation_clears_recordings refusing_backend recorded_session
           None).
  reflexivity.
Defined.

(** C1 as stated fails: the device rejects the settings, and the
    recordings that the session held are gone. *)
Lemma failed_validation_loses_prior_recordings :
  check_input_settings refusing_backend
    (num_input_channels_used recorded_session)
    (sd_default_samplerate recorded_session) = false /\
  get_recordings recorded_session
  = (Some [1%R; 1%R], Some [0%R; 1%R], Some [1%R; 0%R]) /\
  get_recordings
    (fst (single_measurement refusing_backend None recorded_session))
  = (Some [], Some [], Some []) /\
  get_recordings
    (fst (single_measurement refusing_backend None recorded_session))
  <> get_recordings recorded_session.
Proof.
  split; [ reflexivity | ].
  split; [ reflexivity | ].
  split; [ reflexivity | ].
  intros E.
  assert (E' : (Some (@nil R), Some (@nil R), Some (@nil R))
               = (Some [1%R; 1%R], Some [0%R; 1%R], Some [1%R; 0%R]))
    by exact E.
  discriminate E'.
Qed.

(** *** C10, on one-sample signals *)
Lemma deconv_short_recording_fails_witness :
  (length [1%R] < 2000)%nat /\
  deconv [1%R] [1%R] = Raised ValueError /\
  ((1 <= length [1%R])%nat -> length [1%R] = length [1%R] ->
   exists h, deconv_unwindowed [1%R] [1%R] = Returned h /\
             length h = length [1%R] /\
             fade_window (length h) 2000 = Raised ValueError).
Proof.
  assert (H : (length [1%R] < 2000)%nat) by (cbn [length]; lia).
  split; [ exact H | ].
  exact (deconv_short_recording_fails [1%R] [1%R] H).
Defined.

(** *** C8, for a reference of three samples, a limit of 60 dB and both
    filters: the transform length is 8 *)
Lemma deconvolve_length_witness :
  (1 <= length [1%R; 0%R; 0%R])%nat /\
  (2 ^ (Z.log2_up (Z.of_nat (length [1%R; 0%R; 0%R])) + 1) = 8)%Z /\
  let L := length [1%R; 0%R; 0%R] in
  let N := (2 ^ (Z.log2_up (Z.of_nat L) + 1))%Z in
  (Z.of_nat L <= 2 ^ Z.log2_up (Z.of_nat L))%Z /\
  (forall k, (0 <= k)%Z -> (Z.of_nat L <= 2 ^ k)%Z ->
             (2 ^ Z.log2_up (Z.of_nat L) <= 2 ^ k)%Z) /\
  N = (2 * 2 ^ Z.log2_up (Z.of_nat L))%Z /\
  exists X_f Y_f X_lim X_inv H h_N,
    rfft [1%R; 0%R; 0%R] N = Returned X_f /\
    rfft [0%R; 1%R; 0%R] N = Returned Y_f /\
    length X_f = (Z.to_nat N / 2 + 1)%nat /\
    length Y_f = (Z.to_nat N / 2 + 1)%nat /\
    clip_inverse 60 (map (Cdiv (RtoC 1)) X_f) = Returned X_lim /\
    bandpass quiet_backend N 48000 (Some (mkFilter 20000 4 2))
      (Some (mkFilter 200 4 2)) X_lim = Returned X_inv /\
    bcast2 Cmul C0 Y_f X_inv = Returned H /\
    irfft H N = Returned h_N /\
    length h_N = Z.to_nat N /\
    deconvolve quiet_backend [1%R; 0%R; 0%R] [0%R; 1%R; 0%R] 48000
      (Some 60%R) (Some (mkFilter 20000 4 2)) (Some (mkFilter 200 4 2))
    = Returned (firstn L h_N) /\
    length (firstn L h_N) = L.
Proof.
  assert (H : (1 <= length [1%R; 0%R; 0%R])%nat) by (cbn [length]; lia).
  split; [ exact H | ]. split; [ reflexivity | ].
  apply (deconvolve_length quiet_backend (fun _ _ => eq_refl)
           [1%R; 0%R; 0%R] [0%R; 1%R; 0%R] 48000 (Some 60%R)
           (Some (mkFilter 20000 4 2)) (Some (mkFilter 200 4 2)) H).
  - intros f _. reflexivity.
  - intros f _. reflexivity.
Defined.

(** ** The fade-out of the sweep *)

Lemma Int_part_IZR (z : Z) : Int_part (IZR z) = z.
Proof. symmetry. apply Int_part_spec. lra. Qed.

Lemma py_int_IZR (z : Z) : (0 <= z)%Z -> py_int (IZR z) = z.
Proof.
  intros H. unfold py_int.
  destruct (Rle_dec 0 (IZR z)) as [_ | N].
  - apply Int_part_IZR.
  - exfalso. apply N. apply (IZR_le 0 z). exact H.
Qed.

Lemma ln_2_lt_1 : (ln 2 < 1)%R.
Proof.
  rewrite <- (ln_exp 1). apply ln_increasing; [ lra | ].
  pose proof (exp_ineq1 1). lra.
Qed.

Lemma last_map_combine (u w : list R) :
  length u = length w -> u <> [] ->
  last (map (fun p => (fst p * snd p)%R) (combine u w)) 0%R
  = (last u 0 * last w 0)%R.
Proof.
  revert w. induction u as [| a u IH]; intros w Hlen Hne; [ contradiction | ].
  destruct w as [| b w]; [ discriminate | ].
  destruct u as [| a' u].
  - destruct w; [ reflexivity | discriminate ].
  - destruct w as [| b' w]; [ discriminate | ].
    specialize (IH (b' :: w)).
    change (last (map (fun p => (fst p * snd p)%R)
                    (combine (a' :: u) (b' :: w))) 0%R
            = (last (a' :: u) 0 * last (b' :: w) 0)%R).
    apply IH; [ simpl in *; lia | discriminate ].
Qed.

Lemma ramp_sample_first (n : nat) : ramp_sample n 0 = 1%R.
Proof.
  unfold ramp_sample. cbn [INR].
  replace (0 + 0 * ((PI / 2 - 0) / (INR n - 1)))%R with 0%R by ring.
  rewrite cos_0. ring.
Qed.

Lemma ramp_sample_angle (n k : nat) :
  (2 <= n)%nat ->
  ramp_sample n k = (cos (INR k / (INR n - 1) * (PI / 2)) ^ 2)%R.
Proof.
  intros Hn. unfold ramp_sample.
  assert (1 < INR n)%R by (apply (lt_INR 1 n); lia).
  f_equal. f_equal. field. lra.
Qed.

Lemma ramp_sample_last (n : nat) :
  (2 <= n)%nat -> ramp_sample n (n - 1) = 0%R.
Proof.
  intros Hn. rewrite ramp_sample_angle by exact Hn.
  assert (1 < INR n)%R by (apply (lt_INR 1 n); lia).
  rewrite minus_INR by lia. cbn [INR].
  replace ((INR n - 1) / (INR n - 1) * (PI / 2))%R with (PI / 2)%R
    by (field; lra).
  rewrite cos_PI2. ring.
Qed.

Lemma ramp_sample_decreasing (n k k' : nat) :
  (2 <= n)%nat -> (k <= k')%nat -> (k' < n)%nat ->
  (ramp_sample n k' <= ramp_sample n k)%R.
Proof.
  intros Hn Hk Hk'.
  rewrite !ramp_sample_angle by exact Hn.
  assert (Hn1 : (1 < INR n)%R) by (apply (lt_INR 1 n); lia).
  assert (Hb : forall j, (j < n)%nat ->
                 (0 <= INR j / (INR n - 1) * (PI / 2) <= PI / 2)%R).
  { intros j Hj.
    assert (0 <= INR j)%R by apply pos_INR.
    assert (INR j <= INR n - 1)%R.
    { replace (INR n - 1)%R with (INR (n - 1)).
      - apply le_INR. lia.
      - rewrite minus_INR by lia. reflexivity. }
    assert (0 <= INR j / (INR n - 1) <= 1)%R.
    { split.
      - apply Rmult_le_pos; [ assumption | ].
        left. apply Rinv_0_lt_compat. lra.
      - apply (Rmult_le_reg_r (INR n - 1)); [ lra | ].
        unfold Rdiv. rewrite Rmult_assoc, Rinv_l by lra. lra. }
    pose proof PI_RGT_0. split; nra. }
  pose proof PI_RGT_0 as Hpi.
  destruct (Hb k ltac:(lia)) as (Hk0 & Hk1).
  destruct (Hb k' Hk') as (Hk'0 & Hk'1).
  apply pow_incr. split.
  - apply cos_ge_0; lra.
  - apply cos_decr_1; try lra.
    apply Rmult_le_compat_r; [ lra | ].
    apply Rmult_le_compat_r.
    + left. apply Rinv_0_lt_compat. lra.
    + apply le_INR. exact Hk.
Qed.

Lemma last_app_nonempty {A : Type} (l l' : list A) (d : A) :
  l' <> [] -> last (l ++ l') d = last l' d.
Proof.
  intros H. induction l as [| a l IH]; [ reflexivity | ].
  cbn [app].
  change (last (a :: l ++ l') d)
    with (match l ++ l' with [] => a | _ :: _ => last (l ++ l') d end).
  destruct (l ++ l') eqn:E.
  - apply app_eq_nil in E. destruct E as (_ & E). contradiction.
  - exact IH.
Qed.

Lemma last_map_seq (f : nat -> R) (n : nat) :
  (1 <= n)%nat -> last (map f (seq 0 n)) 0%R = f (n - 1)%nat.
Proof.
  intros H. destruct n as [| n]; [ lia | ].
  rewrite seq_S, map_app. cbn [map]. rewrite last_last.
  cbn [Nat.add]. f_equal. lia.
Qed.

(** The stages of [faded_sweep], for a sweep that was generated. *)
Lemma faded_sweep_returned (fs d f0 f1 a : R) (fade : Z) (sweep : list R) :
  faded_sweep fs d f0 f1 a fade = Returned sweep ->
  exists raw window,
    length raw = Z.to_nat (py_int (d * fs)) /\
    fade_window (length raw) fade = Returned window /\
    bcast2 Rmult 0%R raw window = Returned sweep.
Proof.
  unfold faded_sweep. intros H.
  apply obind_returned in H. destruct H as (t & Ht & H).
  apply obind_returned in H. destruct H as (ch & Hch & H).
  apply obind_returned in H. destruct H as (w & Hw & H).
  exists (map (Rmult (Rpower 10 (a / 20))) ch), w.
  split; [ | split; assumption ].
  apply linspace_length in Ht. destruct Ht as (Ht & _).
  unfold chirp_log in Hch.
  destruct (Rle_dec (f0 * f1) 0); [ discriminate | ].
  injection Hch as <-. rewrite !length_map. exact Ht.
Qed.

(** C6, as the code has it (make_excitation_sweep, lines 98-102).  For a
    generated sweep the window has the length of the sweep.  With
    [fade_out_samples] 0 or 1 the window is 1 everywhere.  With two
    samples or more the fade fits into the sweep, the window is 1 before
    the last [fade_out_samples] samples, follows [cos(t * pi / 2)^2] for
    [t] linearly spaced from 0 to 1 over them, does not increase there, and
    the last sample of the sweep is the last sample of the chirp weighted
    by [cos(pi/2)^2]: 0 in the exact arithmetic of this development, 0
    within floating tolerance in the program. *)
Theorem fade_out_window (fs d f0 f1 a : R) (fade : Z) (sweep : list R) :
  faded_sweep fs d f0 f1 a fade = Returned sweep ->
  let size := length sweep in
  let n := Z.to_nat fade in
  exists window,
    fade_window size fade = Returned window /\
    length window = size /\
    ((fade = 0 \/ fade = 1)%Z -> window = repeat 1%R size) /\
    ((2 <= fade)%Z ->
     (n <= size)%nat /\
     (forall i, (i < size - n)%nat -> nth i window 0%R = 1%R) /\
     (forall k, (k < n)%nat ->
        nth (size - n + k) window 0%R
        = (cos (INR k / (INR n - 1) * (PI / 2)) ^ 2)%R) /\
     (forall k k', (k <= k')%nat -> (k' < n)%nat ->
        (nth (size - n + k') window 0 <= nth (size - n + k) window 0)%R) /\
     last sweep 0%R = 0%R).
Proof.
  intros H size n.
  destruct (faded_sweep_returned _ _ _ _ _ _ _ H) as (raw & w & Hraw & Hw & Hb).
  assert (Hfade : (0 <= fade)%Z).
  { destruct (Z_lt_ge_dec fade 0) as [N | ]; [ | lia ].
    rewrite fade_window_negative in Hw by exact N. discriminate. }
  assert (Hcases : (length w = length raw /\
                    ((fade = 0 \/ fade = 1)%Z -> w = repeat 1%R (length raw)) /\
                    ((2 <= fade)%Z ->
                     (n <= length raw)%nat /\
                     w = repeat 1%R (length raw - n)
                         ++ map (ramp_sample n) (seq 0 n)))).
  { destruct (Z_le_gt_dec fade (Z.of_nat (length raw))) as [Hfit | Hlong].
    - rewrite fade_window_fits in Hw by lia. injection Hw as <-. fold n.
      split; [ | split ].
      + rewrite length_app, repeat_length, length_map, length_seq. lia.
      + intros [E | E]; subst n; rewrite E.
        * cbn [Z.to_nat seq map]. rewrite app_nil_r, Nat.sub_0_r. reflexivity.
        * change (Z.to_nat 1) with 1%nat. cbn [seq map].
          rewrite ramp_sample_first.
          replace (length raw) with (length raw - 1 + 1)%nat at 2 by lia.
          rewrite repeat_app. reflexivity.
      + intros _. split; [ lia | reflexivity ].
    - destruct (Z_le_gt_dec 2 fade) as [H2 | H2].
      + rewrite fade_window_too_long in Hw by lia. discriminate.
      + assert (fade = 1%Z) by lia. subst fade.
        assert (length raw = 0%nat) by lia.
        destruct raw; [ | discriminate ].
        cbn in Hw. injection Hw as <-.
        split; [ reflexivity | split; [ reflexivity | lia ] ]. }
  destruct Hcases as (Hlen & H01 & H2).
  assert (Hsweep : sweep = map (fun p => (fst p * snd p)%R) (combine raw w)).
  { rewrite bcast2_same_length in Hb by (symmetry; exact Hlen).
    injection Hb as <-. reflexivity. }
  assert (Hsize : size = length raw).
  { subst size. rewrite Hsweep, length_map, length_combine. lia. }
  rewrite Hsize. exists w.
  split; [ exact Hw | ]. split; [ exact Hlen | ]. split; [ exact H01 | ].
  intros Hge. destruct (H2 Hge) as (Hn & Ew).
  assert (Hn2 : (2 <= n)%nat) by lia.
  assert (Hnth : forall k, (k < n)%nat ->
             nth (length raw - n + k) w 0%R = ramp_sample n k).
  { intros k Hk. rewrite Ew.
    rewrite app_nth2 by (rewrite repeat_length; lia).
    rewrite repeat_length.
    replace (length raw - n + k - (length raw - n))%nat with k by lia.
    rewrite (nth_indep _ 0%R (ramp_sample n 0%nat))
      by (rewrite length_map, length_seq; exact Hk).
    rewrite map_nth, seq_nth by exact Hk. reflexivity. }
  split; [ exact Hn | ]. split; [ | split; [ | split ] ].
  - intros i Hi. rewrite Ew.
    rewrite app_nth1 by (rewrite repeat_length; exact Hi).
    apply nth_repeat_lt. exact Hi.
  - intros k Hk. rewrite Hnth by exact Hk.
    apply ramp_sample_angle. exact Hn2.
  - intros k k' Hk Hk'. rewrite !Hnth by lia.
    apply ramp_sample_decreasing; assumption.
  - rewrite Hsweep.
    rewrite last_map_combine;
      [ | symmetry; exact Hlen | intros E; rewrite E in Hn; simpl in Hn; lia ].
    rewrite Ew.
    rewrite last_app_nonempty.
    + rewrite last_map_seq by lia.
      rewrite ramp_sample_last by exact Hn2. ring.
    + intros E. apply (f_equal (@length R)) in E.
      rewrite length_map, length_seq in E. simpl in E. lia.
Qed.

(** *** C6, for a sweep of four samples with a fade of two *)
Lemma fade_out_window_witness :
  exists sweep,
    faded_sweep 8 (1 / 2) 1 2 0 2 = Returned sweep /\
    exists window,
      fade_window (length sweep) 2 = Returned window /\
      length window = length sweep /\
      ((2 = 0 \/ 2 = 1)%Z -> window = repeat 1%R (length sweep)) /\
      ((2 <= 2)%Z ->
       (Z.to_nat 2 <= length sweep)%nat /\
       (forall i, (i < length sweep - Z.to_nat 2)%nat ->
          nth i window 0%R = 1%R) /\
       (forall k, (k < Z.to_nat 2)%nat ->
          nth (length sweep - Z.to_nat 2 + k) window 0%R
          = (cos (INR k / (INR (Z.to_nat 2) - 1) * (PI / 2)) ^ 2)%R) /\
       (forall k k', (k <= k')%nat -> (k' < Z.to_nat 2)%nat ->
          (nth (length sweep - Z.to_nat 2 + k') window 0
           <= nth (length sweep - Z.to_nat 2 + k) window 0)%R) /\
       last sweep 0%R = 0%R).
Proof.
  destruct (faded_sweep_returns 8 (1 / 2) 1 2 0 2) as (sweep & Hs & _).
  - lra.
  - lra.
  - split; [ lia | ]. apply py_int_lower; [ lra | simpl; lra ].
  - exists sweep. split; [ exact Hs | ].
    exact (fade_out_window 8 (1 / 2) 1 2 0 2 sweep Hs).
Defined.

(** C6 as stated fails: with [fade_out_samples = 0], the default of
    [make_excitation_sweep], a sweep of two samples from 1 Hz to 2 Hz at
    8 samples per second is generated and its last sample is not 0. *)
Lemma unfaded_sweep_ends_nonzero :
  exists sweep,
    faded_sweep 8 (1 / 4) 1 2 0 0 = Returned sweep /\
    last sweep 0%R <> 0%R.
Proof.
  assert (Hn : py_int (1 / 4 * 8) = 2%Z).
  { replace (1 / 4 * 8)%R with (IZR 2) by (simpl; lra).
    apply py_int_IZR. lia. }
  unfold faded_sweep. rewrite Hn.
  rewrite linspace_returns by lia.
  change (Z.to_nat 2) with 2%nat. cbn [obind seq map].
  unfold chirp_log.
  destruct (Rle_dec (1 * 2) 0) as [N | _]; [ lra | ].
  destruct (Req_dec_T 1 2) as [N | _]; [ lra | ].
  cbn [obind map length].
  rewrite fade_window_fits by lia.
  change (Z.to_nat 0) with 0%nat.
  cbn [obind Nat.sub repeat seq map app].
  rewrite bcast2_same_length by reflexivity.
  eexists. split; [ reflexivity | ].
  cbn [combine map last fst snd INR].
  replace (0 + 1 * ((1 / 4 - 0) / (1 + 1 - 1)))%R with (1 / 4)%R by field.
  intros E.
  assert (HP : (0 < Rpower 10 (0 / 20))%R) by (unfold Rpower; apply exp_pos).
  assert (Hc : cos (2 * PI * (1 / 4 / ln (2 / 1)) * 1
                    * (Rpower (2 / 1) (1 / 4 / (1 / 4)) - 1)
                    + 90 * PI / 180) = 0%R) by nra.
  clear E.
  replace (2 / 1)%R with 2%R in Hc by field.
  replace (1 / 4 / (1 / 4))%R with 1%R in Hc by field.
  rewrite Rpower_1 in Hc by lra.
  pose proof ln_lt_2 as Hl1. pose proof ln_2_lt_1 as Hl2.
  pose proof PI_RGT_0 as Hpi.
  assert (Hln : (0 < ln 2)%R) by lra.
  set (x := (PI / 2 / ln 2)%R).
  replace (2 * PI * (1 / 4 / ln 2) * 1 * (2 - 1) + 90 * PI / 180)%R
    with (PI / 2 + x)%R in Hc by (unfold x; field; lra).
  assert (Hs : sin x = 0%R).
  { rewrite (Rtrigo1.sin_cos x). rewrite Hc. ring. }
  assert (Hx : (0 < x < PI)%R).
  { unfold x. split.
    - apply Rmult_lt_0_compat; [ lra | apply Rinv_0_lt_compat; exact Hln ].
    - apply (Rmult_lt_reg_r (ln 2)); [ exact Hln | ].
      unfold Rdiv at 1. rewrite Rmult_assoc, Rinv_l by lra. nra. }
  pose proof (sin_gt_0 x (proj1 Hx) (proj2 Hx)). lra.
Qed.

(** ** Dynamic limiting of the inverse spectrum *)

Lemma Cabs_nonneg (z : C) : (0 <= Cabs z)%R.
Proof. apply sqrt_pos. Qed.

Lemma Cnorm2_pos (z : C) :
  z <> C0 -> (0 < fst z * fst z + snd z * snd z)%R.
Proof.
  destruct z as (x, y). cbn [fst snd]. intros H.
  destruct (Req_dec x 0) as [Ex | Ex].
  - destruct (Req_dec y 0) as [Ey | Ey].
    + exfalso. apply H. subst. reflexivity.
    + nra.
  - nra.
Qed.

Lemma Cabs_pos (z : C) : z <> C0 -> (0 < Cabs z)%R.
Proof. intros H. apply sqrt_lt_R0. apply Cnorm2_pos. exact H. Qed.

Lemma Cabs_sqr (z : C) :
  (Cabs z * Cabs z = fst z * fst z + snd z * snd z)%R.
Proof. apply sqrt_sqrt. nra. Qed.

Lemma sqrt_ratio_pos (x y : R) :
  (0 < x)%R -> sqrt (1 + Rsqr (y / x)) = (sqrt (x * x + y * y) / x)%R.
Proof.
  intros Hx. apply sqrt_lem_1.
  - unfold Rsqr. nra.
  - apply Rmult_le_pos; [ apply sqrt_pos | ].
    left. apply Rinv_0_lt_compat. exact Hx.
  - pose proof (sqrt_sqrt (x * x + y * y) ltac:(nra)) as Hs.
    unfold Rsqr.
    replace (sqrt (x * x + y * y) / x * (sqrt (x * x + y * y) / x))%R
      with (sqrt (x * x + y * y) * sqrt (x * x + y * y) / (x * x))%R
      by (field; lra).
    rewrite Hs. field. lra.
Qed.

Lemma sqrt_ratio_neg (x y : R) :
  (x < 0)%R -> sqrt (1 + Rsqr (y / x)) = (sqrt (x * x + y * y) / - x)%R.
Proof.
  intros Hx. apply sqrt_lem_1.
  - unfold Rsqr. nra.
  - apply Rmult_le_pos; [ apply sqrt_pos | ].
    left. apply Rinv_0_lt_compat. lra.
  - pose proof (sqrt_sqrt (x * x + y * y) ltac:(nra)) as Hs.
    unfold Rsqr.
    replace (sqrt (x * x + y * y) / - x * (sqrt (x * x + y * y) / - x))%R
      with (sqrt (x * x + y * y) * sqrt (x * x + y * y) / (x * x))%R
      by (field; lra).
    rewrite Hs. field. lra.
Qed.

(** The unit vector of the phase of a bin is the bin over its magnitude. *)
Lemma Cexp_i_angle (z : C) :
  z <> C0 -> Cexp_i (angle z) = ((fst z / Cabs z)%R, (snd z / Cabs z)%R).
Proof.
  intros Hz. pose proof (Cabs_pos z Hz) as Hr.
  destruct z as (x, y). unfold angle, arctan2, Cexp_i, Cabs in *.
  cbn [fst snd] in *.
  set (r := sqrt (x * x + y * y)) in *.
  destruct (Rlt_dec 0 x) as [Hx | Hx].
  - rewrite cos_atan, sin_atan, sqrt_ratio_pos by exact Hx. fold r.
    f_equal; field; lra.
  - destruct (Rlt_dec x 0) as [Hx' | Hx'].
    + destruct (Rle_dec 0 y) as [Hy | Hy].
      * rewrite neg_cos, neg_sin, cos_atan, sin_atan, sqrt_ratio_neg
          by exact Hx'.
        fold r. f_equal; field; lra.
      * replace (atan (y / x) - PI)%R with (- (PI - atan (y / x)))%R by ring.
        rewrite cos_neg, sin_neg, cos_minus, sin_minus, cos_PI, sin_PI,
          cos_atan, sin_atan, sqrt_ratio_neg by exact Hx'.
        fold r. f_equal; field; lra.
    + assert (x = 0%R) by lra. subst x.
      assert (Hr2 : (r * r = y * y)%R).
      { unfold r. rewrite sqrt_sqrt by nra. ring. }
      destruct (Rlt_dec 0 y) as [Hy | Hy].
      * rewrite cos_PI2, sin_PI2.
        assert (r = y) by nra. rewrite H. f_equal; field; lra.
      * destruct (Rlt_dec y 0) as [Hy' | Hy'].
        -- rewrite cos_neg, sin_neg, cos_PI2, sin_PI2.
           assert (r = (- y)%R) by nra. rewrite H. f_equal; field; lra.
        -- exfalso. assert (y = 0%R) by lra. subst y.
           apply Hz. reflexivity.
Qed.

(** The phase does not change when a bin is scaled by a positive real. *)
Lemma angle_scale (c : R) (z : C) :
  (0 < c)%R -> angle (Cscale c z) = angle z.
Proof.
  intros Hc. destruct z as (x, y). unfold angle, Cscale, arctan2.
  cbn [fst snd].
  assert (Hq : x <> 0%R -> (c * y / (c * x) = y / x)%R)
    by (intros; field; lra).
  destruct (Rlt_dec 0 (c * x)) as [A | A], (Rlt_dec 0 x) as [B | B];
    try (exfalso; nra).
  - rewrite Hq by lra. reflexivity.
  - destruct (Rlt_dec (c * x) 0) as [A' | A'], (Rlt_dec x 0) as [B' | B'];
      try (exfalso; nra).
    + rewrite Hq by lra.
      destruct (Rle_dec 0 (c * y)) as [E | E], (Rle_dec 0 y) as [F | F];
        try (exfalso; nra); reflexivity.
    + destruct (Rlt_dec 0 (c * y)) as [E | E], (Rlt_dec 0 y) as [F | F];
        try (exfalso; nra); try reflexivity.
      destruct (Rlt_dec (c * y) 0) as [E' | E'], (Rlt_dec y 0) as [F' | F'];
        try (exfalso; nra); reflexivity.
Qed.

Lemma Cabs_scaled_unit (r t : R) :
  (0 <= r)%R -> Cabs (Cscale r (Cexp_i t)) = r.
Proof.
  intros Hr. unfold Cabs, Cscale, Cexp_i. cbn [fst snd].
  apply sqrt_lem_1; [ nra | exact Hr | ].
  pose proof (sin2_cos2 t) as H. unfold Rsqr in H. nra.
Qed.

(** What the clamp does to one bin. *)
Lemma clip_bin_spec (L : R) (z : C) :
  (0 < L)%R -> z <> C0 ->
  Cabs (clip_bin L z) = Rmin (Cabs z) L /\
  angle (clip_bin L z) = angle z.
Proof.
  intros HL Hz. unfold clip_bin.
  destruct (Rlt_dec L (Cabs z)) as [Hgt | Hle].
  - split.
    + rewrite Cabs_scaled_unit by lra. rewrite Rmin_right by lra. reflexivity.
    + rewrite Cexp_i_angle by exact Hz.
      pose proof (Cabs_pos z Hz) as Hr.
      replace (Cscale L ((fst z / Cabs z)%R, (snd z / Cabs z)%R))
        with (Cscale (L / Cabs z) z).
      * apply angle_scale. apply Rmult_lt_0_compat; [ lra | ].
        apply Rinv_0_lt_compat. exact Hr.
      * unfold Cscale. cbn [fst snd]. f_equal; field; lra.
  - split; [ | reflexivity ].
    rewrite Rmin_left by lra. reflexivity.
Qed.

Lemma fold_Rmin_le_init (t : list R) (h : R) : (fold_left Rmin t h <= h)%R.
Proof.
  revert h. induction t as [| a t IH]; intros h; simpl; [ lra | ].
  specialize (IH (Rmin h a)). pose proof (Rbasic_fun.Rmin_l h a). lra.
Qed.

Lemma fold_Rmin_lower (t : list R) (h x : R) :
  In x (h :: t) -> (fold_left Rmin t h <= x)%R.
Proof.
  revert h. induction t as [| a t IH]; intros h [Hx | Hx]; simpl in *.
  - lra.
  - contradiction.
  - subst. pose proof (fold_Rmin_le_init t (Rmin x a)).
    pose proof (Rbasic_fun.Rmin_l x a). lra.
  - destruct Hx as [Hx | Hx].
    + subst. pose proof (fold_Rmin_le_init t (Rmin h x)).
      pose proof (Rbasic_fun.Rmin_r h x). lra.
    + apply IH. right. exact Hx.
Qed.

Lemma fold_Rmin_in (t : list R) (h : R) : In (fold_left Rmin t h) (h :: t).
Proof.
  revert h. induction t as [| a t IH]; intros h; simpl; [ now left | ].
  destruct (IH (Rmin h a)) as [E | E].
  - rewrite <- E. unfold Rmin. destruct (Rle_dec h a); auto.
  - right. right. exact E.
Qed.

Lemma np_min_spec (l : list R) (m : R) :
  np_min l = Returned m -> In m l /\ forall x, In x l -> (m <= x)%R.
Proof.
  destruct l as [| h t]; [ discriminate | ].
  cbn [np_min]. intros H; injection H as <-.
  split; [ apply fold_Rmin_in | apply fold_Rmin_lower ].
Qed.

Lemma Rpower_10_ge_1 (x : R) : (0 <= x)%R -> (1 <= Rpower 10 x)%R.
Proof.
  intros Hx. unfold Rpower.
  assert (Hln : (0 < ln 10)%R).
  { rewrite <- ln_1. apply ln_increasing; lra. }
  pose proof (exp_ineq1_le (x * ln 10)). nra.
Qed.

Lemma Cinv_nonzero (z : C) : z <> C0 -> Cdiv (RtoC 1) z <> C0.
Proof.
  intros Hz E. pose proof (Cnorm2_pos z Hz) as Hn.
  destruct z as (x, y). unfold Cdiv, RtoC, C0 in E. cbn [fst snd] in *.
  injection E as E1 E2.
  assert (Hx : x = 0%R).
  { apply (Rmult_eq_compat_r (x * x + y * y)) in E1.
    unfold Rdiv in E1. rewrite Rmult_assoc, Rinv_l in E1 by lra. lra. }
  assert (Hy : y = 0%R).
  { apply (Rmult_eq_compat_r (x * x + y * y)) in E2.
    unfold Rdiv in E2. rewrite Rmult_assoc, Rinv_l in E2 by lra. lra. }
  subst. lra.
Qed.

(** C5 (deconvolve, lines 47-54), over the reals.  When no bin of the
    reference spectrum is zero, the dynamic limiting returns; every bin of
    the limited inverse spectrum has the smaller of its magnitude before
    and the ceiling [min * 10^(|D|/20)], where [min] is the least magnitude
    before; the least magnitude is unchanged, so any two magnitudes after
    are within the factor [10^(|D|/20)]; and every bin keeps its phase. *)
Theorem dynamic_limiting_bound (D : R) (X_f : list C) :
  X_f <> [] ->
  (forall z, In z X_f -> z <> C0) ->
  let X_inv := map (Cdiv (RtoC 1)) X_f in
  let factor := Rpower 10 (Rabs D / 20) in
  exists clipped min_mag,
    clip_inverse D X_inv = Returned clipped /\
    np_min (map Cabs X_inv) = Returned min_mag /\
    (0 < min_mag)%R /\
    length clipped = length X_inv /\
    (forall k, (k < length X_inv)%nat ->
       (Cabs (nth k clipped C0) <= min_mag * factor)%R /\
       Cabs (nth k clipped C0)
       = Rmin (Cabs (nth k X_inv C0)) (min_mag * factor) /\
       angle (nth k clipped C0) = angle (nth k X_inv C0)) /\
    np_min (map Cabs clipped) = Returned min_mag /\
    (forall j k, (j < length X_inv)%nat -> (k < length X_inv)%nat ->
       (Cabs (nth j clipped C0) <= factor * Cabs (nth k clipped C0))%R).
Proof.
  intros Hne Hnz X_inv factor.
  assert (Hinv : forall z, In z X_inv -> z <> C0).
  { intros z Hz. apply in_map_iff in Hz. destruct Hz as (w & <- & Hw).
    apply Cinv_nonzero. apply Hnz. exact Hw. }
  assert (Hne' : X_inv <> []).
  { subst X_inv. destruct X_f; [ contradiction | discriminate ]. }
  destruct (np_min (map Cabs X_inv)) as [m | e] eqn:Em.
  2:{ destruct X_inv; [ contradiction | discriminate ]. }
  destruct (np_min_spec _ _ Em) as (Hmin_in & Hmin_le).
  assert (Hm : (0 < m)%R).
  { apply in_map_iff in Hmin_in. destruct Hmin_in as (w & <- & Hw).
    apply Cabs_pos. apply Hinv. exact Hw. }
  assert (Hf : (1 <= factor)%R).
  { apply Rpower_10_ge_1.
    apply Rmult_le_pos; [ apply Rabs_pos | lra ]. }
  assert (HL : (0 < m * factor)%R) by nra.
  exists (map (clip_bin (m * factor)) X_inv), m.
  assert (Hbin : forall k, (k < length X_inv)%nat ->
            Cabs (nth k (map (clip_bin (m * factor)) X_inv) C0)
            = Rmin (Cabs (nth k X_inv C0)) (m * factor) /\
            angle (nth k (map (clip_bin (m * factor)) X_inv) C0)
            = angle (nth k X_inv C0)).
  { intros k Hk.
    rewrite (nth_indep _ C0 (clip_bin (m * factor) C0))
      by (rewrite length_map; exact Hk).
    rewrite map_nth. apply clip_bin_spec; [ exact HL | ].
    apply Hinv. apply nth_In. exact Hk. }
  assert (Hlow : forall k, (k < length X_inv)%nat ->
            (m <= Cabs (nth k (map (clip_bin (m * factor)) X_inv) C0))%R).
  { intros k Hk. rewrite (proj1 (Hbin k Hk)).
    apply Rmin_glb; [ | nra ].
    apply Hmin_le. apply in_map. apply nth_In. exact Hk. }
  split.
  { unfold clip_inverse. fold X_inv. rewrite Em. reflexivity. }
  split; [ reflexivity | ]. split; [ exact Hm | ].
  split; [ apply length_map | ].
  split.
  { intros k Hk. destruct (Hbin k Hk) as (Ha & Hp).
    split; [ rewrite Ha; apply Rbasic_fun.Rmin_r | ]. split; assumption. }
  split.
  { (* the least magnitude is kept *)
    destruct (np_min (map Cabs (map (clip_bin (m * factor)) X_inv)))
      as [m' | e] eqn:Em'.
    2:{ destruct X_inv; [ contradiction | discriminate ]. }
    destruct (np_min_spec _ _ Em') as (Hin' & Hle').
    f_equal. apply Rle_antisym.
    - (* the bin that had the least magnitude still has it *)
      apply in_map_iff in Hmin_in. destruct Hmin_in as (w & Ew & Hw).
      apply Hle'. rewrite map_map. apply in_map_iff. exists w.
      split; [ | exact Hw ].
      destruct (clip_bin_spec (m * factor) w HL (Hinv w Hw)) as (Ha & _).
      rewrite Ha, Ew. apply Rmin_left. nra.
    - apply in_map_iff in Hin'. destruct Hin' as (c & <- & Hc).
      destruct (In_nth _ _ C0 Hc) as (k & Hk & Ek).
      rewrite length_map in Hk. rewrite <- Ek. apply Hlow. exact Hk. }
  intros j k Hj Hk.
  destruct (Hbin j Hj) as (Ha & _).
  pose proof (Hlow k Hk) as Hk'.
  assert (Hj' : (Cabs (nth j (map (clip_bin (m * factor)) X_inv) C0)
                 <= m * factor)%R)
    by (rewrite Ha; apply Rbasic_fun.Rmin_r).
  assert (Hk'' : (factor * m
                  <= factor * Cabs (nth k (map (clip_bin (m * factor)) X_inv) C0))%R)
    by (apply Rmult_le_compat_l; [ lra | exact Hk' ]).
  lra.
Qed.

(** *** C5, for a spectrum of two bins *)
Lemma dynamic_limiting_bound_witness :
  ([(1%R, 0%R); (0%R, (1 / 1000)%R)] <> [] /\
   (forall z, In z [(1%R, 0%R); (0%R, (1 / 1000)%R)] -> z <> C0)) /\
  let X_inv := map (Cdiv (RtoC 1)) [(1%R, 0%R); (0%R, (1 / 1000)%R)] in
  let factor := Rpower 10 (Rabs 40 / 20) in
  exists clipped min_mag,
    clip_inverse 40 X_inv = Returned clipped /\
    np_min (map Cabs X_inv) = Returned min_mag /\
    (0 < min_mag)%R /\
    length clipped = length X_inv /\
    (forall k, (k < length X_inv)%nat ->
       (Cabs (nth k clipped C0) <= min_mag * factor)%R /\
       Cabs (nth k clipped C0)
       = Rmin (Cabs (nth k X_inv C0)) (min_mag * factor) /\
       angle (nth k clipped C0) = angle (nth k X_inv C0)) /\
    np_min (map Cabs clipped) = Returned min_mag /\
    (forall j k, (j < length X_inv)%nat -> (k < length X_inv)%nat ->
       (Cabs (nth j clipped C0) <= factor * Cabs (nth k clipped C0))%R).
Proof.
  assert (H1 : [(1%R, 0%R); (0%R, (1 / 1000)%R)] <> []) by discriminate.
  assert (H2 : forall z, In z [(1%R, 0%R); (0%R, (1 / 1000)%R)] -> z <> C0).
  { intros z [<- | [<- | []]] E; unfold C0 in E; injection E; intros; lra. }
  split; [ split; assumption | ].
  exact (dynamic_limiting_bound 40 [(1%R, 0%R); (0%R, (1 / 1000)%R)] H1 H2).
Defined.

(** * Further properties of the code *)

(** ** [make_excitation_sweep] *)

Lemma ramp_sample_unit (n k : nat) : (0 <= ramp_sample n k <= 1)%R.
Proof.
  unfold ramp_sample.
  pose proof (COS_bound (0 + INR k * ((PI / 2 - 0) / (INR n - 1)))) as (Hl & Hu).
  split; nra.
Qed.

(** A window that was built has the requested size and values between 0
    and 1; the fade fits, or has one sample. *)
Lemma fade_window_returned (size : nat) (fade : Z) (w : list R) :
  fade_window size fade = Returned w ->
  length w = size /\
  Forall (fun v => (0 <= v <= 1)%R) w /\
  ((0 <= fade <= Z.of_nat size)%Z \/ fade = 1%Z).
Proof.
  intros H.
  destruct (Z_lt_ge_dec fade 0) as [N | Hpos].
  { rewrite fade_window_negative in H by exact N. discriminate. }
  destruct (Z_le_gt_dec fade (Z.of_nat size)) as [Hfit | Hlong].
  - rewrite fade_window_fits in H by lia. injection H as <-.
    split; [ | split; [ | left; lia ] ].
    + rewrite length_app, repeat_length, length_map, length_seq. lia.
    + apply Forall_app. split.
      * apply Forall_forall. intros v Hv. apply repeat_spec in Hv. subst. lra.
      * apply Forall_forall. intros v Hv. apply in_map_iff in Hv.
        destruct Hv as (k & <- & _). apply ramp_sample_unit.
  - destruct (Z_le_gt_dec 2 fade) as [H2 | H2].
    + rewrite fade_window_too_long in H by lia. discriminate.
    + assert (fade = 1%Z) by lia. subst fade.
      assert (size = 0%nat) by lia. subst size.
      cbn in H. injection H as <-.
      split; [ reflexivity | split; [ constructor | right; reflexivity ] ].
Qed.

Lemma fade_window_returns (size : nat) (fade : Z) :
  (0 <= fade <= Z.of_nat size)%Z \/ fade = 1%Z ->
  exists w, fade_window size fade = Returned w.
Proof.
  intros [Hfit | H1].
  - rewrite fade_window_fits by exact Hfit. eauto.
  - subst fade. destruct size as [| size].
    + exists []. reflexivity.
    + rewrite fade_window_fits by lia. eauto.
Qed.

(** The stages of the sweep, with the chirp bounded by 1. *)
Lemma faded_sweep_structure (fs d f0 f1 a : R) (fade : Z) (sweep : list R) :
  faded_sweep fs d f0 f1 a fade = Returned sweep ->
  exists ch w,
    (0 <= py_int (d * fs))%Z /\ (0 < f0 * f1)%R /\
    length ch = Z.to_nat (py_int (d * fs)) /\
    Forall (fun c => (Rabs c <= 1)%R) ch /\
    fade_window (length ch) fade = Returned w /\
    sweep = map (fun p => (fst p * snd p)%R)
                (combine (map (Rmult (Rpower 10 (a / 20))) ch) w).
Proof.
  unfold faded_sweep. intros H.
  apply obind_returned in H. destruct H as (t & Ht & H).
  apply obind_returned in H. destruct H as (ch & Hch & H).
  apply obind_returned in H. destruct H as (w & Hw & H).
  apply linspace_length in Ht. destruct Ht as (Ht & Hn).
  unfold chirp_log in Hch.
  destruct (Rle_dec (f0 * f1) 0) as [ | Hf]; [ discriminate | ].
  injection Hch as <-.
  rewrite length_map in Hw.
  match type of Hw with
  | fade_window (length ?c) _ = _ => exists c, w
  end.
  split; [ exact Hn | ]. split; [ lra | ].
  split; [ rewrite length_map; exact Ht | ].
  split.
  { apply Forall_forall. intros c Hc. apply in_map_iff in Hc.
    destruct Hc as (u & <- & _). apply Rabs_le. apply COS_bound. }
  split; [ exact Hw | ].
  destruct (fade_window_returned _ _ _ Hw) as (Hlen & _).
  rewrite bcast2_same_length in H by (rewrite length_map; congruence).
  injection H as <-. reflexivity.
Qed.

Lemma faded_sweep_length (fs d f0 f1 a : R) (fade : Z) (sweep : list R) :
  faded_sweep fs d f0 f1 a fade = Returned sweep ->
  length sweep = Z.to_nat (py_int (d * fs)).
Proof.
  intros H.
  destruct (faded_sweep_structure _ _ _ _ _ _ _ H)
    as (ch & w & _ & _ & Hch & _ & Hw & ->).
  destruct (fade_window_returned _ _ _ Hw) as (Hlen & _).
  rewrite length_map, length_combine, length_map. lia.
Qed.

(** X1 (make_excitation_sweep, lines 95-113).  A generated excitation has
    [int(fs * 0.01) + int(d_sweep_sec * fs) + int(fs * d_post_silence_sec)]
    rows and [num_channels] identical columns; each column is the faded
    sweep between a head and a tail of exact zeros of those lengths. *)
Theorem excitation_layout (fs : R) (k : nat) (d p f0 f1 a : R) (fade : Z)
  (arr : array2) :
  make_excitation_sweep fs k d p f0 f1 a fade = Returned arr ->
  let pre := Z.to_nat (py_int (fs * (1 / 100))) in
  let n := Z.to_nat (py_int (d * fs)) in
  let post := Z.to_nat (py_int (fs * p)) in
  exists sweep,
    faded_sweep fs d f0 f1 a fade = Returned sweep /\
    length sweep = n /\
    nrows arr = (pre + n + post)%nat /\
    ncols arr = k /\
    columns arr = repeat (repeat 0%R pre ++ sweep ++ repeat 0%R post) k.
Proof.
  intros H pre n post. unfold make_excitation_sweep in H.
  apply obind_returned in H. destruct H as (sweep & Hs & H).
  apply obind_returned in H. destruct H as (exc & Hp & H).
  injection H as <-.
  apply np_pad_returned in Hp. destruct Hp as (_ & _ & ->).
  pose proof (faded_sweep_length _ _ _ _ _ _ _ Hs) as Hlen.
  exists sweep. split; [ exact Hs | ]. split; [ exact Hlen | ].
  cbn [nrows columns]. unfold ncols. cbn [columns].
  split; [ | split; [ apply repeat_length | reflexivity ] ].
  rewrite !length_app, !repeat_length. fold pre post. lia.
Qed.

(** X2 (make_excitation_sweep, lines 92-102).  No sample of a generated
    excitation exceeds the linear amplitude [10^(amp_db/20)] in absolute
    value; with [amp_db <= 0] no sample exceeds 1. *)
Theorem excitation_amplitude_bound (fs : R) (k : nat) (d p f0 f1 a : R)
  (fade : Z) (arr : array2) :
  make_excitation_sweep fs k d p f0 f1 a fade = Returned arr ->
  (forall col v, In col (columns arr) -> In v col ->
     (Rabs v <= Rpower 10 (a / 20))%R) /\
  ((a <= 0)%R ->
   forall col v, In col (columns arr) -> In v col -> (Rabs v <= 1)%R).
Proof.
  intros H.
  assert (Hamp : (0 < Rpower 10 (a / 20))%R) by (unfold Rpower; apply exp_pos).
  assert (Hb : forall col v, In col (columns arr) -> In v col ->
                 (Rabs v <= Rpower 10 (a / 20))%R).
  { unfold make_excitation_sweep in H.
    apply obind_returned in H. destruct H as (sweep & Hs & H).
    apply obind_returned in H. destruct H as (exc & Hp & H).
    injection H as <-. cbn [columns].
    apply np_pad_returned in Hp. destruct Hp as (_ & _ & ->).
    destruct (faded_sweep_structure _ _ _ _ _ _ _ Hs)
      as (ch & w & _ & _ & _ & Hch & Hw & ->).
    destruct (fade_window_returned _ _ _ Hw) as (_ & Hunit & _).
    intros col v Hcol Hv. apply repeat_spec in Hcol. subst col.
    apply in_app_or in Hv. destruct Hv as [Hv | Hv].
    { apply repeat_spec in Hv. subst. rewrite Rabs_R0. lra. }
    apply in_app_or in Hv. destruct Hv as [Hv | Hv].
    2:{ apply repeat_spec in Hv. subst. rewrite Rabs_R0. lra. }
    apply in_map_iff in Hv. destruct Hv as ((r, m) & <- & Hpair).
    cbn [fst snd].
    pose proof (in_combine_l _ _ _ _ Hpair) as Hr.
    pose proof (in_combine_r _ _ _ _ Hpair) as Hm.
    apply in_map_iff in Hr. destruct Hr as (c & <- & Hc).
    pose proof (proj1 (Forall_forall _ _) Hch c Hc) as Hc1. cbv beta in Hc1.
    pose proof (proj1 (Forall_forall _ _) Hunit m Hm) as Hm1. cbv beta in Hm1.
    rewrite !Rabs_mult. rewrite (Rabs_pos_eq (Rpower 10 (a / 20))) by lra.
    rewrite (Rabs_pos_eq m) by lra.
    pose proof (Rabs_pos c) as Hc0.
    assert (Hcm : (0 <= Rabs c * m <= 1)%R) by nra.
    rewrite Rmult_assoc. nra. }
  split; [ exact Hb | ].
  intros Ha col v Hcol Hv. specialize (Hb col v Hcol Hv).
  assert (Rpower 10 (a / 20) <= 1)%R; [ | lra ].
  unfold Rpower.
  assert (Hln : (0 < ln 10)%R) by (rewrite <- ln_1; apply ln_increasing; lra).
  rewrite <- exp_0.
  destruct (Req_dec (a / 20 * ln 10) 0) as [E | E].
  - rewrite E. lra.
  - left. apply exp_increasing. nra.
Qed.

(** X3 (make_excitation_sweep, lines 95-108).  The function returns
    exactly when the number of sweep samples [int(d_sweep_sec * fs)] and
    the two silence lengths are not negative, the two frequencies have the
    same sign and are not zero, and the fade has between 0 and the number
    of sweep samples, or exactly one sample; in every other case it raises. *)
Theorem excitation_generated_iff (fs : R) (k : nat) (d p f0 f1 a : R)
  (fade : Z) :
  is_returned (make_excitation_sweep fs k d p f0 f1 a fade) = true <->
  ((0 <= py_int (d * fs))%Z /\ (0 < f0 * f1)%R /\
   ((0 <= fade <= py_int (d * fs))%Z \/ fade = 1%Z) /\
   (0 <= py_int (fs * (1 / 100)))%Z /\ (0 <= py_int (fs * p))%Z).
Proof.
  split.
  - intros H. apply is_returned_true in H. destruct H as (arr & H).
    unfold make_excitation_sweep in H.
    apply obind_returned in H. destruct H as (sweep & Hs & H).
    apply obind_returned in H. destruct H as (exc & Hp & _).
    apply np_pad_returned in Hp. destruct Hp as (Hpre & Hpost & _).
    destruct (faded_sweep_structure _ _ _ _ _ _ _ Hs)
      as (ch & w & Hn & Hf & Hch & _ & Hw & _).
    destruct (fade_window_returned _ _ _ Hw) as (_ & _ & Hfade).
    repeat split; try assumption.
    destruct Hfade as [Hfade | Hfade]; [ left; lia | right; exact Hfade ].
  - intros (Hn & Hf & Hfade & Hpre & Hpost).
    unfold make_excitation_sweep, faded_sweep.
    rewrite linspace_returns by exact Hn. cbn [obind].
    match goal with
    | |- context [chirp_log ?t f0 d f1 90] =>
        destruct (chirp_log_returns t f0 d f1 90 Hf) as (ch & Hch & Hlen)
    end.
    rewrite Hch. cbn [obind].
    rewrite length_map, length_seq in Hlen.
    destruct (fade_window_returns (length (map (Rmult (Rpower 10 (a / 20))) ch))
                fade) as (w & Hw).
    { rewrite length_map, Hlen.
      destruct Hfade as [Hfade | Hfade]; [ left; lia | right; exact Hfade ]. }
    rewrite Hw. cbn [obind].
    destruct (fade_window_returned _ _ _ Hw) as (Hwl & _).
    rewrite bcast2_same_length by congruence. cbn [obind].
    rewrite np_pad_returns by assumption. reflexivity.
Qed.

Lemma default_sweep_generated :
  exists arr,
    make_excitation_sweep 48000 2 3 (3 / 2) 100 22000 (-20) 200 = Returned arr.
Proof.
  apply make_excitation_sweep_returns; try lra.
  split; [ lia | ].
  apply py_int_lower; [ lra | ].
  replace (3 * 48000)%R with (IZR 144000) by (simpl; lra).
  apply IZR_le. lia.
Qed.

(** *** X1, at the default parameters with two channels *)
Lemma excitation_layout_witness :
  exists arr,
    make_excitation_sweep 48000 2 3 (3 / 2) 100 22000 (-20) 200 = Returned arr /\
    exists sweep,
      faded_sweep 48000 3 100 22000 (-20) 200 = Returned sweep /\
      length sweep = Z.to_nat (py_int (3 * 48000)) /\
      nrows arr = (Z.to_nat (py_int (48000 * (1 / 100)))
                   + Z.to_nat (py_int (3 * 48000))
                   + Z.to_nat (py_int (48000 * (3 / 2))))%nat /\
      ncols arr = 2%nat /\
      columns arr
      = repeat (repeat 0%R (Z.to_nat (py_int (48000 * (1 / 100)))) ++ sweep
                ++ repeat 0%R (Z.to_nat (py_int (48000 * (3 / 2))))) 2.
Proof.
  destruct default_sweep_generated as (arr & H).
  exists arr. split; [ exact H | ].
  exact (excitation_layout 48000 2 3 (3 / 2) 100 22000 (-20) 200 arr H).
Defined.

(** *** X2, at the default parameters with two channels *)
Lemma excitation_amplitude_bound_witness :
  exists arr,
    make_excitation_sweep 48000 2 3 (3 / 2) 100 22000 (-20) 200 = Returned arr /\
    (forall col v, In col (columns arr) -> In v col ->
       (Rabs v <= Rpower 10 (-20 / 20))%R) /\
    ((-20 <= 0)%R ->
     forall col v, In col (columns arr) -> In v col -> (Rabs v <= 1)%R).
Proof.
  destruct default_sweep_generated as (arr & H).
  exists arr. split; [ exact H | ].
  exact (excitation_amplitude_bound 48000 2 3 (3 / 2) 100 22000 (-20) 200 arr H).
Defined.

(** ** [deconv] and [deconvolve] *)

Lemma nth_map_combine (u w : list R) (i : nat) :
  length u = length w -> (i < length u)%nat ->
  nth i (map (fun p => (fst p * snd p)%R) (combine u w)) 0%R
  = (nth i u 0 * nth i w 0)%R.
Proof.
  revert w i. induction u as [| a u IH]; intros w i Hlen Hi; simpl in Hi;
    [ lia | ].
  destruct w as [| b w]; [ discriminate | ].
  destruct i as [| i]; [ reflexivity | ].
  cbn [combine map nth]. apply IH; simpl in *; lia.
Qed.

Lemma Cdiv_Cmul (z w : C) : w <> C0 -> Cmul (Cdiv z w) w = z.
Proof.
  intros Hw. pose proof (Cnorm2_pos w Hw) as Hn.
  destruct z as (a, b). destruct w as (c, d).
  unfold Cmul, Cdiv. cbn [fst snd] in *.
  f_equal; field; lra.
Qed.

Lemma nth_combine_div (Y X : list C) (k : nat) :
  length Y = length X -> (k < length X)%nat ->
  nth k (map (fun p => Cdiv (fst p) (snd p)) (combine Y X)) C0
  = Cdiv (nth k Y C0) (nth k X C0).
Proof.
  revert X k. induction Y as [| a Y IH]; intros X k Hlen Hk.
  - destruct X; [ simpl in Hk; lia | discriminate ].
  - destruct X as [| b X]; [ discriminate | ].
    destruct k as [| k]; [ reflexivity | ].
    cbn [combine map nth]. apply IH; simpl in *; lia.
Qed.

(** X4 (deconv, lines 9-32).  For a reference and a recording of the same
    length of 2000 samples or more, and a reference whose padded spectrum
    has no zero bin, [deconv] returns as many samples as the recording has.
    Both signals are transformed at the padded length; the quotient
    spectrum, multiplied bin by bin with the reference spectrum, gives the
    recording spectrum back; before the last 2000 samples the result holds
    the samples of the inverse transform of the quotient, and over the last
    2000 samples these are weighted by the squared cosine fade
    [cos(k / 1999 * pi / 2)^2], [k = 0 .. 1999]. *)
Theorem deconv_long_recording (x y xp : list R) (X : list C) :
  length x = length y -> (2000 <= length y)%nat ->
  np_pad x 0 (fft_size (length y) - Z.of_nat (length y)) = Returned xp ->
  fft xp = Returned X ->
  Forall (fun c => c <> C0) X ->
  exists yp Y Q h_N h,
    np_pad y 0 (fft_size (length y) - Z.of_nat (length y)) = Returned yp /\
    fft yp = Returned Y /\
    length X = Z.to_nat (fft_size (length y)) /\
    length Y = length X /\
    bcast2 Cdiv C0 Y X = Returned Q /\
    (forall k, (k < length X)%nat ->
       Cmul (nth k Q C0) (nth k X C0) = nth k Y C0) /\
    ifft_real Q = Returned h_N /\
    length h_N = length X /\
    deconv_unwindowed x y = Returned (firstn (length y) h_N) /\
    deconv x y = Returned h /\
    length h = length y /\
    (forall i, (i < length y - 2000)%nat -> nth i h 0%R = nth i h_N 0%R) /\
    (forall k, (k < 2000)%nat ->
       nth (length y - 2000 + k) h 0%R
       = (nth (length y - 2000 + k) h_N 0
          * cos (INR k / (INR 2000 - 1) * (PI / 2)) ^ 2)%R).
Proof.
  intros Hxy HL Hxp HX Hnz.
  assert (HL1 : (1 <= length y)%nat) by lia.
  pose proof (fft_size_bound (length y) HL1) as HN.
  set (nz := (fft_size (length y) - Z.of_nat (length y))%Z) in *.
  pose proof (np_pad_returns y 0 nz ltac:(lia) ltac:(lia)) as Hyp.
  set (yp := (repeat 0%R (Z.to_nat 0) ++ y ++ repeat 0%R (Z.to_nat nz))) in *.
  assert (Lyp : length yp = Z.to_nat (fft_size (length y))).
  { subst yp. rewrite !length_app, !repeat_length. subst nz.
    change (Z.to_nat 0) with 0%nat. lia. }
  assert (Lxp : length xp = Z.to_nat (fft_size (length y))).
  { apply np_pad_returned in Hxp. destruct Hxp as (_ & _ & ->).
    rewrite !length_app, !repeat_length. subst nz.
    change (Z.to_nat 0) with 0%nat. lia. }
  destruct (fft_returns yp) as (Y & HY); [ lia | ].
  pose proof (fft_returned _ _ HX) as (LX & _).
  pose proof (fft_returned _ _ HY) as (LY & _).
  assert (LYX : length Y = length X) by congruence.
  pose proof (bcast2_same_length Cdiv C0 Y X LYX) as HQ.
  set (Q := map (fun p => Cdiv (fst p) (snd p)) (combine Y X)) in *.
  assert (LQ : length Q = length X).
  { subst Q. rewrite length_map, length_combine. lia. }
  destruct (ifft_real_returns Q) as (h_N & Hh); [ lia | ].
  pose proof (ifft_real_returned _ _ Hh) as Lh.
  set (raw := firstn (length y) h_N).
  assert (Hraw : deconv_unwindowed x y = Returned raw).
  { unfold deconv_unwindowed. fold nz. rewrite Hxp, Hyp. cbn [obind].
    rewrite HY, HX. cbn [obind]. rewrite HQ. cbn [obind].
    rewrite Hh. reflexivity. }
  assert (Hlen : length raw = length y).
  { subst raw. rewrite length_firstn. lia. }
  set (w := repeat 1%R (length raw - 2000)
            ++ map (ramp_sample 2000) (seq 0 2000)).
  assert (Hw : length w = length raw).
  { subst w. rewrite length_app, repeat_length, length_map, length_seq. lia. }
  assert (Hdec : deconv x y
                 = Returned (map (fun p => (fst p * snd p)%R) (combine raw w))).
  { unfold deconv. rewrite Hraw. cbn [obind].
    rewrite fade_window_fits by lia. cbn [obind].
    change (Z.to_nat 2000) with 2000%nat. fold w.
    apply bcast2_same_length. symmetry. exact Hw. }
  assert (Hnraw : forall i, (i < length y)%nat -> nth i raw 0%R = nth i h_N 0%R).
  { intros i Hi. subst raw. rewrite nth_firstn.
    destruct (Nat.ltb_spec i (length y)); [ reflexivity | lia ]. }
  assert (Hone : forall i, (i < length raw - 2000)%nat -> nth i w 0%R = 1%R).
  { intros i Hi. subst w.
    rewrite app_nth1 by (rewrite repeat_length; exact Hi).
    apply nth_repeat_lt. exact Hi. }
  assert (Hramp : forall k, (k < 2000)%nat ->
            nth (length raw - 2000 + k) w 0%R = ramp_sample 2000 k).
  { intros k Hk. subst w.
    rewrite app_nth2 by (rewrite repeat_length; lia).
    rewrite repeat_length.
    replace (length raw - 2000 + k - (length raw - 2000))%nat with k by lia.
    rewrite (nth_indep _ 0%R (ramp_sample 2000 0%nat))
      by (rewrite length_map, length_seq; exact Hk).
    rewrite map_nth, seq_nth by exact Hk. reflexivity. }
  exists yp, Y, Q, h_N, (map (fun p => (fst p * snd p)%R) (combine raw w)).
  split; [ exact Hyp | ]. split; [ exact HY | ].
  split; [ congruence | ]. split; [ exact LYX | ].
  split; [ exact HQ | ].
  split.
  { intros k Hk. subst Q. rewrite nth_combine_div by assumption.
    apply Cdiv_Cmul.
    apply (proj1 (Forall_forall _ _) Hnz). apply nth_In. exact Hk. }
  split; [ exact Hh | ]. split; [ congruence | ].
  split; [ exact Hraw | ]. split; [ exact Hdec | ].
  split; [ rewrite length_map, length_combine; lia | ].
  split.
  - intros i Hi. rewrite nth_map_combine by lia.
    rewrite Hone by lia. rewrite Hnraw by lia. ring.
  - intros k Hk. rewrite <- Hlen. rewrite nth_map_combine by lia.
    rewrite Hramp by exact Hk. rewrite Hnraw by lia.
    rewrite ramp_sample_angle by lia. reflexivity.
Qed.

Lemma csum_zero (l : list C) : (forall z, In z l -> z = C0) -> csum l = C0.
Proof.
  induction l as [| a l IH]; intros H; [ reflexivity | ].
  cbn [csum fold_right]. fold (csum l).
  rewrite IH by (intros z Hz; apply H; now right).
  rewrite (H a) by now left.
  unfold Cadd, C0. cbn [fst snd]. f_equal; ring.
Qed.

(** The spectrum of a unit impulse is 1 in every bin. *)
Lemma dft_bin_impulse (sgn : R) (m N k : nat) :
  (1 <= N)%nat ->
  dft_bin sgn (map RtoC (1%R :: repeat 0%R m)) N k = RtoC 1.
Proof.
  intros HN. destruct N as [| N]; [ lia | ].
  unfold dft_bin. rewrite <- cons_seq. cbn [map csum fold_right nth].
  match goal with
  | |- Cadd _ ?rest = _ => assert (E : rest = C0)
  end.
  { apply csum_zero. intros z Hz. apply in_map_iff in Hz.
    destruct Hz as (n & <- & Hn). apply in_seq in Hn.
    destruct n as [| n]; [ lia | ]. cbn [nth].
    change C0 with (RtoC 0) at 1. rewrite map_nth, nth_repeat.
    unfold Cmul, RtoC, C0. cbn [fst snd]. f_equal; ring. }
  rewrite E.
  replace (sgn * 2 * PI * INR k * INR 0 / INR (S N))%R with 0%R
    by (cbn [INR]; unfold Rdiv; ring).
  unfold Cadd, Cmul, Cexp_i, RtoC, C0. cbn [fst snd].
  rewrite cos_0, sin_0. f_equal; ring.
Qed.

(** *** X4, for a unit impulse of 2000 samples as reference and recording *)
Lemma deconv_long_recording_witness :
  exists xp X,
    (length (1%R :: repeat 0%R 1999) = length (1%R :: repeat 0%R 1999) /\
     (2000 <= length (1%R :: repeat 0%R 1999))%nat /\
     np_pad (1%R :: repeat 0%R 1999) 0
       (fft_size (length (1%R :: repeat 0%R 1999))
        - Z.of_nat (length (1%R :: repeat 0%R 1999))) = Returned xp /\
     fft xp = Returned X /\
     Forall (fun c => c <> C0) X) /\
    exists yp Y Q h_N h,
      np_pad (1%R :: repeat 0%R 1999) 0
        (fft_size (length (1%R :: repeat 0%R 1999))
         - Z.of_nat (length (1%R :: repeat 0%R 1999))) = Returned yp /\
      fft yp = Returned Y /\
      length X = Z.to_nat (fft_size (length (1%R :: repeat 0%R 1999))) /\
      length Y = length X /\
      bcast2 Cdiv C0 Y X = Returned Q /\
      (forall k, (k < length X)%nat ->
         Cmul (nth k Q C0) (nth k X C0) = nth k Y C0) /\
      ifft_real Q = Returned h_N /\
      length h_N = length X /\
      deconv_unwindowed (1%R :: repeat 0%R 1999) (1%R :: repeat 0%R 1999)
      = Returned (firstn (length (1%R :: repeat 0%R 1999)) h_N) /\
      deconv (1%R :: repeat 0%R 1999) (1%R :: repeat 0%R 1999) = Returned h /\
      length h = length (1%R :: repeat 0%R 1999) /\
      (forall i, (i < length (1%R :: repeat 0%R 1999) - 2000)%nat ->
         nth i h 0%R = nth i h_N 0%R) /\
      (forall k, (k < 2000)%nat ->
         nth (length (1%R :: repeat 0%R 1999) - 2000 + k) h 0%R
         = (nth (length (1%R :: repeat 0%R 1999) - 2000 + k) h_N 0
            * cos (INR k / (INR 2000 - 1) * (PI / 2)) ^ 2)%R).
Proof.
  set (x := (1%R :: repeat 0%R 1999)).
  assert (Lx : length x = 2000%nat)
    by (subst x; cbn [length]; rewrite repeat_length; reflexivity).
  assert (H1 : length x = length x) by reflexivity.
  assert (H2 : (2000 <= length x)%nat) by lia.
  set (nz := (fft_size (length x) - Z.of_nat (length x))%Z).
  assert (Hnz : (0 <= nz)%Z).
  { subst nz. pose proof (fft_size_bound (length x) ltac:(lia)). lia. }
  pose proof (np_pad_returns x 0 nz ltac:(lia) Hnz) as Hxp.
  change (Z.to_nat 0) with 0%nat in Hxp. cbn [repeat app] in Hxp.
  set (xp := x ++ repeat 0%R (Z.to_nat nz)) in *.
  assert (Exp : xp = 1%R :: repeat 0%R (1999 + Z.to_nat nz)).
  { subst xp x. rewrite repeat_app. reflexivity. }
  assert (HX : fft xp
               = Returned (map (dft_bin (-1) (map RtoC xp) (length xp))
                             (seq 0 (length xp)))).
  { rewrite Exp. reflexivity. }
  assert (H5 : Forall (fun c => c <> C0)
                 (map (dft_bin (-1) (map RtoC xp) (length xp))
                    (seq 0 (length xp)))).
  { apply Forall_forall. intros c Hc. apply in_map_iff in Hc.
    destruct Hc as (k & <- & _). rewrite Exp.
    rewrite dft_bin_impulse by (cbn [length]; lia).
    unfold RtoC, C0. intros E. injection E as E. lra. }
  exists xp, (map (dft_bin (-1) (map RtoC xp) (length xp)) (seq 0 (length xp))).
  split; [ repeat split; assumption | ].
  exact (deconv_long_recording x x xp _ H1 H2 Hxp HX H5).
Defined.

Lemma rfft_returned (x : list R) (n : Z) (X : list C) :
  rfft x n = Returned X ->
  (1 <= n)%Z /\ length X = (Z.to_nat n / 2 + 1)%nat.
Proof.
  unfold rfft. destruct (n <? 1)%Z eqn:E; [ discriminate | ].
  intros H; injection H as <-. apply Z.ltb_ge in E.
  split; [ exact E | ]. rewrite length_map, length_seq. reflexivity.
Qed.

Lemma irfft_returned (H : list C) (n : Z) (h : list R) :
  irfft H n = Returned h -> (1 <= n)%Z /\ length h = Z.to_nat n.
Proof.
  unfold irfft. destruct (n <? 1)%Z eqn:E; [ discriminate | ].
  intros Hh; injection Hh as <-. apply Z.ltb_ge in E.
  split; [ exact E | ]. rewrite length_map, length_seq. reflexivity.
Qed.

(** X5 (deconvolve, lines 36-42 and 83-88).  Whatever the recorded signal,
    the limit, the filters and the filter routines are, an impulse response
    that [deconvolve] returns has the length of the reference signal, which
    is then not empty; an empty reference makes it raise [ValueError]. *)
Theorem deconvolve_reference_length (be : Backend) (x y : list R) (fs : R)
  (max_inv_dyn : option R) (lowpass highpass : option filter_spec) :
  (forall h,
     deconvolve be x y fs max_inv_dyn lowpass highpass = Returned h ->
     length h = length x /\ (1 <= length x)%nat) /\
  deconvolve be [] y fs max_inv_dyn lowpass highpass = Raised ValueError.
Proof.
  split; [ | reflexivity ].
  intros h H. unfold deconvolve in H.
  apply obind_returned in H. destruct H as (X_f & HX & H).
  apply obind_returned in H. destruct H as (Y_f & _ & H).
  apply obind_returned in H. destruct H as (Xc & _ & H).
  apply obind_returned in H. destruct H as (Xb & _ & H).
  apply obind_returned in H. destruct H as (Hs & _ & H).
  apply obind_returned in H. destruct H as (h0 & Hh0 & H).
  injection H as <-.
  apply rfft_returned in HX. destruct HX as (HN & _).
  apply irfft_returned in Hh0. destruct Hh0 as (_ & Hlen).
  assert (HL : (1 <= length x)%nat).
  { destruct x; [ cbn [length fft_size] in HN; lia | simpl; lia ]. }
  pose proof (fft_size_bound (length x) HL).
  split; [ | exact HL ]. rewrite length_firstn. lia.
Qed.

(** X6 (deconv and deconvolve, lines 13-14 and 37-38).  For a signal of
    [L >= 1] samples the transform length is a power of two that is at
    least twice and less than four times [L]. *)
Theorem fft_size_headroom (L : nat) :
  (1 <= L)%nat ->
  exists k, (0 <= k)%Z /\ fft_size L = (2 ^ k)%Z /\
            (2 * Z.of_nat L <= fft_size L < 4 * Z.of_nat L)%Z.
Proof.
  intros HL. exists (Z.log2_up (Z.of_nat L) + 1)%Z.
  pose proof (Z.log2_up_nonneg (Z.of_nat L)) as Hk.
  split; [ lia | ].
  split; [ unfold fft_size; destruct L; [ lia | reflexivity ] | ].
  split; [ apply fft_size_bound; exact HL | ].
  rewrite fft_size_double by exact HL.
  destruct (Z.eq_dec (Z.of_nat L) 1) as [E | E].
  - rewrite E. simpl. lia.
  - destruct (Z.log2_up_spec (Z.of_nat L) ltac:(lia)) as (Hlow & _).
    replace (Z.log2_up (Z.of_nat L))
      with (Z.succ (Z.pred (Z.log2_up (Z.of_nat L)))) by lia.
    rewrite Z.pow_succ_r.
    + lia.
    + assert (0 < Z.log2_up (Z.of_nat L))%Z by (apply Z.log2_up_pos; lia). lia.
Qed.

(** *** X6, for three samples *)
Lemma fft_size_headroom_witness :
  (1 <= 3)%nat /\
  exists k, (0 <= k)%Z /\ fft_size 3 = (2 ^ k)%Z /\
            (2 * Z.of_nat 3 <= fft_size 3 < 4 * Z.of_nat 3)%Z.
Proof.
  assert (H : (1 <= 3)%nat) by lia.
  split; [ exact H | ]. exact (fft_size_headroom 3 H).
Defined.

(** ** Configuration of the session *)

(** X7 (set_sweep_parameters and get_sweep_parameters, lines 164-175).
    After [set_sweep_parameters], [get_sweep_parameters] returns the six
    values that were passed, whether or not the buffers could be rebuilt
    from them. *)
Theorem sweep_parameters_round_trip (be : Backend) (s : Measurement)
  (d p f0 f1 a : R) (n : Z) :
  get_sweep_parameters (fst (set_sweep_parameters be d p f0 f1 a n s))
  = mkSweepParameters d p f0 f1 a n.
Proof.
  unfold set_sweep_parameters, get_sweep_parameters.
  rewrite fst_mbind_modify.
  rewrite (keeps_prepare_audio be sweep_parameters); [ reflexivity | ].
  repeat split.
Qed.

(** X8 (set_samplerate and get_samplerate, lines 177-178 and 213-227).
    After [set_samplerate(fs)] with a value, [get_samplerate] returns that
    value; after [set_samplerate()] without one it returns the rate that
    was set before, or 48000 when none was: the rate is never left unset. *)
Theorem samplerate_round_trip (be : Backend) (s : Measurement) (v : R) :
  get_samplerate (fst (set_samplerate be (Some v) s)) = Some v /\
  get_samplerate (fst (set_samplerate be None s))
  = Some (match get_samplerate s with
          | Some r => r
          | None => 48000%R
          end).
Proof.
  assert (K : forall s1, sd_default_samplerate (fst (prepare_audio be s1))
                         = sd_default_samplerate s1).
  { intros s1. apply (keeps_prepare_audio be sd_default_samplerate).
    repeat split. }
  unfold get_samplerate, set_samplerate. split.
  - rewrite fst_mbind_modify, K. reflexivity.
  - unfold mbind at 1. rewrite mbind_gets.
    destruct (sd_default_samplerate s) as [r | ] eqn:E.
    + cbn [mret]. rewrite K. exact E.
    + cbn [modify]. rewrite K. reflexivity.
Qed.

(** X9 (set_sweep_parameters, set_channel_layout, set_samplerate,
    prepare_audio).  No call that configures the session touches the
    stored recordings: [get_recordings] returns afterwards what it returned
    before, also when the call raises. *)
Theorem configuration_keeps_recordings (be : Backend) (c : call)
  (s : Measurement) :
  (forall t, c <> Call_single_measurement t) ->
  get_recordings (fst (run_call be c s)) = get_recordings s.
Proof.
  intros Hc.
  assert (P : keeps get_recordings (prepare_audio be))
    by (apply keeps_prepare_audio; repeat split).
  revert s. change (keeps get_recordings (run_call be c)).
  destruct c; cbn [run_call].
  - unfold set_sweep_parameters. keeps_auto. exact P.
  - unfold set_channel_layout. repeat first [ exact P | keeps_step ].
  - unfold set_samplerate.
    apply keeps_mbind; [ | intros; exact P ].
    destruct fs; keeps_auto.
  - exact P.
  - exfalso. apply (Hc type). reflexivity.
Qed.

(** *** X9, for a change of layout on a session that holds recordings *)
Lemma configuration_keeps_recordings_witness :
  (forall t, Call_set_channel_layout [0; 1; 2]%Z [0; 1; 2]%Z
             <> Call_single_measurement t) /\
  get_recordings
    (fst (run_call quiet_backend
            (Call_set_channel_layout [0; 1; 2]%Z [0; 1; 2]%Z)
            recorded_session))
  = get_recordings recorded_session.
Proof.
  assert (H : forall t, Call_set_channel_layout [0; 1; 2]%Z [0; 1; 2]%Z
                        <> Call_single_measurement t)
    by (intros t; discriminate).
  split; [ exact H | ].
  exact (configuration_keeps_recordings quiet_backend
           (Call_set_channel_layout [0; 1; 2]%Z [0; 1; 2]%Z)
           recorded_session H).
Defined.

(** X10 (set_channel_layout, lines 198-206).  For layouts of three roles
    or more, the feedback loop is in use afterwards exactly when both
    feedback roles are not negative; the stored layouts are the given
    ones except possibly at index 2, and are the given ones when the
    feedback loop is in use. *)
Theorem set_channel_layout_feedback_flag (be : Backend) (s : Measurement)
  (i o : list Z) :
  (3 <= length i)%nat -> (3 <= length o)%nat ->
  let s' := fst (set_channel_layout be i o s) in
  feedback_loop_used s' = ((0 <=? nth 2 o 0) && (0 <=? nth 2 i 0))%Z /\
  (forall k, k <> 2%nat ->
     nth k (channel_layout_input s') 0%Z = nth k i 0%Z /\
     nth k (channel_layout_output s') 0%Z = nth k o 0%Z) /\
  (feedback_loop_used s' = true ->
   channel_layout_input s' = i /\ channel_layout_output s' = o).
Proof.
  intros Hi Ho.
  destruct i as [| i0 [| i1 [| i2 ri]]]; simpl in Hi; try lia.
  destruct o as [| o0 [| o1 [| o2 ro]]]; simpl in Ho; try lia.
  pose proof (set_channel_layout_stores be s i0 i1 i2 o0 o1 o2 ri ro) as H.
  cbv zeta in H. destruct H as (Hin & Hout & Hfb & _ & _).
  intros s'. subst s'. rewrite Hin, Hout, Hfb. clear Hin Hout Hfb.
  cbn [nth].
  destruct (o2 <? 0)%Z eqn:Eo; [ | destruct (i2 <? 0)%Z eqn:Ei ];
    cbn [orb negb].
  - apply Z.ltb_lt in Eo.
    destruct (Z.leb_spec 0 o2); [ lia | ]. cbn [andb].
    split; [ reflexivity | ]. split; [ | discriminate ].
    intros k Hk. destruct k as [| [| [| k]]]; try contradiction; auto.
  - apply Z.ltb_lt in Ei. apply Z.ltb_ge in Eo.
    destruct (Z.leb_spec 0 o2); [ | lia ].
    destruct (Z.leb_spec 0 i2); [ lia | ]. cbn [andb].
    split; [ reflexivity | ]. split; [ | discriminate ].
    intros k Hk. destruct k as [| [| [| k]]]; try contradiction; auto.
  - apply Z.ltb_ge in Eo, Ei.
    destruct (Z.leb_spec 0 o2); [ | lia ].
    destruct (Z.leb_spec 0 i2); [ | lia ]. cbn [andb].
    split; [ reflexivity | ]. split; [ | auto ].
    intros k Hk. auto.
Qed.

(** *** X10, for a feedback loop on channel 2 of both sides *)
Lemma set_channel_layout_feedback_flag_witness :
  ((3 <= length [0; 1; 2]%Z)%nat /\ (3 <= length [1; 0; 2]%Z)%nat) /\
  let s' := fst (set_channel_layout quiet_backend [0; 1; 2]%Z [1; 0; 2]%Z
                   startup_session) in
  feedback_loop_used s'
  = ((0 <=? nth 2 [1; 0; 2] 0) && (0 <=? nth 2 [0; 1; 2] 0))%Z /\
  (forall k, k <> 2%nat ->
     nth k (channel_layout_input s') 0%Z = nth k [0; 1; 2]%Z 0%Z /\
     nth k (channel_layout_output s') 0%Z = nth k [1; 0; 2]%Z 0%Z) /\
  (feedback_loop_used s' = true ->
   channel_layout_input s' = [0; 1; 2]%Z /\
   channel_layout_output s' = [1; 0; 2]%Z).
Proof.
  assert (H1 : (3 <= length [0; 1; 2]%Z)%nat) by (simpl; lia).
  assert (H2 : (3 <= length [1; 0; 2]%Z)%nat) by (simpl; lia).
  split; [ split; assumption | ].
  exact (set_channel_layout_feedback_flag quiet_backend startup_session
           [0; 1; 2]%Z [1; 0; 2]%Z H1 H2).
Defined.

(** X11 (set_channel_layout, lines 198-201).  A layout of fewer than
    three roles on either side makes [set_channel_layout] raise
    [IndexError]; the stored layouts, the channel counts and the excitation
    buffers are then as before the call, and with a short output layout the
    whole session is. *)
Theorem set_channel_layout_short_layout (be : Backend) (s : Measurement)
  (i o : list Z) :
  (length o < 3)%nat \/ (length i < 3)%nat ->
  let r := set_channel_layout be i o s in
  snd r = Raised IndexError /\
  channel_layout_input (fst r) = channel_layout_input s /\
  channel_layout_output (fst r) = channel_layout_output s /\
  num_input_channels_used (fst r) = num_input_channels_used s /\
  num_output_channels_used (fst r) = num_output_channels_used s /\
  excitation (fst r) = excitation s /\
  excitation_hpc (fst r) = excitation_hpc s /\
  ((length o < 3)%nat -> fst r = s).
Proof.
  intros H r. subst r.
  destruct o as [| o0 [| o1 [| o2 ro]]];
    try (repeat split; reflexivity).
  assert (Hi : (length i < 3)%nat) by (destruct H as [H | H]; simpl in H; lia).
  unfold set_channel_layout.
  destruct i as [| i0 [| i1 [| i2 ri]]]; simpl in Hi; try lia;
    cbn [mbind lift py_getitem nth_error];
    destruct (o2 <? 0)%Z;
    cbn [mbind lift py_getitem nth_error mret modify py_setitem length
         Nat.ltb Nat.leb fst snd];
    repeat split; intros Ho; simpl in Ho; lia.
Qed.

(** *** X11, for an output layout of two roles *)
Lemma set_channel_layout_short_layout_witness :
  ((length [0; 1]%Z < 3)%nat \/ (length [0; 1; -1]%Z < 3)%nat) /\
  let r := set_channel_layout quiet_backend [0; 1; -1]%Z [0; 1]%Z
             recorded_session in
  snd r = Raised IndexError /\
  channel_layout_input (fst r) = channel_layout_input recorded_session /\
  channel_layout_output (fst r) = channel_layout_output recorded_session /\
  num_input_channels_used (fst r) = num_input_channels_used recorded_session /\
  num_output_channels_used (fst r)
  = num_output_channels_used recorded_session /\
  excitation (fst r) = excitation recorded_session /\
  excitation_hpc (fst r) = excitation_hpc recorded_session /\
  ((length [0; 1]%Z < 3)%nat -> fst r = recorded_session).
Proof.
  assert (H : (length [0; 1]%Z < 3)%nat \/ (length [0; 1; -1]%Z < 3)%nat)
    by (left; simpl; lia).
  split; [ exact H | ].
  exact (set_channel_layout_short_layout quiet_backend recorded_session
           [0; 1; -1]%Z [0; 1]%Z H).
Defined.

(** ** Routing edge cases *)

Lemma set_channel_layout_unfold (be : Backend) (s : Measurement)
  (i0 i1 i2 o0 o1 o2 : Z) (ri ro : list Z) :
  let disabled := ((o2 <? 0) || (i2 <? 0))%Z in
  let i' := if disabled then i0 :: i1 :: (-1)%Z :: ri
            else i0 :: i1 :: i2 :: ri in
  let o' := if disabled then o0 :: o1 :: (-1)%Z :: ro
            else o0 :: o1 :: o2 :: ro in
  set_channel_layout be (i0 :: i1 :: i2 :: ri) (o0 :: o1 :: o2 :: ro) s =
  prepare_audio be
    (with_num_input_channels_used (fold_left Z.max (tl i') (hd 0%Z i') + 1)
       (with_num_output_channels_used
          (fold_left Z.max (tl o') (hd 0%Z o') + 1)
          (with_layout i' o' (with_feedback_loop_used (negb disabled) s)))).
Proof.
  cbv zeta. unfold set_channel_layout.
  destruct (o2 <? 0)%Z eqn:Eo; [ | destruct (i2 <? 0)%Z eqn:Ei ];
    repeat (cbn [mbind lift py_getitem nth_error mret modify py_setitem
                 length Nat.ltb Nat.leb list_set py_max fst snd orb negb
                 tl hd];
            rewrite ?Eo, ?Ei);
    reflexivity.
Qed.

Lemma assign_cols_no_column (n : nat) (src : array2) :
  assign_cols (mkArray2 n (repeat (repeat 0%R n) (Z.to_nat 0)))
    [(-1)%Z; (-1)%Z] src = Raised IndexError.
Proof. reflexivity. Qed.

(** [prepare_audio] on a session without an active output channel. *)
Lemma prepare_audio_without_outputs (be : Backend) (s : Measurement) (fs : R)
  (rest : list Z) :
  sweeps_ok s fs -> sounds_ok be s fs ->
  feedback_loop_used s = false ->
  channel_layout_output s = (-1)%Z :: (-1)%Z :: rest ->
  num_output_channels_used s = 0%Z ->
  snd (prepare_audio be s) = Raised IndexError /\
  num_output_channels_used (fst (prepare_audio be s)) = 0%Z /\
  exists z, excitation (fst (prepare_audio be s)) = Some z /\ ncols z = 0%nat.
Proof.
  intros (Hsd & Hfs & Hd & Hf & Hfade & Hp) (Hok & Hko) Hfb Hlay Hnum.
  destruct (make_excitation_sweep_returns fs 1 _ _ _ _ (amp_db (sweep_parameters s))
              _ Hfs Hd Hf Hfade Hp) as (main & Hmain).
  destruct (make_excitation_sweep_returns fs 1 (1 / 100) (1 / 100) 100 20000 (-20) 0)
    as (dbg & Hdbg); try lra.
  { split; [ lia | apply py_int_nonneg; lra ]. }
  destruct (make_excitation_sweep_returns fs 1 2 1 20 20000 (-20) 0)
    as (hpc & Hhpc); try lra.
  { split; [ lia | apply py_int_nonneg; lra ]. }
  apply is_returned_true in Hok, Hko.
  destruct Hok as (ok & Hok). destruct Hko as (ko & Hko).
  split; [ | split ].
  - unfold prepare_audio, route, mbind, lift, gets, modify, deref, mret.
    cbn beta iota. session_fields. rewrite Hsd. cbn beta iota.
    rewrite Hmain. cbn beta iota. session_fields.
    destruct (dummy_debugging s); cbn beta iota; session_fields;
      rewrite ?Hdbg; cbn beta iota; session_fields;
      rewrite Hhpc; cbn beta iota; session_fields;
      rewrite Hok; cbn beta iota; session_fields;
      rewrite Hko; cbn beta iota; session_fields;
      rewrite Hnum, Hfb, Hlay; cbn [firstn];
      rewrite np_zeros2_returns by lia; cbn beta iota; session_fields;
      rewrite assign_cols_no_column; reflexivity.
  - rewrite (keeps_prepare_audio be num_output_channels_used); [ exact Hnum | ].
    repeat split.
  - unfold prepare_audio, route, mbind, lift, gets, modify, deref, mret.
    cbn beta iota. session_fields. rewrite Hsd. cbn beta iota.
    rewrite Hmain. cbn beta iota. session_fields.
    destruct (dummy_debugging s); cbn beta iota; session_fields;
      rewrite ?Hdbg; cbn beta iota; session_fields;
      rewrite Hhpc; cbn beta iota; session_fields;
      rewrite Hok; cbn beta iota; session_fields;
      rewrite Hko; cbn beta iota; session_fields;
      rewrite Hnum, Hfb, Hlay; cbn [firstn];
      rewrite np_zeros2_returns by lia; cbn beta iota; session_fields;
      rewrite assign_cols_no_column; cbn [fst]; session_fields;
      eexists; (split; [ reflexivity | ]);
      unfold ncols; cbn [columns Z.to_nat repeat length]; reflexivity.
Qed.

(** X12 (set_channel_layout and prepare_audio, lines 198-211 and 264-265).
    When the sweeps can be generated, a layout of three roles that disables
    the feedback loop and both output channels makes [set_channel_layout]
    raise [IndexError]: the session is left with no active output channel
    and an excitation buffer without columns. *)
Theorem all_outputs_disabled (be : Backend) (s : Measurement) (fs : R)
  (i0 i1 i2 o2 : Z) :
  sweeps_ok s fs -> sounds_ok be s fs ->
  (o2 < 0 \/ i2 < 0)%Z ->
  let r := set_channel_layout be [i0; i1; i2] [(-1)%Z; (-1)%Z; o2] s in
  snd r = Raised IndexError /\
  num_output_channels_used (fst r) = 0%Z /\
  channel_layout_output (fst r) = [(-1)%Z; (-1)%Z; (-1)%Z] /\
  exists z, excitation (fst r) = Some z /\ ncols z = 0%nat.
Proof.
  intros Hsw Hso Hdis r. subst r.
  rewrite set_channel_layout_unfold. cbv zeta.
  assert (E : ((o2 <? 0) || (i2 <? 0))%Z = true).
  { destruct Hdis as [H | H]; apply Z.ltb_lt in H; rewrite H;
      [ reflexivity | apply orb_true_r ]. }
  rewrite E. cbn [negb hd tl fold_left Z.max Z.compare Z.add].
  match goal with
  | |- context [prepare_audio be ?s1] =>
      destruct (prepare_audio_without_outputs be s1 fs [(-1)%Z])
        as (H1 & H2 & H3)
  end; try reflexivity.
  - exact Hsw.
  - exact Hso.
  - split; [ exact H1 | ]. split; [ exact H2 | ]. split; [ | exact H3 ].
    rewrite (keeps_prepare_audio be channel_layout_output); [ reflexivity | ].
    repeat split.
Qed.

(** *** X12, on the start-up session *)
Lemma all_outputs_disabled_witness :
  (sweeps_ok startup_session 48000 /\
   sounds_ok quiet_backend startup_session 48000 /\
   (-1 < 0 \/ -1 < 0)%Z) /\
  let r := set_channel_layout quiet_backend [0; 1; -1]%Z
             [(-1)%Z; (-1)%Z; (-1)%Z] startup_session in
  snd r = Raised IndexError /\
  num_output_channels_used (fst r) = 0%Z /\
  channel_layout_output (fst r) = [(-1)%Z; (-1)%Z; (-1)%Z] /\
  exists z, excitation (fst r) = Some z /\ ncols z = 0%nat.
Proof.
  assert (H : (-1 < 0 \/ -1 < 0)%Z) by (left; lia).
  split; [ split; [ exact startup_sweeps_ok
                  | split; [ exact startup_sounds_ok | exact H ] ] | ].
  exact (all_outputs_disabled quiet_backend startup_session 48000 0 1 (-1) (-1)
           startup_sweeps_ok startup_sounds_ok H).
Defined.

(** ** The recorded signals *)

Lemma keeps_store_feedback {X : Type} (be : Backend) (f : Measurement -> X)
  (recorded : array2) (type : option string) :
  (forall v s, f (with_feedback_loop v s) = f s) ->
  keeps f (store_feedback be recorded type).
Proof.
  intros H. unfold store_feedback.
  repeat first [ apply keeps_modify; intros; apply H | keeps_step ].
Qed.

Lemma get_col_nonneg (a : array2) (i : Z) (c : list R) :
  (0 <= i)%Z -> get_col a i = Returned c ->
  (i < Z.of_nat (ncols a))%Z /\ c = nth (Z.to_nat i) (columns a) [].
Proof.
  intros Hi H. unfold get_col, norm_index in H.
  destruct (0 <=? i)%Z eqn:E0; [ | apply Z.leb_gt in E0; lia ].
  destruct (i <? Z.of_nat (ncols a))%Z eqn:E1; [ | discriminate ].
  cbn [obind] in H. injection H as <-.
  apply Z.ltb_lt in E1. auto.
Qed.

(** What the two statements for one ear have stored when they return. *)
Lemma extract_ear_returned (recorded : array2) (position : nat)
  (store : option (list R) -> Measurement -> Measurement)
  (s s' : Measurement) (u : unit) :
  extract_ear recorded position store s = (s', Returned u) ->
  exists i,
    nth_error (channel_layout_input s) position = Some i /\
    ((0 <= i)%Z -> (i < Z.of_nat (ncols recorded))%Z) /\
    s' = store (Some (if (0 <=? i)%Z
                      then nth (Z.to_nat i) (columns recorded) []
                      else repeat 0%R (nrows recorded))) s.
Proof.
  unfold extract_ear. rewrite mbind_gets. intros H.
  apply mbind_lift_returned in H. destruct H as (i & Hi & H).
  unfold py_getitem in Hi.
  destruct (nth_error (channel_layout_input s) position) as [i' | ];
    [ | discriminate ].
  injection Hi as ->. exists i. split; [ reflexivity | ].
  destruct (0 <=? i)%Z eqn:E.
  - apply mbind_lift_returned in H. destruct H as (c & Hc & H).
    apply Z.leb_le in E.
    destruct (get_col_nonneg recorded i c E Hc) as (Hlt & ->).
    unfold modify in H. injection H as <- _. auto.
  - apply Z.leb_gt in E. unfold modify in H. injection H as <- _.
    split; [ lia | reflexivity ].
Qed.

(** X13 (single_measurement, lines 312-340).  A measurement that passes
    the device check and returns has played the excitation of its type and
    stored, for each ear, the column of the recording that the input role
    of that ear names, or zeros of the length of the recording when the
    role is negative; a role that is not negative is a column of the
    recording. *)
Theorem ear_signals (be : Backend) (s s' : Measurement) (type : option string) :
  check_input_settings be (num_input_channels_used s) (sd_default_samplerate s)
  && check_output_settings be (num_output_channels_used s)
       (sd_default_samplerate s) = true ->
  single_measurement be type s = (s', Returned tt) ->
  exists played recorded i0 i1,
    (if is_hpc type then excitation_hpc s else excitation s) = Some played /\
    playrec be played (num_input_channels_used s) = Returned recorded /\
    nth_error (channel_layout_input s) 0 = Some i0 /\
    nth_error (channel_layout_input s) 1 = Some i1 /\
    ((0 <= i0)%Z -> (i0 < Z.of_nat (ncols recorded))%Z) /\
    ((0 <= i1)%Z -> (i1 < Z.of_nat (ncols recorded))%Z) /\
    recorded_sweep_l s'
    = Some (if (0 <=? i0)%Z then nth (Z.to_nat i0) (columns recorded) []
            else repeat 0%R (nrows recorded)) /\
    recorded_sweep_r s'
    = Some (if (0 <=? i1)%Z then nth (Z.to_nat i1) (columns recorded) []
            else repeat 0%R (nrows recorded)).
Proof.
  intros Hcheck H.
  unfold single_measurement in H.
  rewrite !mbind_modify in H. rewrite !mbind_gets in H.
  session_fields_in H. rewrite Hcheck in H.
  apply mbind_lift_returned in H. destruct H as (played & Hplayed & H).
  apply mbind_lift_returned in H. destruct H as (rec & Hrec & H).
  apply mbind_returned in H. destruct H as (s3 & u3 & H3 & H).
  apply mbind_returned in H. destruct H as (s4 & u4 & H4 & H).
  apply extract_ear_returned in H3. destruct H3 as (i0 & Hi0 & Hb0 & E3).
  apply extract_ear_returned in H4. destruct H4 as (i1 & Hi1 & Hb1 & E4).
  pose proof (keeps_store_feedback be recorded_sweep_l rec type
                (fun _ _ => eq_refl) s4) as Kl.
  pose proof (keeps_store_feedback be recorded_sweep_r rec type
                (fun _ _ => eq_refl) s4) as Kr.
  rewrite H in Kl, Kr. cbn [fst] in Kl, Kr.
  assert (Hlay3 : channel_layout_input s3 = channel_layout_input s)
    by (rewrite E3; reflexivity).
  rewrite Hlay3 in Hi1.
  session_fields_in Hi0.
  exists played, rec, i0, i1.
  split.
  { destruct (is_hpc type); session_fields_in Hplayed.
    - destruct (excitation_hpc s); [ congruence | discriminate ].
    - destruct (excitation s); [ congruence | discriminate ]. }
  split; [ exact Hrec | ].
  split; [ exact Hi0 | ]. split; [ exact Hi1 | ].
  split; [ exact Hb0 | ]. split; [ exact Hb1 | ].
  split.
  - rewrite Kl, E4, E3. reflexivity.
  - rewrite Kr, E4. reflexivity.
Qed.

(** *** X13, on the start-up session *)
Lemma ear_signals_witness :
  exists s s',
    (check_input_settings quiet_backend (num_input_channels_used s)
       (sd_default_samplerate s)
     && check_output_settings quiet_backend (num_output_channels_used s)
          (sd_default_samplerate s) = true /\
     single_measurement quiet_backend None s = (s', Returned tt)) /\
    exists played recorded i0 i1,
      (if is_hpc None then excitation_hpc s else excitation s) = Some played /\
      playrec quiet_backend played (num_input_channels_used s)
      = Returned recorded /\
      nth_error (channel_layout_input s) 0 = Some i0 /\
      nth_error (channel_layout_input s) 1 = Some i1 /\
      ((0 <= i0)%Z -> (i0 < Z.of_nat (ncols recorded))%Z) /\
      ((0 <= i1)%Z -> (i1 < Z.of_nat (ncols recorded))%Z) /\
      recorded_sweep_l s'
      = Some (if (0 <=? i0)%Z then nth (Z.to_nat i0) (columns recorded) []
              else repeat 0%R (nrows recorded)) /\
      recorded_sweep_r s'
      = Some (if (0 <=? i1)%Z then nth (Z.to_nat i1) (columns recorded) []
              else repeat 0%R (nrows recorded)).
Proof.
  destruct startup_measurement as (s & s' & _ & Hs').
  exists s, s'.
  split; [ split; [ reflexivity | exact Hs' ] | ].
  exact (ear_signals quiet_backend s s' None eq_refl Hs').
Defined.

(** ** The constructor *)

(** X14 (__init__, lines 119-161).  A session that the constructor returns
    holds no recording, the layout [0, 1, -1] on both sides with two
    channels each and no feedback loop, the default sweep parameters, the
    sample rate of the device or 48000 Hz when none was set, and an
    excitation buffer whose two columns both carry the mono sweep. *)
Theorem init_postcondition (be : Backend) (samplerate : option R)
  (s : Measurement) :
  init be samplerate = Returned s ->
  get_recordings s = (None, None, None) /\
  channel_layout_input s = [0; 1; -1]%Z /\
  channel_layout_output s = [0; 1; -1]%Z /\
  num_input_channels_used s = 2%Z /\
  num_output_channels_used s = 2%Z /\
  feedback_loop_used s = false /\
  get_sweep_parameters s = default_sweep_parameters /\
  get_samplerate s = Some (match samplerate with
                           | Some v => v
                           | None => 48000%R
                           end) /\
  exists e sig,
    excitation s = Some e /\
    sweep_mono s = Some (mkArray2 (length sig) [sig]) /\
    nrows e = length sig /\
    columns e = [sig; sig].
Proof.
  intros H. unfold init in H.
  apply obind_returned in H. destruct H as (ok & _ & H).
  apply obind_returned in H. destruct H as (ko & _ & H).
  set (s0 := fresh_session samplerate ok ko) in *.
  assert (K : forall (X : Type) (f : Measurement -> X),
             derived_free f -> f s = f s0).
  { intros X f Hf. pose proof (keeps_prepare_audio be f Hf s0) as Kf.
    destruct (prepare_audio be s0) as [s1 [u | e]]; [ | discriminate ].
    injection H as <-. exact Kf. }
  assert (Hp : prepare_audio be s0 = (s, Returned tt)).
  { destruct (prepare_audio be s0) as [s1 [[] | e]]; [ | discriminate ].
    injection H as <-. reflexivity. }
  clear H.
  split; [ rewrite (K _ get_recordings) by (repeat split); reflexivity | ].
  split; [ rewrite (K _ channel_layout_input) by (repeat split); reflexivity | ].
  split; [ rewrite (K _ channel_layout_output) by (repeat split); reflexivity | ].
  split; [ rewrite (K _ num_input_channels_used) by (repeat split); reflexivity | ].
  split; [ rewrite (K _ num_output_channels_used) by (repeat split); reflexivity | ].
  split; [ rewrite (K _ feedback_loop_used) by (repeat split); reflexivity | ].
  split; [ rewrite (K _ get_sweep_parameters) by (repeat split); reflexivity | ].
  split.
  { rewrite (K _ get_samplerate) by (repeat split).
    destruct samplerate; reflexivity. }
  apply prepare_audio_returned in Hp.
  destruct Hp as (fs & main & mono & hpc & ok' & ko' & z & e & zh & eh & zs
                  & es & zf & ef & Hp).
  cbv zeta in Hp.
  destruct Hp as (_ & Hmain & Hmono & _ & _ & _ & Hz & He & _ & _ & _ & _ & _ & _
                  & Es).
  change (dummy_debugging s0) with false in Hmono. injection Hmono as <-.
  change (feedback_loop_used s0) with false in He.
  change (channel_layout_output s0) with [0; 1; -1]%Z in He.
  change (num_output_channels_used s0) with 2%Z in Hz.
  cbn [firstn] in He.
  destruct (make_excitation_sweep_shape _ _ _ _ _ _ _ _ _ Hmain) as (sig & Em).
  cbn [repeat] in Em. subst main. cbn [nrows] in Hz.
  destruct (route_columns (length sig) 2 sig [0; 1]%Z z Hz) as (Hspec & _).
  destruct (Hspec e He) as (Hrows & Hcols & Hj).
  exists e, sig.
  split; [ rewrite Es; reflexivity | ].
  split; [ rewrite Es; reflexivity | ].
  split; [ exact Hrows | ].
  assert (H0 : nth 0 (columns e) [] = sig).
  { apply (proj1 (Hj 0%nat)). exists 0%Z. split; [ now left | reflexivity ]. }
  assert (H1 : nth 1 (columns e) [] = sig).
  { apply (proj1 (Hj 1%nat)). exists 1%Z.
    split; [ right; now left | reflexivity ]. }
  unfold ncols in Hcols. change (Z.to_nat 2) with 2%nat in Hcols.
  destruct (columns e) as [| c0 [| c1 [| c2 rest]]]; try discriminate Hcols.
  cbn [nth] in H0, H1. subst. reflexivity.
Qed.

(** *** X14, for the constructor at the default sample rate *)
Lemma init_postcondition_witness :
  exists s,
    init quiet_backend None = Returned s /\
    get_recordings s = (None, None, None) /\
    channel_layout_input s = [0; 1; -1]%Z /\
    channel_layout_output s = [0; 1; -1]%Z /\
    num_input_channels_used s = 2%Z /\
    num_output_channels_used s = 2%Z /\
    feedback_loop_used s = false /\
    get_sweep_parameters s = default_sweep_parameters /\
    get_samplerate s = Some 48000%R /\
    exists e sig,
      excitation s = Some e /\
      sweep_mono s = Some (mkArray2 (length sig) [sig]) /\
      nrows e = length sig /\
      columns e = [sig; sig].
Proof.
  destruct startup_init_returns as (s & Hs).
  exists s. split; [ exact Hs | ].
  exact (init_postcondition quiet_backend None s Hs).
Defined.

(** ** Negative roles and the notification sounds *)

Lemma norm_indices_each (len : nat) (idx : list Z) (js : list nat) (i : Z) :
  norm_indices len idx = Returned js -> In i idx ->
  exists j, norm_index len i = Returned j.
Proof.
  revert js. induction idx as [| a rest IH]; intros js H Hi; [ contradiction | ].
  simpl in H.
  apply obind_returned in H. destruct H as (j0 & Hj0 & H).
  apply obind_returned in H. destruct H as (js0 & Hjs0 & _).
  destruct Hi as [<- | Hi]; [ eauto | eapply IH; eassumption ].
Qed.

(** X15 (prepare_audio, lines 257-265, reached from set_channel_layout).
    A negative role in the first or second place of the output layout is
    not skipped by the routing: when [set_channel_layout] returns, the
    role [r < 0] has selected the column [num_output_channels_used + r],
    counted from the end of the buffer, and that column of the excitation
    carries the mono sweep. *)
Theorem negative_role_selects_column (be : Backend) (s s' : Measurement)
  (i o : list Z) (r : Z) :
  set_channel_layout be i o s = (s', Returned tt) ->
  nth_error o 0 = Some r \/ nth_error o 1 = Some r ->
  (r < 0)%Z ->
  exists e sig,
    excitation s' = Some e /\
    sweep_mono s' = Some (mkArray2 (length sig) [sig]) /\
    (0 <= num_output_channels_used s' + r)%Z /\
    nth (Z.to_nat (num_output_channels_used s' + r)) (columns e) [] = sig.
Proof.
  intros H Hr Hneg.
  apply set_channel_layout_returned in H.
  destruct H as (i0 & i1 & i2 & ri & o0 & o1 & o2 & ro & -> & -> & H).
  cbv zeta in H.
  set (disabled := ((o2 <? 0) || (i2 <? 0))%Z) in *.
  set (o' := if disabled then o0 :: o1 :: (-1)%Z :: ro
             else o0 :: o1 :: o2 :: ro) in *.
  assert (Hin : In r (if negb disabled then o' else firstn 2 o')).
  { subst o'. cbn [nth_error] in Hr.
    destruct disabled; cbn [negb firstn];
      destruct Hr as [Hr | Hr]; injection Hr as <-; simpl; auto. }
  apply prepare_audio_returned in H.
  destruct H as (fs & main & mono & hpc & ok & ko & z & e & zh & eh & zs & es
                 & zf & ef & H).
  cbv zeta in H. session_fields_in H.
  destruct H as (_ & Hmain & Hmono & _ & _ & _ & Hz & He & _ & _ & _ & _ & _ & _
                 & Es).
  assert (Smono : exists sig, mono = mkArray2 (length sig) [sig]).
  { destruct (dummy_debugging s).
    - destruct (make_excitation_sweep_shape _ _ _ _ _ _ _ _ _ Hmono) as (sg & ->).
      exists sg. reflexivity.
    - injection Hmono as <-.
      destruct (make_excitation_sweep_shape _ _ _ _ _ _ _ _ _ Hmain) as (sg & ->).
      exists sg. reflexivity. }
  destruct Smono as (sig & ->). cbn [nrows] in Hz.
  set (num := (fold_left Z.max (tl o') (hd 0%Z o') + 1)%Z) in *.
  assert (Hnum : num_output_channels_used s' = num) by (rewrite Es; reflexivity).
  destruct (route_columns (length sig) num sig
              (if negb disabled then o' else firstn 2 o') z Hz) as (Hspec & _).
  destruct (Hspec e He) as (_ & _ & Hj).
  assert (Hidx : exists j, norm_index (Z.to_nat num) r = Returned j).
  { unfold assign_cols in He.
    apply obind_returned in He. destruct He as (js & Hjs & _).
    unfold np_zeros2 in Hz. destruct (num <? 0)%Z; [ discriminate | ].
    injection Hz as <-. unfold ncols in Hjs. cbn [columns] in Hjs.
    rewrite repeat_length in Hjs.
    eapply norm_indices_each; eassumption. }
  destruct Hidx as (j & Hjr).
  assert (Hval : (0 <= num + r)%Z /\ j = Z.to_nat (num + r)).
  { unfold norm_index in Hjr.
    destruct (0 <=? r)%Z eqn:E0; [ apply Z.leb_le in E0; lia | ].
    destruct (0 <=? r + Z.of_nat (Z.to_nat num))%Z eqn:E1; [ | discriminate ].
    apply Z.leb_le in E1.
    assert (Hj' : Z.to_nat (r + Z.of_nat (Z.to_nat num)) = j) by congruence.
    assert (0 <= num)%Z by lia.
    split; [ lia | ]. rewrite <- Hj'. f_equal. lia. }
  destruct Hval as (Hge & ->).
  exists e, sig.
  split; [ rewrite Es; reflexivity | ].
  split; [ rewrite Es; reflexivity | ].
  rewrite Hnum. split; [ exact Hge | ].
  apply (proj1 (Hj _)). exists r. split; [ exact Hin | exact Hjr ].
Qed.

(** *** X15, for a disabled right output *)
Lemma negative_role_selects_column_witness :
  exists s',
    (set_channel_layout quiet_backend [0; 1; -1]%Z [0; -1; -1]%Z
       startup_session = (s', Returned tt) /\
     (nth_error [0; -1; -1]%Z 0 = Some (-1)%Z
      \/ nth_error [0; -1; -1]%Z 1 = Some (-1)%Z) /\
     (-1 < 0)%Z) /\
    exists e sig,
      excitation s' = Some e /\
      sweep_mono s' = Some (mkArray2 (length sig) [sig]) /\
      (0 <= num_output_channels_used s' + -1)%Z /\
      nth (Z.to_nat (num_output_channels_used s' + -1)) (columns e) [] = sig.
Proof.
  assert (Hv : roles_valid [0; -1; -1]%Z) by (repeat constructor; lia).
  destruct (set_channel_layout_returns quiet_backend startup_session 48000
              0 1 (-1) 0 (-1) (-1) [] [] startup_sweeps_ok startup_sounds_ok)
    as (s' & Hs').
  - exact Hv.
  - simpl. lia.
  - assert (H1 : nth_error [0; -1; -1]%Z 0 = Some (-1)%Z
                 \/ nth_error [0; -1; -1]%Z 1 = Some (-1)%Z)
      by (right; reflexivity).
    assert (H2 : (-1 < 0)%Z) by lia.
    exists s'. split; [ split; [ exact Hs' | split; assumption ] | ].
    exact (negative_role_selects_column quiet_backend startup_session s'
             [0; 1; -1]%Z [0; -1; -1]%Z (-1) Hs' H1 H2).
Defined.

(** X16 (prepare_audio, lines 250-251 and 271-275).  When [prepare_audio]
    returns, each notification sound buffer has one column per active
    output channel and the length of the resampled sound; whatever the
    feedback setting, the columns that the first two output roles select
    hold the resampled sound and every other column is zero. *)
Theorem notification_sound_routing (be : Backend) (s s' : Measurement) :
  prepare_audio be s = (s', Returned tt) ->
  exists fs ok ko es ef,
    let num := Z.to_nat (num_output_channels_used s) in
    let selected (j : nat) :=
      exists r, In r (firstn 2 (channel_layout_output s)) /\
                norm_index num r = Returned j in
    sd_default_samplerate s = Some fs /\
    resample_poly be (sound_success_singlechannel s) (py_round fs)
      (sound_success_fs s) = Returned ok /\
    resample_poly be (sound_failed_singlechannel s) (py_round fs)
      (sound_failed_fs s) = Returned ko /\
    sound_success s' = Some es /\ sound_failed s' = Some ef /\
    nrows es = length ok /\ nrows ef = length ko /\
    ncols es = num /\ ncols ef = num /\
    (forall j, selected j ->
       nth j (columns es) [] = ok /\ nth j (columns ef) [] = ko) /\
    (forall j, (j < num)%nat -> ~ selected j ->
       nth j (columns es) [] = repeat 0%R (length ok) /\
       nth j (columns ef) [] = repeat 0%R (length ko)).
Proof.
  intros H.
  apply prepare_audio_returned in H.
  destruct H as (fs & main & mono & hpc & ok & ko & z & e & zh & eh & zs & es
                 & zf & ef & H).
  cbv zeta in H.
  destruct H as (Hsd & _ & _ & _ & Hok & Hko & _ & _ & _ & _ & Hzs & Hes
                 & Hzf & Hef & Es).
  assert (Hidx : firstn 2 (if feedback_loop_used s then channel_layout_output s
                           else firstn 2 (channel_layout_output s))
                 = firstn 2 (channel_layout_output s)).
  { destruct (feedback_loop_used s); [ reflexivity | ].
    rewrite firstn_firstn. reflexivity. }
  rewrite Hidx in Hes, Hef.
  unfold expand_dims1 in Hes, Hef.
  destruct (route_columns (length ok) _ ok
              (firstn 2 (channel_layout_output s)) zs Hzs) as (Hs1 & _).
  destruct (Hs1 es Hes) as (A1 & A2 & A3).
  destruct (route_columns (length ko) _ ko
              (firstn 2 (channel_layout_output s)) zf Hzf) as (Hs2 & _).
  destruct (Hs2 ef Hef) as (B1 & B2 & B3).
  exists fs, ok, ko, es, ef. cbv zeta.
  split; [ exact Hsd | ]. split; [ exact Hok | ]. split; [ exact Hko | ].
  split; [ rewrite Es; reflexivity | ]. split; [ rewrite Es; reflexivity | ].
  split; [ exact A1 | ]. split; [ exact B1 | ].
  split; [ exact A2 | ]. split; [ exact B2 | ].
  split.
  - intros j Hj. split; [ apply (proj1 (A3 j)) | apply (proj1 (B3 j)) ];
      exact Hj.
  - intros j Hlt Hno.
    split; [ apply (proj2 (A3 j)) | apply (proj2 (B3 j)) ]; assumption.
Qed.

(** *** X16, on the start-up session *)
Lemma notification_sound_routing_witness :
  exists s',
    prepare_audio quiet_backend startup_session = (s', Returned tt) /\
    exists fs ok ko es ef,
      sd_default_samplerate startup_session = Some fs /\
      resample_poly quiet_backend
        (sound_success_singlechannel startup_session) (py_round fs)
        (sound_success_fs startup_session) = Returned ok /\
      resample_poly quiet_backend
        (sound_failed_singlechannel startup_session) (py_round fs)
        (sound_failed_fs startup_session) = Returned ko /\
      sound_success s' = Some es /\ sound_failed s' = Some ef /\
      nrows es = length ok /\ nrows ef = length ko /\
      ncols es = Z.to_nat (num_output_channels_used startup_session) /\
      ncols ef = Z.to_nat (num_output_channels_used startup_session) /\
      (forall j,
         (exists r, In r (firstn 2 (channel_layout_output startup_session)) /\
                    norm_index
                      (Z.to_nat (num_output_channels_used startup_session)) r
                    = Returned j) ->
         nth j (columns es) [] = ok /\ nth j (columns ef) [] = ko) /\
      (forall j,
         (j < Z.to_nat (num_output_channels_used startup_session))%nat ->
         ~ (exists r, In r (firstn 2 (channel_layout_output startup_session)) /\
                      norm_index
                        (Z.to_nat (num_output_channels_used startup_session)) r
                      = Returned j) ->
         nth j (columns es) [] = repeat 0%R (length ok) /\
         nth j (columns ef) [] = repeat 0%R (length ko)).
Proof.
  destruct (prepare_audio_returns quiet_backend startup_session 48000
              startup_sweeps_ok startup_sounds_ok startup_routing_ok)
    as (s' & Hs').
  exists s'. split; [ exact Hs' | ].
  exact (notification_sound_routing quiet_backend startup_session s' Hs').
Defined.

(** * Inputs at which a claim as stated fails *)

(** ** A sample of the default sweep that is not zero *)

Ltac list_lengths :=
  repeat first [ rewrite length_map | rewrite length_combine
               | rewrite length_seq | rewrite length_app
               | rewrite repeat_length ].

Lemma Returned_inj {A : Type} (a b : A) : Returned a = Returned b -> a = b.
Proof. intros H. injection H as H. exact H. Qed.

Lemma nth_map_seq (g : nat -> R) (n k : nat) :
  (k < n)%nat -> nth k (map g (seq 0 n)) 0%R = g k.
Proof.
  intros H.
  rewrite (nth_indep _ 0%R (g 0%nat)) by (rewrite length_map, length_seq; exact H).
  rewrite map_nth, seq_nth by exact H. reflexivity.
Qed.

Lemma ln_lt_self (y : R) : (0 < y)%R -> (ln y < y)%R.
Proof.
  intros Hy. rewrite <- (ln_exp y) at 2.
  apply ln_increasing; [ exact Hy | ].
  pose proof (exp_ineq1_le y). lra.
Qed.

(** For a small positive argument the exponential exceeds 1 by at most
    twice the argument. *)
Lemma exp_small (x : R) : (0 < x <= 1 / 2)%R -> (1 < exp x <= 1 + 2 * x)%R.
Proof.
  intros (H0 & H1).
  pose proof (exp_ineq1 x ltac:(lra)) as Hl.
  pose proof (exp_ineq1_le (- x)) as Hm.
  pose proof (exp_pos x) as Hp.
  assert (E : (exp x * exp (- x) = 1)%R).
  { rewrite <- exp_plus. replace (x + - x)%R with 0%R by ring. apply exp_0. }
  split; [ lra | ]. nra.
Qed.

(** The phase of the default chirp at its second sample is strictly
    between 0 and [pi], so the sample is not zero. *)
Lemma default_chirp_second_sample :
  cos (2 * PI * (3 / ln (22000 / 100)) * 100
       * (Rpower (22000 / 100) ((0 + 1 * ((3 - 0) / (144000 - 1))) / 3) - 1)
       + 90 * PI / 180) <> 0%R.
Proof.
  intros Hc.
  replace (22000 / 100)%R with 220%R in Hc by field.
  replace ((0 + 1 * ((3 - 0) / (144000 - 1))) / 3)%R with (/ 143999)%R in Hc
    by field.
  unfold Rpower in Hc.
  assert (HL0 : (0 < ln 220)%R) by (rewrite <- ln_1; apply ln_increasing; lra).
  pose proof (ln_lt_self 220 ltac:(lra)) as HL1.
  set (L := ln 220) in *.
  assert (Hx : (0 < / 143999 * L <= 1 / 2)%R) by lra.
  pose proof (exp_small _ Hx) as (He1 & He2).
  set (E := exp (/ 143999 * L)) in *.
  pose proof PI_RGT_0 as Hpi.
  set (q := ((E - 1) / L)%R).
  assert (Hq : (0 < q <= 2 / 143999)%R).
  { unfold q. split.
    - apply Rmult_lt_0_compat; [ lra | apply Rinv_0_lt_compat; exact HL0 ].
    - apply (Rmult_le_reg_r L); [ exact HL0 | ].
      unfold Rdiv at 1. rewrite Rmult_assoc, Rinv_l by lra. lra. }
  set (th := (600 * PI * q)%R).
  replace (2 * PI * (3 / L) * 100 * (E - 1) + 90 * PI / 180)%R
    with (PI / 2 + th)%R in Hc by (unfold th, q; field; lra).
  assert (Hs : sin th = 0%R).
  { rewrite (Rtrigo1.sin_cos th). rewrite Hc. ring. }
  assert (Hth : (0 < th < PI)%R).
  { unfold th. split; [ nra | ]. nra. }
  pose proof (sin_gt_0 th (proj1 Hth) (proj2 Hth)). lra.
Qed.

(** A sample of a generated sweep before the fade: the amplitude times
    the chirp at the time of the sample. *)
Lemma faded_sweep_sample (fs d f0 f1 a : R) (fade : Z) (sweep : list R)
  (k : nat) :
  faded_sweep fs d f0 f1 a fade = Returned sweep ->
  f0 <> f1 ->
  (k + Z.to_nat fade < Z.to_nat (py_int (d * fs)))%nat ->
  (k < length sweep)%nat /\
  nth k sweep 0%R
  = (Rpower 10 (a / 20)
     * cos (2 * PI * (d / ln (f1 / f0)) * f0
            * (Rpower (f1 / f0)
                 ((0 + INR k
                       * ((d - 0) / (INR (Z.to_nat (py_int (d * fs))) - 1)))
                  / d) - 1)
            + 90 * PI / 180) * 1)%R.
Proof.
  unfold faded_sweep. intros H Hf Hk.
  apply obind_returned in H. destruct H as (t & Ht & H).
  apply obind_returned in H. destruct H as (ch & Hch & H).
  apply obind_returned in H. destruct H as (w & Hw & H).
  pose proof (linspace_length _ _ _ _ Ht) as (_ & Hn).
  rewrite linspace_returns in Ht by exact Hn.
  apply Returned_inj in Ht. subst t.
  set (n := Z.to_nat (py_int (d * fs))) in *.
  unfold chirp_log in Hch.
  destruct (Rle_dec (f0 * f1) 0) as [ | _ ]; [ discriminate | ].
  destruct (Req_dec_T f0 f1) as [ E | _ ]; [ contradiction | ].
  apply Returned_inj in Hch. subst ch.
  rewrite !map_map in Hw, H.
  rewrite length_map, length_seq in Hw.
  destruct (fade_window_returned _ _ _ Hw) as (Hlw & _ & Hfade).
  assert (Hfit : (0 <= fade <= Z.of_nat n)%Z) by lia.
  rewrite fade_window_fits in Hw by exact Hfit.
  apply Returned_inj in Hw. subst w.
  rewrite bcast2_same_length in H by (list_lengths; lia).
  apply Returned_inj in H. subst sweep.
  split; [ list_lengths; lia | ].
  rewrite nth_map_combine by (list_lengths; lia).
  rewrite nth_map_seq by lia.
  rewrite app_nth1 by (rewrite repeat_length; lia).
  rewrite nth_repeat_lt by lia.
  reflexivity.
Qed.

(** The second sample of the sweep at the default parameters and 48000 Hz. *)
Lemma default_sweep_second_sample (sweep : list R) :
  faded_sweep 48000 3 100 22000 (-20) 200 = Returned sweep ->
  (1 < length sweep)%nat /\ nth 1 sweep 0%R <> 0%R.
Proof.
  intros H.
  assert (Hn : py_int (3 * 48000) = 144000%Z).
  { replace (3 * 48000)%R with (IZR 144000) by (simpl; lra).
    apply py_int_IZR. lia. }
  destruct (faded_sweep_sample _ _ _ _ _ _ _ 1 H) as (Hlen & Hs).
  { lra. }
  { rewrite Hn. lia. }
  split; [ exact Hlen | ].
  rewrite Hs, Hn.
  rewrite (INR_IZR_INZ (Z.to_nat 144000)), Z2Nat.id by lia. cbn [INR].
  assert (HP : (0 < Rpower 10 (-20 / 20))%R) by (unfold Rpower; apply exp_pos).
  pose proof default_chirp_second_sample as Hc.
  intros E. apply Hc. nra.
Qed.

(** The excitation generated at the default parameters and 48000 Hz has one
    column, and that column has a sample that is not zero. *)
Lemma default_excitation_column (main : array2) :
  make_excitation_sweep 48000 1 3 (3 / 2) 100 22000 (-20) 200 = Returned main ->
  exists sig k,
    main = mkArray2 (length sig) [sig] /\
    (k < length sig)%nat /\ nth k sig 0%R <> 0%R.
Proof.
  unfold make_excitation_sweep. intros H.
  apply obind_returned in H. destruct H as (sweep & Hs & H).
  apply obind_returned in H. destruct H as (exc & Hp & H).
  apply Returned_inj in H. subst main.
  apply np_pad_returned in Hp. destruct Hp as (_ & _ & Hexc).
  destruct (default_sweep_second_sample sweep Hs) as (Hlen & Hne).
  set (pre := Z.to_nat (py_int (48000 * (1 / 100)))) in *.
  exists exc, (pre + 1)%nat.
  split; [ reflexivity | ].
  rewrite Hexc. split.
  - rewrite !length_app, !repeat_length. lia.
  - rewrite app_nth2 by (rewrite repeat_length; lia).
    rewrite repeat_length.
    replace (pre + 1 - pre)%nat with 1%nat by lia.
    rewrite app_nth1 by exact Hlen. exact Hne.
Qed.

(** ** [prepare_audio] for roles that are in range of the buffer *)

Lemma Forall_firstn_of {A : Type} (P : A -> Prop) (k : nat) (l : list A) :
  Forall P l -> Forall P (firstn k l).
Proof.
  intros H. apply Forall_forall. intros a Ha.
  apply (proj1 (Forall_forall _ _) H). apply (firstn_incl k l). exact Ha.
Qed.

(** [prepare_audio] returns as soon as the sweeps and the sounds are
    generated and every routed role is an index, from the front or from the
    end, of a buffer with [num_output_channels_used] columns. *)
Lemma prepare_audio_returns_in_range (be : Backend) (s : Measurement) (fs : R) :
  sweeps_ok s fs -> sounds_ok be s fs ->
  (0 <= num_output_channels_used s)%Z ->
  Forall (fun r => is_returned
                     (norm_index (Z.to_nat (num_output_channels_used s)) r)
                   = true)
    (if feedback_loop_used s then channel_layout_output s
     else firstn 2 (channel_layout_output s)) ->
  exists s', prepare_audio be s = (s', Returned tt).
Proof.
  intros (Hsd & Hfs & Hd & Hf & Hfade & Hp) (Hok & Hko) H0 Hidx.
  destruct (make_excitation_sweep_returns fs 1 _ _ _ _ (amp_db (sweep_parameters s))
              _ Hfs Hd Hf Hfade Hp) as (main & Hmain).
  destruct (make_excitation_sweep_returns fs 1 (1 / 100) (1 / 100) 100 20000 (-20) 0)
    as (dbg & Hdbg); try lra.
  { split; [ lia | apply py_int_nonneg; lra ]. }
  destruct (make_excitation_sweep_returns fs 1 2 1 20 20000 (-20) 0)
    as (hpc & Hhpc); try lra.
  { split; [ lia | apply py_int_nonneg; lra ]. }
  apply is_returned_true in Hok, Hko.
  destruct Hok as (ok & Hok). destruct Hko as (ko & Hko).
  destruct (make_excitation_sweep_shape _ _ _ _ _ _ _ _ _ Hmain) as (sm & Em).
  destruct (make_excitation_sweep_shape _ _ _ _ _ _ _ _ _ Hdbg) as (sd & Ed).
  destruct (make_excitation_sweep_shape _ _ _ _ _ _ _ _ _ Hhpc) as (sh & Eh).
  cbn [repeat] in Em, Ed, Eh.
  set (out_channels := if feedback_loop_used s then channel_layout_output s
                       else firstn 2 (channel_layout_output s)) in *.
  assert (Hidx2 : Forall (fun r => is_returned
                            (norm_index (Z.to_nat (num_output_channels_used s)) r)
                          = true) (firstn 2 out_channels))
    by (apply Forall_firstn_of; exact Hidx).
  assert (Route : forall (sig : list R) (idx : list Z),
             Forall (fun r => is_returned
                       (norm_index (Z.to_nat (num_output_channels_used s)) r)
                     = true) idx ->
             exists z e,
               np_zeros2 (length sig) (num_output_channels_used s) = Returned z /\
               assign_cols z idx (mkArray2 (length sig) [sig]) = Returned e).
  { intros sig idx Hi.
    pose proof (np_zeros2_returns (length sig) _ H0) as Hz.
    destruct (route_columns _ _ sig idx _ Hz) as (_ & Hret).
    destruct (Hret Hi) as (e & He).
    eexists. exists e. split; [ exact Hz | exact He ]. }
  destruct (Route sm out_channels Hidx) as (zm & em & Hzm & Hem).
  destruct (Route sd out_channels Hidx) as (zd & ed & Hzd & Hed).
  destruct (Route sh out_channels Hidx) as (zh & eh & Hzh & Heh).
  destruct (Route ok (firstn 2 out_channels) Hidx2) as (zs & es & Hzs & Hes).
  destruct (Route ko (firstn 2 out_channels) Hidx2) as (zf & ef & Hzf & Hef).
  clear Route.
  rewrite <- Em in Hem. rewrite <- Ed in Hed. rewrite <- Eh in Heh.
  replace (length sm) with (nrows main) in Hzm by (rewrite Em; reflexivity).
  replace (length sd) with (nrows dbg) in Hzd by (rewrite Ed; reflexivity).
  replace (length sh) with (nrows hpc) in Hzh by (rewrite Eh; reflexivity).
  clear Em Ed Eh.
  change (mkArray2 (length ok) [ok]) with (expand_dims1 ok) in Hes.
  change (mkArray2 (length ko) [ko]) with (expand_dims1 ko) in Hef.
  unfold prepare_audio, route, mbind, lift, gets, modify, deref, mret.
  cbn beta iota. session_fields. rewrite Hsd. cbn beta iota.
  rewrite Hmain. cbn beta iota. session_fields.
  fold out_channels.
  destruct (dummy_debugging s); cbn beta iota; session_fields;
    rewrite ?Hdbg; cbn beta iota; session_fields;
    rewrite Hhpc; cbn beta iota; session_fields;
    rewrite Hok; cbn beta iota; session_fields;
    rewrite Hko; cbn beta iota; session_fields;
    fold out_channels;
    rewrite ?Hzm, ?Hzd; cbn beta iota; session_fields;
    rewrite ?Hem, ?Hed; cbn beta iota; session_fields;
    rewrite Hzh; cbn beta iota; session_fields;
    rewrite Heh; cbn beta iota; session_fields;
    rewrite Hzs; cbn beta iota; session_fields;
    rewrite Hes; cbn beta iota; session_fields;
    rewrite Hzf; cbn beta iota; session_fields;
    rewrite Hef; cbn beta iota; session_fields;
    eexists; reflexivity.
Qed.

(** ** C3 outside the data model *)

(** C3 as stated fails: [set_channel_layout] accepts the output layout
    [-2, 1, -1].  The buffers then have two columns, the only enabled output
    role is 1, and the role [-2] is used as an index from the end: column 0,
    which no enabled role designates, carries the sweep. *)
Lemma role_below_minus_one_fills_undesignated_column :
  exists s' e,
    set_channel_layout quiet_backend [0; 1; -1]%Z [-2; 1; -1]%Z startup_session
    = (s', Returned tt) /\
    excitation s' = Some e /\
    ncols e = 2%nat /\
    enabled_roles (channel_layout_output s') = [1%Z] /\
    ~ In (Z.of_nat 0) (enabled_roles (channel_layout_output s')) /\
    nth 0 (columns e) [] <> repeat 0%R (nrows e).
Proof.
  pose proof (set_channel_layout_unfold quiet_backend startup_session
                0 1 (-1) (-2) 1 (-1) [] []) as E.
  cbv zeta in E.
  cbn [Z.ltb Z.compare orb negb hd tl fold_left Z.max Z.add Pos.compare
       Pos.compare_cont Z.pos_sub Z.opp Pos.add Pos.succ Z.succ_double
       Z.pred_double Z.double Pos.pred_double] in E.
  set (s1 := with_num_input_channels_used 2
               (with_num_output_channels_used 2
                  (with_layout [0; 1; -1]%Z [-2; 1; -1]%Z
                     (with_feedback_loop_used false startup_session)))) in *.
  destruct (prepare_audio_returns_in_range quiet_backend s1 48000)
    as (s' & Hs').
  - exact startup_sweeps_ok.
  - split; reflexivity.
  - subst s1. session_fields. lia.
  - subst s1. session_fields. cbn [firstn].
    repeat constructor.
  - pose proof (prepare_audio_returned quiet_backend _ _ Hs') as Hr.
    destruct Hr as (fs & main & mono & hpc & ok & ko & z & e & zh & eh & zs & es
                    & zf & ef & Hr).
    cbv zeta in Hr. subst s1. session_fields_in Hr.
    destruct Hr as (Hsd & Hmain & Hmono & _ & _ & _ & Hz & He & _ & _ & _ & _
                    & _ & _ & Es).
    cbn [startup_session fresh_session sd_default_samplerate sweep_parameters
         dummy_debugging default_sweep_parameters sweeplength_sec
         post_silence_sec f_start f_end amp_db fade_out_samples]
      in Hsd, Hmain, Hmono.
    apply (f_equal (fun o => match o with Some v => v | None => 0%R end)) in Hsd.
    cbn beta iota in Hsd. subst fs.
    apply Returned_inj in Hmono. subst mono.
    destruct (default_excitation_column main Hmain) as (sig & k & Em & Hk & Hne).
    subst main. cbn [nrows firstn] in Hz, He.
    destruct (route_columns (length sig) 2 sig [-2; 1]%Z z Hz) as (Hspec & _).
    destruct (Hspec e He) as (Hrows & Hcols & Hj).
    exists s', e.
    split; [ rewrite E; exact Hs' | ].
    split; [ rewrite Es; reflexivity | ].
    split; [ exact Hcols | ].
    assert (Hlay : channel_layout_output s' = [-2; 1; -1]%Z)
      by (rewrite Es; reflexivity).
    rewrite Hlay.
    split; [ reflexivity | ].
    split.
    { cbn. intros [F | []]. discriminate F. }
    assert (H0 : nth 0 (columns e) [] = sig).
    { apply (proj1 (Hj 0%nat)). exists (-2)%Z.
      split; [ now left | reflexivity ]. }
    rewrite H0, Hrows. intros F.
    apply Hne. rewrite F. apply nth_repeat.
Qed.

(** ** C7 when the device rejects the settings *)

